(** * Batumi: the user interface and the processor of the quad LFO

    A shallow embedding of [Ui] (ui.h and its implementation) and of
    [Processor] (the orchestration of the four LFOs), followed by the
    properties established about them.

    Machine integers are integers of [Z] with the conversions to the
    declared C++ type written out where a value is stored ([u16], [s8],
    ...); arithmetic in [int32_t] is exact on the 16-bit samples it is
    applied to and is written without wrap-around.  Arrays of four
    elements are lists updated by index; an index outside the array is
    undefined behaviour in the source, and the statements below keep every
    index inside its array. *)

From Stdlib Require Import ZArith Lia List Bool.
From stdpp Require Import base list.
Import ListNotations.

Local Open Scope Z_scope.

(** ** Machine integers *)

Module Int.

Definition u8 (x : Z) : Z := x mod 256.
Definition u16 (x : Z) : Z := x mod 65536.
Definition u32 (x : Z) : Z := x mod 4294967296.
Definition s8 (x : Z) : Z := (x + 128) mod 256 - 128.
Definition s16 (x : Z) : Z := (x + 32768) mod 65536 - 32768.
Definition s32 (x : Z) : Z := (x + 2147483648) mod 4294967296 - 2147483648.

Definition UINT16_MAX : Z := 65535.
Definition INT16_MAX : Z := 32767.

(** stmlib's [CONSTRAIN(var, min, max)]: [if (var < min) var = min; else
    if (var > max) var = max;]. *)
Definition CONSTRAIN (var lo hi : Z) : Z :=
  if var <? lo then lo else if var >? hi then hi else var.

(** [>>] on a signed operand is the arithmetic shift of the target. *)
Definition asr (x n : Z) : Z := Z.shiftr x n.

(** [/] and [%] of C++ truncate towards zero. *)
Definition cdiv (a b : Z) : Z := Z.quot a b.
Definition cmod (a b : Z) : Z := Z.rem a b.

End Int.
Import Int.

#[global] Arguments u8 : simpl never.
#[global] Arguments u16 : simpl never.
#[global] Arguments u32 : simpl never.
#[global] Arguments s8 : simpl never.
#[global] Arguments s16 : simpl never.
#[global] Arguments s32 : simpl never.
#[global] Arguments asr : simpl never.
#[global] Arguments cdiv : simpl never.
#[global] Arguments cmod : simpl never.
#[global] Arguments CONSTRAIN : simpl never.

(** ** Arrays *)

(** [a[i]] and [a[i] = v] for an array held as a list. *)
Definition at_ {A} `{Inhabited A} (a : list A) (i : nat) : A := a !!! i.
Definition upd {A} (a : list A) (i : nat) (v : A) : list A := <[i := v]> a.

(** ** The data of ui.h *)

Inductive FeatureMode :=
| FEAT_MODE_FREE | FEAT_MODE_QUAD | FEAT_MODE_PHASE | FEAT_MODE_DIVIDE
| FEAT_MODE_LAST.

Inductive UiMode :=
| UI_MODE_SPLASH | UI_MODE_NORMAL | UI_MODE_ZOOM
| UI_MODE_RANDOM_WAVEFORM_SELECT | UI_MODE_SPLASH_FOR_RANDOM_WAVEFORM_SELECT.

Inductive WaveBank := BANK_CLASSIC | BANK_RANDOM | BANK_LAST.

#[global] Instance FeatureMode_eq_dec : EqDecision FeatureMode.
Proof. solve_decision. Defined.
#[global] Instance UiMode_eq_dec : EqDecision UiMode.
Proof. solve_decision. Defined.
#[global] Instance WaveBank_eq_dec : EqDecision WaveBank.
Proof. solve_decision. Defined.
#[global] Instance WaveBank_inhabited : Inhabited WaveBank := populate BANK_CLASSIC.

Definition FeatureMode_to_Z (m : FeatureMode) : Z :=
  match m with
  | FEAT_MODE_FREE => 0 | FEAT_MODE_QUAD => 1 | FEAT_MODE_PHASE => 2
  | FEAT_MODE_DIVIDE => 3 | FEAT_MODE_LAST => 4
  end.

Definition FeatureMode_of_Z (z : Z) : FeatureMode :=
  match z with
  | 0 => FEAT_MODE_FREE | 1 => FEAT_MODE_QUAD | 2 => FEAT_MODE_PHASE
  | 3 => FEAT_MODE_DIVIDE | _ => FEAT_MODE_LAST
  end.

(** stmlib's events: a control type, the id of the control and a datum. *)
Inductive ControlType := CONTROL_POT | CONTROL_SWITCH.

Record Event := { control_type : ControlType; control_id : Z; data : Z }.

#[global] Instance ControlType_eq_dec : EqDecision ControlType.
Proof. solve_decision. Defined.
#[global] Instance Event_eq_dec : EqDecision Event.
Proof. solve_decision. Defined.

(** The drivers of the switches and of the LEDs are not part of these
    sources.  The switches are numbered as ui.h reads them: [pressed(0)]
    is the sync switch, [pressed(1)] and [pressed(2)] the two waveform
    switches, and the select button is the last of the four; there is one
    LED per channel. *)
Definition SWITCH_SYNC : Z := 0.
Definition SWITCH_WAV1 : Z := 1.
Definition SWITCH_WAV2 : Z := 2.
Definition SWITCH_SELECT : Z := 3.
Definition kNumSwitches : Z := 4.
Definition kNumLeds : nat := 4.

(** The block saved to and loaded from flash is the [SETTINGS_SIZE] bytes
    that start at [feat_mode_].  The members lie in the order of their
    declaration: [feat_mode_], [padding], [bank_],
    [classic_waveform_index_], [random_waveform_index_], the fine, level
    and attenuation arrays and the phase array.  [SETTINGS_SIZE] adds up
    the sizes of all of them but [classic_waveform_index_], whose four
    bytes are inside the range: so the block holds every member up to
    the attenuation array, [classic_waveform_index_] among them, and ends
    inside [pot_phase_value_], four bytes (less what the alignment of
    [bank_] takes) after its start.  Its elements 2 and 3 are never in
    the block; element 0 always is; how much of element 1 is depends on
    the size the compiler gives an enum and on the order of the bytes of
    an integer.  [Layout] says what holds of every such layout:
    [phase_image] is the part of the phase array that lies in the block
    and [phase_restore] the phase array after a block is copied back over
    it. *)
Class Layout := {
  phase_image : list Z -> list Z;
  phase_restore : list Z -> list Z -> list Z;
  phase_restore_length :
    forall image current, length (phase_restore image current) = length current;
  phase_restore_tail :
    forall image current i, (2 <= i)%nat ->
      at_ (phase_restore image current) i = at_ current i;
  phase_image_head :
    forall l l', at_ l 0 = at_ l' 0 -> at_ l 1 = at_ l' 1 ->
      phase_image l = phase_image l';
  phase_restore_first :
    forall l current, (0 < length current)%nat ->
      at_ (phase_restore (phase_image l) current) 0 = at_ l 0;
  phase_restore_same :
    forall l, phase_restore (phase_image l) l = l
}.

(** The block, member by member (the padding, which nothing reads, is
    left out). *)
Record Settings := {
  s_feat_mode : FeatureMode;
  s_bank : list WaveBank;
  s_classic_waveform_index : list Z;
  s_random_waveform_index : list Z;
  s_pot_fine_value : list Z;
  s_pot_level_value : list Z;
  s_pot_atten_value : list Z;
  s_pot_phase_image : list Z
}.

Record Ui := {
  pot_value_ : list Z;
  pot_filtered_value_ : list Z;
  pot_coarse_value_ : list Z;
  last_touched_pot_ : Z;
  press_time_ : list Z;
  detect_very_long_press_ : list bool;
  detect_clear_settings_long_press_ : list bool;
  catchup_state_ : list bool;
  animation_counter_ : Z;
  queue_ : list Event;
  leds_ : list bool;
  mode_ : UiMode;
  feat_mode_ : FeatureMode;
  bank_ : list WaveBank;
  classic_waveform_index_ : list Z;
  random_waveform_index_ : list Z;
  pot_fine_value_ : list Z;
  pot_level_value_ : list Z;
  pot_atten_value_ : list Z;
  pot_phase_value_ : list Z;
  version_token_ : Z;
  (** the image last written to flash by [storage], if any *)
  storage : option Settings
}.

(** Field updates. *)

Definition set_pot_value (v : list Z) (x : Ui) : Ui :=
  {| pot_value_ := v; pot_filtered_value_ := pot_filtered_value_ x;
     pot_coarse_value_ := pot_coarse_value_ x;
     last_touched_pot_ := last_touched_pot_ x; press_time_ := press_time_ x;
     detect_very_long_press_ := detect_very_long_press_ x;
     detect_clear_settings_long_press_ := detect_clear_settings_long_press_ x;
     catchup_state_ := catchup_state_ x;
     animation_counter_ := animation_counter_ x; queue_ := queue_ x;
     leds_ := leds_ x; mode_ := mode_ x; feat_mode_ := feat_mode_ x;
     bank_ := bank_ x; classic_waveform_index_ := classic_waveform_index_ x;
     random_waveform_index_ := random_waveform_index_ x;
     pot_fine_value_ := pot_fine_value_ x;
     pot_level_value_ := pot_level_value_ x;
     pot_atten_value_ := pot_atten_value_ x;
     pot_phase_value_ := pot_phase_value_ x;
     version_token_ := version_token_ x; storage := storage x |}.

Definition set_pot_filtered_value (v : list Z) (x : Ui) : Ui :=
  {| pot_value_ := pot_value_ x; pot_filtered_value_ := v;
     pot_coarse_value_ := pot_coarse_value_ x;
     last_touched_pot_ := last_touched_pot_ x; press_time_ := press_time_ x;
     detect_very_long_press_ := detect_very_long_press_ x;
     detect_clear_settings_long_press_ := detect_clear_settings_long_press_ x;
     catchup_state_ := catchup_state_ x;
     animation_counter_ := animation_counter_ x; queue_ := queue_ x;
     leds_ := leds_ x; mode_ := mode_ x; feat_mode_ := feat_mode_ x;
     bank_ := bank_ x; classic_waveform_index_ := classic_waveform_index_ x;
     random_waveform_index_ := random_waveform_index_ x;
     pot_fine_value_ := pot_fine_value_ x;
     pot_level_value_ := pot_level_value_ x;
     pot_atten_value_ := pot_atten_value_ x;
     pot_phase_value_ := pot_phase_value_ x;
     version_token_ := version_token_ x; storage := storage x |}.

Definition set_pot_coarse_value (v : list Z) (x : Ui) : Ui :=
  {| pot_value_ := pot_value_ x; pot_filtered_value_ := pot_filtered_value_ x;
     pot_coarse_value_ := v; last_touched_pot_ := last_touched_pot_ x;
     press_time_ := press_time_ x;
     detect_very_long_press_ := detect_very_long_press_ x;
     detect_clear_settings_long_press_ := detect_clear_settings_long_press_ x;
     catchup_state_ := catchup_state_ x;
     animation_counter_ := animation_counter_ x; queue_ := queue_ x;
     leds_ := leds_ x; mode_ := mode_ x; feat_mode_ := feat_mode_ x;
     bank_ := bank_ x; classic_waveform_index_ := classic_waveform_index_ x;
     random_waveform_index_ := random_waveform_index_ x;
     pot_fine_value_ := pot_fine_value_ x;
     pot_level_value_ := pot_level_value_ x;
     pot_atten_value_ := pot_atten_value_ x;
     pot_phase_value_ := pot_phase_value_ x;
     version_token_ := version_token_ x; storage := storage x |}.

Definition set_last_touched_pot (v : Z) (x : Ui) : Ui :=
  {| pot_value_ := pot_value_ x; pot_filtered_value_ := pot_filtered_value_ x;
     pot_coarse_value_ := pot_coarse_value_ x; last_touched_pot_ := v;
     press_time_ := press_time_ x;
     detect_very_long_press_ := detect_very_long_press_ x;
     detect_clear_settings_long_press_ := detect_clear_settings_long_press_ x;
     catchup_state_ := catchup_state_ x;
     animation_counter_ := animation_counter_ x; queue_ := queue_ x;
     leds_ := leds_ x; mode_ := mode_ x; feat_mode_ := feat_mode_ x;
     bank_ := bank_ x; classic_waveform_index_ := classic_waveform_index_ x;
     random_waveform_index_ := random_waveform_index_ x;
     pot_fine_value_ := pot_fine_value_ x;
     pot_level_value_ := pot_level_value_ x;
     pot_atten_value_ := pot_atten_value_ x;
     pot_phase_value_ := pot_phase_value_ x;
     version_token_ := version_token_ x; storage := storage x |}.

Definition set_press_time (v : list Z) (x : Ui) : Ui :=
  {| pot_value_ := pot_value_ x; pot_filtered_value_ := pot_filtered_value_ x;
     pot_coarse_value_ := pot_coarse_value_ x;
     last_touched_pot_ := last_touched_pot_ x; press_time_ := v;
     detect_very_long_press_ := detect_very_long_press_ x;
     detect_clear_settings_long_press_ := detect_clear_settings_long_press_ x;
     catchup_state_ := catchup_state_ x;
     animation_counter_ := animation_counter_ x; queue_ := queue_ x;
     leds_ := leds_ x; mode_ := mode_ x; feat_mode_ := feat_mode_ x;
     bank_ := bank_ x; classic_waveform_index_ := classic_waveform_index_ x;
     random_waveform_index_ := random_waveform_index_ x;
     pot_fine_value_ := pot_fine_value_ x;
     pot_level_value_ := pot_level_value_ x;
     pot_atten_value_ := pot_atten_value_ x;
     pot_phase_value_ := pot_phase_value_ x;
     version_token_ := version_token_ x; storage := storage x |}.

Definition set_detect_very_long_press (v : list bool) (x : Ui) : Ui :=
  {| pot_value_ := pot_value_ x; pot_filtered_value_ := pot_filtered_value_ x;
     pot_coarse_value_ := pot_coarse_value_ x;
     last_touched_pot_ := last_touched_pot_ x; press_time_ := press_time_ x;
     detect_very_long_press_ := v;
     detect_clear_settings_long_press_ := detect_clear_settings_long_press_ x;
     catchup_state_ := catchup_state_ x;
     animation_counter_ := animation_counter_ x; queue_ := queue_ x;
     leds_ := leds_ x; mode_ := mode_ x; feat_mode_ := feat_mode_ x;
     bank_ := bank_ x; classic_waveform_index_ := classic_waveform_index_ x;
     random_waveform_index_ := random_waveform_index_ x;
     pot_fine_value_ := pot_fine_value_ x;
     pot_level_value_ := pot_level_value_ x;
     pot_atten_value_ := pot_atten_value_ x;
     pot_phase_value_ := pot_phase_value_ x;
     version_token_ := version_token_ x; storage := storage x |}.

Definition set_detect_clear_settings_long_press (v : list bool) (x : Ui) : Ui :=
  {| pot_value_ := pot_value_ x; pot_filtered_value_ := pot_filtered_value_ x;
     pot_coarse_value_ := pot_coarse_value_ x;
     last_touched_pot_ := last_touched_pot_ x; press_time_ := press_time_ x;
     detect_very_long_press_ := detect_very_long_press_ x;
     detect_clear_settings_long_press_ := v;
     catchup_state_ := catchup_state_ x;
     animation_counter_ := animation_counter_ x; queue_ := queue_ x;
     leds_ := leds_ x; mode_ := mode_ x; feat_mode_ := feat_mode_ x;
     bank_ := bank_ x; classic_waveform_index_ := classic_waveform_index_ x;
     random_waveform_index_ := random_waveform_index_ x;
     pot_fine_value_ := pot_fine_value_ x;
     pot_level_value_ := pot_level_value_ x;
     pot_atten_value_ := pot_atten_value_ x;
     pot_phase_value_ := pot_phase_value_ x;
     version_token_ := version_token_ x; storage := storage x |}.

Definition set_catchup_state (v : list bool) (x : Ui) : Ui :=
  {| pot_value_ := pot_value_ x; pot_filtered_value_ := pot_filtered_value_ x;
     pot_coarse_value_ := pot_coarse_value_ x;
     last_touched_pot_ := last_touched_pot_ x; press_time_ := press_time_ x;
     detect_very_long_press_ := detect_very_long_press_ x;
     detect_clear_settings_long_press_ := detect_clear_settings_long_press_ x;
     catchup_state_ := v; animation_counter_ := animation_counter_ x;
     queue_ := queue_ x; leds_ := leds_ x; mode_ := mode_ x;
     feat_mode_ := feat_mode_ x; bank_ := bank_ x;
     classic_waveform_index_ := classic_waveform_index_ x;
     random_waveform_index_ := random_waveform_index_ x;
     pot_fine_value_ := pot_fine_value_ x;
     pot_level_value_ := pot_level_value_ x;
     pot_atten_value_ := pot_atten_value_ x;
     pot_phase_value_ := pot_phase_value_ x;
     version_token_ := version_token_ x; storage := storage x |}.

Definition set_animation_counter (v : Z) (x : Ui) : Ui :=
  {| pot_value_ := pot_value_ x; pot_filtered_value_ := pot_filtered_value_ x;
     pot_coarse_value_ := pot_coarse_value_ x;
     last_touched_pot_ := last_touched_pot_ x; press_time_ := press_time_ x;
     detect_very_long_press_ := detect_very_long_press_ x;
     detect_clear_settings_long_press_ := detect_clear_settings_long_press_ x;
     catchup_state_ := catchup_state_ x; animation_counter_ := v;
     queue_ := queue_ x; leds_ := leds_ x; mode_ := mode_ x;
     feat_mode_ := feat_mode_ x; bank_ := bank_ x;
     classic_waveform_index_ := classic_waveform_index_ x;
     random_waveform_index_ := random_waveform_index_ x;
     pot_fine_value_ := pot_fine_value_ x;
     pot_level_value_ := pot_level_value_ x;
     pot_atten_value_ := pot_atten_value_ x;
     pot_phase_value_ := pot_phase_value_ x;
     version_token_ := version_token_ x; storage := storage x |}.

Definition set_queue (v : list Event) (x : Ui) : Ui :=
  {| pot_value_ := pot_value_ x; pot_filtered_value_ := pot_filtered_value_ x;
     pot_coarse_value_ := pot_coarse_value_ x;
     last_touched_pot_ := last_touched_pot_ x; press_time_ := press_time_ x;
     detect_very_long_press_ := detect_very_long_press_ x;
     detect_clear_settings_long_press_ := detect_clear_settings_long_press_ x;
     catchup_state_ := catchup_state_ x;
     animation_counter_ := animation_counter_ x; queue_ := v;
     leds_ := leds_ x; mode_ := mode_ x; feat_mode_ := feat_mode_ x;
     bank_ := bank_ x; classic_waveform_index_ := classic_waveform_index_ x;
     random_waveform_index_ := random_waveform_index_ x;
     pot_fine_value_ := pot_fine_value_ x;
     pot_level_value_ := pot_level_value_ x;
     pot_atten_value_ := pot_atten_value_ x;
     pot_phase_value_ := pot_phase_value_ x;
     version_token_ := version_token_ x; storage := storage x |}.

Definition set_leds (v : list bool) (x : Ui) : Ui :=
  {| pot_value_ := pot_value_ x; pot_filtered_value_ := pot_filtered_value_ x;
     pot_coarse_value_ := pot_coarse_value_ x;
     last_touched_pot_ := last_touched_pot_ x; press_time_ := press_time_ x;
     detect_very_long_press_ := detect_very_long_press_ x;
     detect_clear_settings_long_press_ := detect_clear_settings_long_press_ x;
     catchup_state_ := catchup_state_ x;
     animation_counter_ := animation_counter_ x; queue_ := queue_ x;
     leds_ := v; mode_ := mode_ x; feat_mode_ := feat_mode_ x;
     bank_ := bank_ x; classic_waveform_index_ := classic_waveform_index_ x;
     random_waveform_index_ := random_waveform_index_ x;
     pot_fine_value_ := pot_fine_value_ x;
     pot_level_value_ := pot_level_value_ x;
     pot_atten_value_ := pot_atten_value_ x;
     pot_phase_value_ := pot_phase_value_ x;
     version_token_ := version_token_ x; storage := storage x |}.

Definition set_mode (v : UiMode) (x : Ui) : Ui :=
  {| pot_value_ := pot_value_ x; pot_filtered_value_ := pot_filtered_value_ x;
     pot_coarse_value_ := pot_coarse_value_ x;
     last_touched_pot_ := last_touched_pot_ x; press_time_ := press_time_ x;
     detect_very_long_press_ := detect_very_long_press_ x;
     detect_clear_settings_long_press_ := detect_clear_settings_long_press_ x;
     catchup_state_ := catchup_state_ x;
     animation_counter_ := animation_counter_ x; queue_ := queue_ x;
     leds_ := leds_ x; mode_ := v; feat_mode_ := feat_mode_ x;
     bank_ := bank_ x; classic_waveform_index_ := classic_waveform_index_ x;
     random_waveform_index_ := random_waveform_index_ x;
     pot_fine_value_ := pot_fine_value_ x;
     pot_level_value_ := pot_level_value_ x;
     pot_atten_value_ := pot_atten_value_ x;
     pot_phase_value_ := pot_phase_value_ x;
     version_token_ := version_token_ x; storage := storage x |}.

Definition set_feat_mode (v : FeatureMode) (x : Ui) : Ui :=
  {| pot_value_ := pot_value_ x; pot_filtered_value_ := pot_filtered_value_ x;
     pot_coarse_value_ := pot_coarse_value_ x;
     last_touched_pot_ := last_touched_pot_ x; press_time_ := press_time_ x;
     detect_very_long_press_ := detect_very_long_press_ x;
     detect_clear_settings_long_press_ := detect_clear_settings_long_press_ x;
     catchup_state_ := catchup_state_ x;
     animation_counter_ := animation_counter_ x; queue_ := queue_ x;
     leds_ := leds_ x; mode_ := mode_ x; feat_mode_ := v; bank_ := bank_ x;
     classic_waveform_index_ := classic_waveform_index_ x;
     random_waveform_index_ := random_waveform_index_ x;
     pot_fine_value_ := pot_fine_value_ x;
     pot_level_value_ := pot_level_value_ x;
     pot_atten_value_ := pot_atten_value_ x;
     pot_phase_value_ := pot_phase_value_ x;
     version_token_ := version_token_ x; storage := storage x |}.

Definition set_bank (v : list WaveBank) (x : Ui) : Ui :=
  {| pot_value_ := pot_value_ x; pot_filtered_value_ := pot_filtered_value_ x;
     pot_coarse_value_ := pot_coarse_value_ x;
     last_touched_pot_ := last_touched_pot_ x; press_time_ := press_time_ x;
     detect_very_long_press_ := detect_very_long_press_ x;
     detect_clear_settings_long_press_ := detect_clear_settings_long_press_ x;
     catchup_state_ := catchup_state_ x;
     animation_counter_ := animation_counter_ x; queue_ := queue_ x;
     leds_ := leds_ x; mode_ := mode_ x; feat_mode_ := feat_mode_ x;
     bank_ := v; classic_waveform_index_ := classic_waveform_index_ x;
     random_waveform_index_ := random_waveform_index_ x;
     pot_fine_value_ := pot_fine_value_ x;
     pot_level_value_ := pot_level_value_ x;
     pot_atten_value_ := pot_atten_value_ x;
     pot_phase_value_ := pot_phase_value_ x;
     version_token_ := version_token_ x; storage := storage x |}.

Definition set_classic_waveform_index (v : list Z) (x : Ui) : Ui :=
  {| pot_value_ := pot_value_ x; pot_filtered_value_ := pot_filtered_value_ x;
     pot_coarse_value_ := pot_coarse_value_ x;
     last_touched_pot_ := last_touched_pot_ x; press_time_ := press_time_ x;
     detect_very_long_press_ := detect_very_long_press_ x;
     detect_clear_settings_long_press_ := detect_clear_settings_long_press_ x;
     catchup_state_ := catchup_state_ x;
     animation_counter_ := animation_counter_ x; queue_ := queue_ x;
     leds_ := leds_ x; mode_ := mode_ x; feat_mode_ := feat_mode_ x;
     bank_ := bank_ x; classic_waveform_index_ := v;
     random_waveform_index_ := random_waveform_index_ x;
     pot_fine_value_ := pot_fine_value_ x;
     pot_level_value_ := pot_level_value_ x;
     pot_atten_value_ := pot_atten_value_ x;
     pot_phase_value_ := pot_phase_value_ x;
     version_token_ := version_token_ x; storage := storage x |}.

Definition set_random_waveform_index (v : list Z) (x : Ui) : Ui :=
  {| pot_value_ := pot_value_ x; pot_filtered_value_ := pot_filtered_value_ x;
     pot_coarse_value_ := pot_coarse_value_ x;
     last_touched_pot_ := last_touched_pot_ x; press_time_ := press_time_ x;
     detect_very_long_press_ := detect_very_long_press_ x;
     detect_clear_settings_long_press_ := detect_clear_settings_long_press_ x;
     catchup_state_ := catchup_state_ x;
     animation_counter_ := animation_counter_ x; queue_ := queue_ x;
     leds_ := leds_ x; mode_ := mode_ x; feat_mode_ := feat_mode_ x;
     bank_ := bank_ x; classic_waveform_index_ := classic_waveform_index_ x;
     random_waveform_index_ := v; pot_fine_value_ := pot_fine_value_ x;
     pot_level_value_ := pot_level_value_ x;
     pot_atten_value_ := pot_atten_value_ x;
     pot_phase_value_ := pot_phase_value_ x;
     version_token_ := version_token_ x; storage := storage x |}.

Definition set_pot_fine_value (v : list Z) (x : Ui) : Ui :=
  {| pot_value_ := pot_value_ x; pot_filtered_value_ := pot_filtered_value_ x;
     pot_coarse_value_ := pot_coarse_value_ x;
     last_touched_pot_ := last_touched_pot_ x; press_time_ := press_time_ x;
     detect_very_long_press_ := detect_very_long_press_ x;
     detect_clear_settings_long_press_ := detect_clear_settings_long_press_ x;
     catchup_state_ := catchup_state_ x;
     animation_counter_ := animation_counter_ x; queue_ := queue_ x;
     leds_ := leds_ x; mode_ := mode_ x; feat_mode_ := feat_mode_ x;
     bank_ := bank_ x; classic_waveform_index_ := classic_waveform_index_ x;
     random_waveform_index_ := random_waveform_index_ x; pot_fine_value_ := v;
     pot_level_value_ := pot_level_value_ x;
     pot_atten_value_ := pot_atten_value_ x;
     pot_phase_value_ := pot_phase_value_ x;
     version_token_ := version_token_ x; storage := storage x |}.

Definition set_pot_level_value (v : list Z) (x : Ui) : Ui :=
  {| pot_value_ := pot_value_ x; pot_filtered_value_ := pot_filtered_value_ x;
     pot_coarse_value_ := pot_coarse_value_ x;
     last_touched_pot_ := last_touched_pot_ x; press_time_ := press_time_ x;
     detect_very_long_press_ := detect_very_long_press_ x;
     detect_clear_settings_long_press_ := detect_clear_settings_long_press_ x;
     catchup_state_ := catchup_state_ x;
     animation_counter_ := animation_counter_ x; queue_ := queue_ x;
     leds_ := leds_ x; mode_ := mode_ x; feat_mode_ := feat_mode_ x;
     bank_ := bank_ x; classic_waveform_index_ := classic_waveform_index_ x;
     random_waveform_index_ := random_waveform_index_ x;
     pot_fine_value_ := pot_fine_value_ x; pot_level_value_ := v;
     pot_atten_value_ := pot_atten_value_ x;
     pot_phase_value_ := pot_phase_value_ x;
     version_token_ := version_token_ x; storage := storage x |}.

Definition set_pot_atten_value (v : list Z) (x : Ui) : Ui :=
  {| pot_value_ := pot_value_ x; pot_filtered_value_ := pot_filtered_value_ x;
     pot_coarse_value_ := pot_coarse_value_ x;
     last_touched_pot_ := last_touched_pot_ x; press_time_ := press_time_ x;
     detect_very_long_press_ := detect_very_long_press_ x;
     detect_clear_settings_long_press_ := detect_clear_settings_long_press_ x;
     catchup_state_ := catchup_state_ x;
     animation_counter_ := animation_counter_ x; queue_ := queue_ x;
     leds_ := leds_ x; mode_ := mode_ x; feat_mode_ := feat_mode_ x;
     bank_ := bank_ x; classic_waveform_index_ := classic_waveform_index_ x;
     random_waveform_index_ := random_waveform_index_ x;
     pot_fine_value_ := pot_fine_value_ x;
     pot_level_value_ := pot_level_value_ x; pot_atten_value_ := v;
     pot_phase_value_ := pot_phase_value_ x;
     version_token_ := version_token_ x; storage := storage x |}.

Definition set_pot_phase_value (v : list Z) (x : Ui) : Ui :=
  {| pot_value_ := pot_value_ x; pot_filtered_value_ := pot_filtered_value_ x;
     pot_coarse_value_ := pot_coarse_value_ x;
     last_touched_pot_ := last_touched_pot_ x; press_time_ := press_time_ x;
     detect_very_long_press_ := detect_very_long_press_ x;
     detect_clear_settings_long_press_ := detect_clear_settings_long_press_ x;
     catchup_state_ := catchup_state_ x;
     animation_counter_ := animation_counter_ x; queue_ := queue_ x;
     leds_ := leds_ x; mode_ := mode_ x; feat_mode_ := feat_mode_ x;
     bank_ := bank_ x; classic_waveform_index_ := classic_waveform_index_ x;
     random_waveform_index_ := random_waveform_index_ x;
     pot_fine_value_ := pot_fine_value_ x;
     pot_level_value_ := pot_level_value_ x;
     pot_atten_value_ := pot_atten_value_ x; pot_phase_value_ := v;
     version_token_ := version_token_ x; storage := storage x |}.

Definition set_version_token (v : Z) (x : Ui) : Ui :=
  {| pot_value_ := pot_value_ x; pot_filtered_value_ := pot_filtered_value_ x;
     pot_coarse_value_ := pot_coarse_value_ x;
     last_touched_pot_ := last_touched_pot_ x; press_time_ := press_time_ x;
     detect_very_long_press_ := detect_very_long_press_ x;
     detect_clear_settings_long_press_ := detect_clear_settings_long_press_ x;
     catchup_state_ := catchup_state_ x;
     animation_counter_ := animation_counter_ x; queue_ := queue_ x;
     leds_ := leds_ x; mode_ := mode_ x; feat_mode_ := feat_mode_ x;
     bank_ := bank_ x; classic_waveform_index_ := classic_waveform_index_ x;
     random_waveform_index_ := random_waveform_index_ x;
     pot_fine_value_ := pot_fine_value_ x;
     pot_level_value_ := pot_level_value_ x;
     pot_atten_value_ := pot_atten_value_ x;
     pot_phase_value_ := pot_phase_value_ x; version_token_ := v;
     storage := storage x |}.

Definition set_storage (v : option Settings) (x : Ui) : Ui :=
  {| pot_value_ := pot_value_ x; pot_filtered_value_ := pot_filtered_value_ x;
     pot_coarse_value_ := pot_coarse_value_ x;
     last_touched_pot_ := last_touched_pot_ x; press_time_ := press_time_ x;
     detect_very_long_press_ := detect_very_long_press_ x;
     detect_clear_settings_long_press_ := detect_clear_settings_long_press_ x;
     catchup_state_ := catchup_state_ x;
     animation_counter_ := animation_counter_ x; queue_ := queue_ x;
     leds_ := leds_ x; mode_ := mode_ x; feat_mode_ := feat_mode_ x;
     bank_ := bank_ x; classic_waveform_index_ := classic_waveform_index_ x;
     random_waveform_index_ := random_waveform_index_ x;
     pot_fine_value_ := pot_fine_value_ x;
     pot_level_value_ := pot_level_value_ x;
     pot_atten_value_ := pot_atten_value_ x;
     pot_phase_value_ := pot_phase_value_ x;
     version_token_ := version_token_ x; storage := v |}.

(** ** Loops *)

(** [for (i = 0; i < n; i++) body] over a state. *)
Definition for_ {S : Type} (n : nat) (body : nat -> S -> S) (s : S) : S :=
  fold_left (fun acc i => body i acc) (seq 0 n) s.

(** [for (i = n - 1; i >= 0; i--) body]. *)
Definition for_down {S : Type} (n : nat) (body : nat -> S -> S) (s : S) : S :=
  fold_left (fun acc i => body i acc) (rev (seq 0 n)) s.

(** ** The user interface *)

Definition kLongPressDuration : Z := 500.
Definition kVeryLongPressDuration : Z := 2000.
Definition kClearSettingsLongPressDuration : Z := 4000.

Definition kPotMoveThreshold : Z := Z.shiftl 1 (16 - 8).
Definition kPotMoveThresholdOnZoomMode : Z := Z.shiftl 1 (16 - 6).
Definition kPotMoveThresholdOnRandomWaveformSelectMode : Z :=
  Z.shiftl 1 (16 - 5).

Definition kCatchupThreshold : Z := Z.shiftl 1 10.

(** Every array of the interface has its four elements. *)
Definition Ui_wf (ui : Ui) : Prop :=
  length (pot_value_ ui) = 4%nat /\
  length (pot_filtered_value_ ui) = 4%nat /\
  length (pot_coarse_value_ ui) = 4%nat /\
  length (press_time_ ui) = 4%nat /\
  length (detect_very_long_press_ ui) = 4%nat /\
  length (detect_clear_settings_long_press_ ui) = 4%nat /\
  length (catchup_state_ ui) = 4%nat /\
  length (leds_ ui) = 4%nat /\
  length (bank_ ui) = 4%nat /\
  length (classic_waveform_index_ ui) = 4%nat /\
  length (random_waveform_index_ ui) = 4%nat /\
  length (pot_fine_value_ ui) = 4%nat /\
  length (pot_level_value_ ui) = 4%nat /\
  length (pot_atten_value_ ui) = 4%nat /\
  length (pot_phase_value_ ui) = 4%nat.

(** The accessors of ui.h read by the processor. *)
Definition coarse (ui : Ui) (channel : nat) : Z := at_ (pot_coarse_value_ ui) channel.
Definition fine (ui : Ui) (channel : nat) : Z :=
  s16 (at_ (pot_fine_value_ ui) channel - 32768).
Definition phase (ui : Ui) (channel : nat) : Z := at_ (pot_phase_value_ ui) channel.
Definition level (ui : Ui) (channel : nat) : Z := at_ (pot_level_value_ ui) channel.
Definition atten (ui : Ui) (channel : nat) : Z := at_ (pot_atten_value_ ui) channel.
Definition bank (ui : Ui) (channel : nat) : WaveBank := at_ (bank_ ui) channel.
Definition random_waveform_index (ui : Ui) (channel : nat) : Z :=
  at_ (random_waveform_index_ ui) channel.

(** [queue_.AddEvent]: the event goes to the back of the queue. *)
Definition AddEvent (t : ControlType) (id d : Z) (ui : Ui) : Ui :=
  set_queue (queue_ ui ++ [{| control_type := t; control_id := id; data := d |}]) ui.

Section Interface.
Context `{Layout}.

(** The block as it stands in the object. *)
Definition settings_of (ui : Ui) : Settings :=
  {| s_feat_mode := feat_mode_ ui;
     s_bank := bank_ ui;
     s_classic_waveform_index := classic_waveform_index_ ui;
     s_random_waveform_index := random_waveform_index_ ui;
     s_pot_fine_value := pot_fine_value_ ui;
     s_pot_level_value := pot_level_value_ ui;
     s_pot_atten_value := pot_atten_value_ ui;
     s_pot_phase_image := phase_image (pot_phase_value_ ui) |}.

(** A block copied back over the object. *)
Definition put_settings (s : Settings) (ui : Ui) : Ui :=
  set_pot_phase_value (phase_restore (s_pot_phase_image s) (pot_phase_value_ ui))
    (set_pot_atten_value (s_pot_atten_value s)
      (set_pot_level_value (s_pot_level_value s)
        (set_pot_fine_value (s_pot_fine_value s)
          (set_random_waveform_index (s_random_waveform_index s)
            (set_classic_waveform_index (s_classic_waveform_index s)
              (set_bank (s_bank s)
                (set_feat_mode (s_feat_mode s) ui))))))).

(** Modelled from the spec: the storage of stmlib, which is not part of
    these sources.  [storage.ParsimoniousSave(&feat_mode_, SETTINGS_SIZE,
    &version_token_)] writes the block to flash and changes the version
    token. *)
Definition ParsimoniousSave (ui : Ui) : Ui :=
  set_version_token (u16 (version_token_ ui + 1))
    (set_storage (Some (settings_of ui)) ui).

(** Modelled from the spec: what [storage.ParsimoniousLoad(&feat_mode_,
    SETTINGS_SIZE, &version_token_)] hands back, that is whether a valid
    block was found, and the contents of the buffer, which is the block
    in the object itself, and of the token after the call (on failure
    these are whatever the search left there). *)
Record LoadResult := {
  load_ok : bool;
  load_buffer : Settings;
  load_token : Z
}.

Definition Settings_wf (s : Settings) : Prop :=
  length (s_bank s) = 4%nat /\
  length (s_classic_waveform_index s) = 4%nat /\
  length (s_random_waveform_index s) = 4%nat /\
  length (s_pot_fine_value s) = 4%nat /\
  length (s_pot_level_value s) = 4%nat /\
  length (s_pot_atten_value s) = 4%nat.

Definition clearZoomSettings (ui : Ui) : Ui :=
  for_ 4 (fun i ui =>
    let ui := set_pot_fine_value (upd (pot_fine_value_ ui) i (cdiv UINT16_MAX 2)) ui in
    let ui := set_pot_phase_value (upd (pot_phase_value_ ui) i UINT16_MAX) ui in
    let ui := set_pot_level_value (upd (pot_level_value_ ui) i UINT16_MAX) ui in
    set_pot_atten_value (upd (pot_atten_value_ ui) i UINT16_MAX) ui) ui.

Definition clearAllHiddenSettings (ui : Ui) : Ui :=
  let ui := for_ 4 (fun i ui =>
    let ui := set_random_waveform_index (upd (random_waveform_index_ ui) i 0) ui in
    set_bank (upd (bank_ ui) i BANK_CLASSIC) ui) ui in
  clearZoomSettings ui.

(** [Ui::Init].  [ld] is the outcome of the load from flash and [adc_pot]
    the four pots as the converter reads them.  The initialisation of the
    LEDs leaves them off; that of the switches is the driver's own. *)
Definition Init (ld : LoadResult) (adc_pot : list Z) (ui : Ui) : Ui :=
  let ui := set_mode UI_MODE_SPLASH ui in
  let ui := set_leds (replicate kNumLeds false) ui in
  let ui := set_animation_counter 0 ui in
  let ui := set_version_token (load_token ld) (put_settings (load_buffer ld) ui) in
  let ui :=
    if negb (load_ok ld)
    then clearAllHiddenSettings (set_feat_mode FEAT_MODE_FREE ui)
    else ui in
  for_ 4 (fun i ui =>
    let adc_value := u16 (at_ adc_pot i) in
    let ui := set_pot_coarse_value (upd (pot_coarse_value_ ui) i adc_value) ui in
    let ui := set_pot_filtered_value (upd (pot_filtered_value_ ui) i adc_value) ui in
    let ui := set_pot_value (upd (pot_value_ ui) i adc_value) ui in
    set_catchup_state (upd (catchup_state_ ui) i false) ui) ui.

(** What one call of [Poll] reads from the drivers: the debounced
    switches, the clock in milliseconds and the four pots. *)
Record PollInput := {
  just_pressed : Z -> bool;
  pressed : Z -> bool;
  released : Z -> bool;
  milliseconds : Z;
  pot : list Z
}.

(** The body of the loop over the switches. *)
Definition poll_switch (inp : PollInput) (i : Z) (ui : Ui) : Ui :=
  let n := Z.to_nat i in
  let ui :=
    if just_pressed inp i then
      let ui := AddEvent CONTROL_SWITCH i 0 ui in
      let ui := set_press_time (upd (press_time_ ui) n (u32 (milliseconds inp))) ui in
      let ui := set_detect_very_long_press (upd (detect_very_long_press_ ui) n false) ui in
      set_detect_clear_settings_long_press
        (upd (detect_clear_settings_long_press_ ui) n false) ui
    else ui in
  let ui :=
    if pressed inp i && negb (at_ (press_time_ ui) n =? 0) then
      let pressed_time := s32 (u32 (milliseconds inp - at_ (press_time_ ui) n)) in
      if negb (at_ (detect_clear_settings_long_press_ ui) n) then
        if negb (at_ (detect_very_long_press_ ui) n) then
          if pressed_time >? kLongPressDuration then
            let ui := AddEvent CONTROL_SWITCH i pressed_time ui in
            set_detect_very_long_press (upd (detect_very_long_press_ ui) n true) ui
          else ui
        else
          if pressed_time >? kVeryLongPressDuration then
            let ui := AddEvent CONTROL_SWITCH i pressed_time ui in
            let ui := set_detect_very_long_press
                        (upd (detect_very_long_press_ ui) n false) ui in
            set_detect_clear_settings_long_press
              (upd (detect_clear_settings_long_press_ ui) n true) ui
          else ui
      else
        if pressed_time >? kClearSettingsLongPressDuration then
          let ui := AddEvent CONTROL_SWITCH i pressed_time ui in
          let ui := set_detect_very_long_press
                      (upd (detect_very_long_press_ ui) n false) ui in
          let ui := set_detect_clear_settings_long_press
                      (upd (detect_clear_settings_long_press_ ui) n false) ui in
          set_press_time (upd (press_time_ ui) n 0) ui
        else ui
    else ui in
  if released inp i && negb (at_ (press_time_ ui) n =? 0)
     && negb (at_ (detect_very_long_press_ ui) n)
     && negb (at_ (detect_clear_settings_long_press_ ui) n)
  then
    let ui := AddEvent CONTROL_SWITCH i
                (s32 (u32 (milliseconds inp - at_ (press_time_ ui) n + 1))) ui in
    set_press_time (upd (press_time_ ui) n 0) ui
  else ui.

Definition poll_switches (inp : PollInput) (ui : Ui) : Ui :=
  fold_left (fun acc i => poll_switch inp i acc)
            (seqZ SWITCH_SELECT (kNumSwitches - SWITCH_SELECT)) ui.

(** The threshold a pot has to move by, decided by the mode. *)
Definition potMoveThreshold (m : UiMode) : Z :=
  match m with
  | UI_MODE_ZOOM => kPotMoveThresholdOnZoomMode
  | UI_MODE_RANDOM_WAVEFORM_SELECT => kPotMoveThresholdOnRandomWaveformSelectMode
  | _ => kPotMoveThreshold
  end.

(** The filtered value of pot [i] after this reading. *)
Definition pot_filter (ui : Ui) (adc_pot : list Z) (i : nat) : Z :=
  asr (31 * at_ (pot_filtered_value_ ui) i + u16 (at_ adc_pot i)) 5.

(** The body of the loop over the pots. *)
Definition poll_pot (thr : Z) (adc_pot : list Z) (i : nat) (ui : Ui) : Ui :=
  let value := pot_filter ui adc_pot i in
  let ui := set_pot_filtered_value (upd (pot_filtered_value_ ui) i (u16 value)) ui in
  let current_value := at_ (pot_value_ ui) i in
  if (value >=? current_value + thr) || (value <=? current_value - thr) then
    let ui := AddEvent CONTROL_POT (Z.of_nat i) value ui in
    set_pot_value (upd (pot_value_ ui) i (u16 value)) ui
  else ui.

Definition poll_pots (inp : PollInput) (ui : Ui) : Ui :=
  let thr := potMoveThreshold (mode_ ui) in
  for_ 4 (poll_pot thr (pot inp)) ui.

Definition set_led (i : nat) (b : bool) (ui : Ui) : Ui :=
  set_leds (upd (leds_ ui) i b) ui.

Definition bit_set (x mask : Z) : bool := negb (Z.land x mask =? 0).

(** The last part of [Poll]: the LEDs, the animation counter and the
    modes that end by themselves. *)
Definition paint (ui : Ui) : Ui :=
  let ac := animation_counter_ ui in
  match mode_ ui with
  | UI_MODE_SPLASH =>
      let ui :=
        if cmod ac 64 =? 0 then
          let ui := for_ kNumLeds (fun i ui =>
                      set_led i (cmod (cdiv ac 64) 4 =? Z.of_nat i) ui) ui in
          if cdiv ac 64 >? 3 then set_mode UI_MODE_NORMAL ui else ui
        else ui in
      set_animation_counter (s32 (ac + 1)) ui
  | UI_MODE_ZOOM =>
      let ac := s32 (ac + 1) in
      let ui := set_animation_counter ac ui in
      let ui := for_ kNumLeds (fun i ui => set_led i false ui) ui in
      set_led (Z.to_nat (last_touched_pot_ ui)) (bit_set ac 128) ui
  | UI_MODE_NORMAL =>
      let ac := s32 (ac + 1) in
      let ui := set_animation_counter ac ui in
      let flash := bit_set ac 64 && bit_set ac 32 && bit_set ac 16 in
      for_ kNumLeds (fun i ui =>
        let sel := Z.of_nat i =? FeatureMode_to_Z (feat_mode_ ui) in
        if at_ (catchup_state_ ui) i
        then set_led i (if sel then negb flash else flash) ui
        else set_led i sel ui) ui
  | UI_MODE_RANDOM_WAVEFORM_SELECT =>
      let led_on_period := 128 in
      let flash_base := negb (bit_set ac led_on_period) in
      let setting_val_count := u8 (cmod (cdiv ac (led_on_period * 2)) 4) in
      let ui := for_ kNumLeds (fun i ui =>
        if flash_base
           && bool_decide (at_ (bank_ ui) i = BANK_RANDOM)
           && (at_ (random_waveform_index_ ui) i >=? setting_val_count)
        then set_led i true ui
        else set_led i false ui) ui in
      set_animation_counter (s32 (ac + 1)) ui
  | UI_MODE_SPLASH_FOR_RANDOM_WAVEFORM_SELECT =>
      let num_blink := 2 in
      let ui :=
        if cmod ac 100 =? 0 then
          for_ kNumLeds (fun i ui => set_led i (cmod (cdiv ac 100) 2 =? 0) ui) ui
        else ui in
      let ac := s32 (ac + 1) in
      let ui := set_animation_counter ac ui in
      if ac >=? num_blink * 200 - 1 then
        set_animation_counter 0 (set_mode UI_MODE_RANDOM_WAVEFORM_SELECT ui)
      else ui
  end.

(** [Ui::Poll].  The driver debounces the switches before [inp] is read
    and writes the LEDs out afterwards. *)
Definition Poll (inp : PollInput) (ui : Ui) : Ui :=
  paint (poll_pots inp (poll_switches inp ui)).

(** [Ui::FlushEvents]. *)
Definition FlushEvents (ui : Ui) : Ui := set_queue [] ui.

Definition OnSwitchPressed (e : Event) (ui : Ui) : Ui := ui.

Definition gotoNormalModeWithCatchupAndSaving (ui : Ui) : Ui :=
  let ui := for_ 4 (fun i ui =>
    if Z.abs (at_ (pot_value_ ui) i - at_ (pot_coarse_value_ ui) i) >? kCatchupThreshold
    then set_catchup_state (upd (catchup_state_ ui) i true) ui
    else ui) ui in
  let ui := set_mode UI_MODE_NORMAL ui in
  ParsimoniousSave ui.

Definition OnSwitchReleased (e : Event) (ui : Ui) : Ui :=
  if control_id e =? SWITCH_SELECT then
    if data e >? kClearSettingsLongPressDuration then
      let ui := clearAllHiddenSettings ui in
      let ui := set_animation_counter 0 ui in
      let ui := set_mode UI_MODE_SPLASH ui in
      ParsimoniousSave ui
    else if data e >? kVeryLongPressDuration then
      if negb (bool_decide (mode_ ui = UI_MODE_RANDOM_WAVEFORM_SELECT)) then
        set_animation_counter 0
          (set_mode UI_MODE_SPLASH_FOR_RANDOM_WAVEFORM_SELECT ui)
      else ui
    else if data e >? kLongPressDuration then
      match mode_ ui with
      | UI_MODE_NORMAL => set_mode UI_MODE_ZOOM ui
      | UI_MODE_ZOOM => gotoNormalModeWithCatchupAndSaving ui
      | _ => ui
      end
    else
      match mode_ ui with
      | UI_MODE_SPLASH | UI_MODE_SPLASH_FOR_RANDOM_WAVEFORM_SELECT => ui
      | UI_MODE_ZOOM | UI_MODE_RANDOM_WAVEFORM_SELECT =>
          gotoNormalModeWithCatchupAndSaving ui
      | UI_MODE_NORMAL =>
          let ui := set_feat_mode
                      (FeatureMode_of_Z
                         (cmod (FeatureMode_to_Z (feat_mode_ ui) + 1)
                               (FeatureMode_to_Z FEAT_MODE_LAST))) ui in
          let ui := clearZoomSettings ui in
          ParsimoniousSave ui
      end
  else ui.

Definition tbl_waveformSelectionThreshold : list Z := [9500; 26214; 42312; 60000].

Definition selectRandomWaveformFromPot (id : Z) (potVal : Z) (ui : Ui) : Ui :=
  let n := Z.to_nat id in
  let pos :=
    match list_find (fun t => potVal < t) tbl_waveformSelectionThreshold with
    | Some (i, _) => Z.of_nat i
    | None => 4
    end in
  let pos := CONSTRAIN pos 0 4 in
  if pos <=? 0 then
    let ui := set_random_waveform_index (upd (random_waveform_index_ ui) n 0) ui in
    set_bank (upd (bank_ ui) n BANK_CLASSIC) ui
  else
    let ui := set_random_waveform_index
                (upd (random_waveform_index_ ui) n (u8 (pos - 1))) ui in
    set_bank (upd (bank_ ui) n BANK_RANDOM) ui.

Definition OnPotChanged (e : Event) (ui : Ui) : Ui :=
  match mode_ ui with
  | UI_MODE_SPLASH | UI_MODE_SPLASH_FOR_RANDOM_WAVEFORM_SELECT => ui
  | UI_MODE_ZOOM =>
      let t := Z.to_nat (last_touched_pot_ ui) in
      match control_id e with
      | 0 => set_pot_fine_value (upd (pot_fine_value_ ui) t (u16 (data e))) ui
      | 1 => set_pot_level_value (upd (pot_level_value_ ui) t (u16 (data e))) ui
      | 2 => set_pot_atten_value (upd (pot_atten_value_ ui) t (u16 (data e))) ui
      | 3 => set_pot_phase_value (upd (pot_phase_value_ ui) t (u16 (data e))) ui
      | _ => ui
      end
  | UI_MODE_NORMAL =>
      let n := Z.to_nat (control_id e) in
      let ui := set_last_touched_pot (u8 (control_id e)) ui in
      if negb (at_ (catchup_state_ ui) n) then
        set_pot_coarse_value (upd (pot_coarse_value_ ui) n (u16 (data e))) ui
      else if Z.abs (data e - at_ (pot_coarse_value_ ui) n) <? kCatchupThreshold then
        let ui := set_pot_coarse_value
                    (upd (pot_coarse_value_ ui) n (u16 (data e))) ui in
        set_catchup_state (upd (catchup_state_ ui) n false) ui
      else ui
  | UI_MODE_RANDOM_WAVEFORM_SELECT =>
      selectRandomWaveformFromPot (control_id e) (data e) ui
  end.

(** One event of the queue, as [DoEvents] dispatches it. *)
Definition handle_event (e : Event) (ui : Ui) : Ui :=
  match control_type e with
  | CONTROL_SWITCH =>
      if data e =? 0 then OnSwitchPressed e ui else OnSwitchReleased e ui
  | CONTROL_POT => OnPotChanged e ui
  end.

(** [Ui::DoEvents]: the queue is drained in order.  (The idle timer of
    the queue, touched after 500 ms, is the queue's own.) *)
Definition DoEvents (ui : Ui) : Ui :=
  fold_left (fun acc e => handle_event e acc) (queue_ ui) (set_queue [] ui).

End Interface.

(** ** The oscillators *)

(** Modelled from the spec: the oscillator of lfo.h, which is not part
    of these sources, is consumed through a small set of operations, with
    [link_to] naming the master by its index among the four oscillators.
    Nothing more is known of an oscillator than the calls made on it, so
    it is held as the record of those calls, the latest first. *)
Inductive LfoCall :=
| call_Init
| call_Reset (subsample : Z)
| call_set_pitch (pitch : Z)
| call_set_period (period : Z)
| call_align
| call_set_level (lvl : Z)
| call_set_divider (divider : Z)
| call_set_multiplier (multiplier : Z)
| call_link_to (master : nat)
| call_set_hold (hold : bool)
| call_set_direction (direction : bool)
| call_set_initial_phase (ph : Z)
| call_Step.

Definition Lfo := list LfoCall.

#[global] Instance LfoCall_eq_dec : EqDecision LfoCall.
Proof. solve_decision. Defined.

(** The latest initial phase and the latest master given to an
    oscillator. *)
Fixpoint initial_phase_of (l : Lfo) : option Z :=
  match l with
  | [] => None
  | call_set_initial_phase ph :: _ => Some ph
  | _ :: l' => initial_phase_of l'
  end.

Fixpoint linked_to (l : Lfo) : option nat :=
  match l with
  | [] => None
  | call_link_to m :: _ => Some m
  | _ :: l' => linked_to l'
  end.

(** What the processor takes from the files that are not part of these
    sources: the tables of resources.h, the interpolation of stmlib's
    dsp.h, the constants and the sample computation of lfo.h, and the
    width of the waveform offset declared in processor.h. *)
Class Deps := {
  lut_scale_pitch : Z -> Z;
  lut_scale_phase : Z -> Z;
  lut_scale_divide : Z -> Z;
  lut_scale_divide_multiply : Z -> Z;
  Interpolate88 : (Z -> Z) -> Z -> Z;
  kOctave : Z;
  SHAPE_SINE : Z;
  SHAPE_TRAPEZOID : Z;
  SHAPE_SQUARE : Z;
  SHAPE_RANDOM_STEP : Z;
  ComputeSampleShape : Lfo -> Z -> Z;
  lfo_level : Lfo -> Z;
  waveform_offset_bits : Z
}.

(** The two samples written to the converter for a channel. *)
Record DacWrite := { dac_sine : Z; dac_asgn : Z }.

#[global] Instance DacWrite_inhabited : Inhabited DacWrite :=
  populate {| dac_sine := 0; dac_asgn := 0 |}.

(** processor.h is not part of these sources either.  The fields of the
    processor hold the integers assigned to them; the waveform offset, a
    counter that only grows, is kept within its width, which is the
    parameter [waveform_offset_bits]. *)
Record Processor := {
  lfo_ : list Lfo;
  filtered_cv_ : list Z;
  reset_trigger_armed_ : list bool;
  reset_triggered_ : list bool;
  previous_reset_ : list Z;
  reset_subsample_ : list Z;
  last_reset_ : list Z;
  synced_ : list bool;
  last_coarse_ : list Z;
  previous_feat_mode_ : FeatureMode;
  waveform_offset_ : Z;
  (** the samples last handed to the converter *)
  dac_ : list DacWrite
}.

Definition set_lfo (v : list Lfo) (x : Processor) : Processor :=
  {| lfo_ := v; filtered_cv_ := filtered_cv_ x;
     reset_trigger_armed_ := reset_trigger_armed_ x;
     reset_triggered_ := reset_triggered_ x;
     previous_reset_ := previous_reset_ x;
     reset_subsample_ := reset_subsample_ x; last_reset_ := last_reset_ x;
     synced_ := synced_ x; last_coarse_ := last_coarse_ x;
     previous_feat_mode_ := previous_feat_mode_ x;
     waveform_offset_ := waveform_offset_ x; dac_ := dac_ x |}.

Definition set_filtered_cv (v : list Z) (x : Processor) : Processor :=
  {| lfo_ := lfo_ x; filtered_cv_ := v;
     reset_trigger_armed_ := reset_trigger_armed_ x;
     reset_triggered_ := reset_triggered_ x;
     previous_reset_ := previous_reset_ x;
     reset_subsample_ := reset_subsample_ x; last_reset_ := last_reset_ x;
     synced_ := synced_ x; last_coarse_ := last_coarse_ x;
     previous_feat_mode_ := previous_feat_mode_ x;
     waveform_offset_ := waveform_offset_ x; dac_ := dac_ x |}.

Definition set_reset_trigger_armed (v : list bool) (x : Processor) : Processor :=
  {| lfo_ := lfo_ x; filtered_cv_ := filtered_cv_ x;
     reset_trigger_armed_ := v; reset_triggered_ := reset_triggered_ x;
     previous_reset_ := previous_reset_ x;
     reset_subsample_ := reset_subsample_ x; last_reset_ := last_reset_ x;
     synced_ := synced_ x; last_coarse_ := last_coarse_ x;
     previous_feat_mode_ := previous_feat_mode_ x;
     waveform_offset_ := waveform_offset_ x; dac_ := dac_ x |}.

Definition set_reset_triggered (v : list bool) (x : Processor) : Processor :=
  {| lfo_ := lfo_ x; filtered_cv_ := filtered_cv_ x;
     reset_trigger_armed_ := reset_trigger_armed_ x; reset_triggered_ := v;
     previous_reset_ := previous_reset_ x;
     reset_subsample_ := reset_subsample_ x; last_reset_ := last_reset_ x;
     synced_ := synced_ x; last_coarse_ := last_coarse_ x;
     previous_feat_mode_ := previous_feat_mode_ x;
     waveform_offset_ := waveform_offset_ x; dac_ := dac_ x |}.

Definition set_previous_reset (v : list Z) (x : Processor) : Processor :=
  {| lfo_ := lfo_ x; filtered_cv_ := filtered_cv_ x;
     reset_trigger_armed_ := reset_trigger_armed_ x;
     reset_triggered_ := reset_triggered_ x; previous_reset_ := v;
     reset_subsample_ := reset_subsample_ x; last_reset_ := last_reset_ x;
     synced_ := synced_ x; last_coarse_ := last_coarse_ x;
     previous_feat_mode_ := previous_feat_mode_ x;
     waveform_offset_ := waveform_offset_ x; dac_ := dac_ x |}.

Definition set_reset_subsample (v : list Z) (x : Processor) : Processor :=
  {| lfo_ := lfo_ x; filtered_cv_ := filtered_cv_ x;
     reset_trigger_armed_ := reset_trigger_armed_ x;
     reset_triggered_ := reset_triggered_ x;
     previous_reset_ := previous_reset_ x; reset_subsample_ := v;
     last_reset_ := last_reset_ x; synced_ := synced_ x;
     last_coarse_ := last_coarse_ x;
     previous_feat_mode_ := previous_feat_mode_ x;
     waveform_offset_ := waveform_offset_ x; dac_ := dac_ x |}.

Definition set_last_reset (v : list Z) (x : Processor) : Processor :=
  {| lfo_ := lfo_ x; filtered_cv_ := filtered_cv_ x;
     reset_trigger_armed_ := reset_trigger_armed_ x;
     reset_triggered_ := reset_triggered_ x;
     previous_reset_ := previous_reset_ x;
     reset_subsample_ := reset_subsample_ x; last_reset_ := v;
     synced_ := synced_ x; last_coarse_ := last_coarse_ x;
     previous_feat_mode_ := previous_feat_mode_ x;
     waveform_offset_ := waveform_offset_ x; dac_ := dac_ x |}.

Definition set_synced (v : list bool) (x : Processor) : Processor :=
  {| lfo_ := lfo_ x; filtered_cv_ := filtered_cv_ x;
     reset_trigger_armed_ := reset_trigger_armed_ x;
     reset_triggered_ := reset_triggered_ x;
     previous_reset_ := previous_reset_ x;
     reset_subsample_ := reset_subsample_ x; last_reset_ := last_reset_ x;
     synced_ := v; last_coarse_ := last_coarse_ x;
     previous_feat_mode_ := previous_feat_mode_ x;
     waveform_offset_ := waveform_offset_ x; dac_ := dac_ x |}.

Definition set_last_coarse (v : list Z) (x : Processor) : Processor :=
  {| lfo_ := lfo_ x; filtered_cv_ := filtered_cv_ x;
     reset_trigger_armed_ := reset_trigger_armed_ x;
     reset_triggered_ := reset_triggered_ x;
     previous_reset_ := previous_reset_ x;
     reset_subsample_ := reset_subsample_ x; last_reset_ := last_reset_ x;
     synced_ := synced_ x; last_coarse_ := v;
     previous_feat_mode_ := previous_feat_mode_ x;
     waveform_offset_ := waveform_offset_ x; dac_ := dac_ x |}.

Definition set_previous_feat_mode (v : FeatureMode) (x : Processor) : Processor :=
  {| lfo_ := lfo_ x; filtered_cv_ := filtered_cv_ x;
     reset_trigger_armed_ := reset_trigger_armed_ x;
     reset_triggered_ := reset_triggered_ x;
     previous_reset_ := previous_reset_ x;
     reset_subsample_ := reset_subsample_ x; last_reset_ := last_reset_ x;
     synced_ := synced_ x; last_coarse_ := last_coarse_ x;
     previous_feat_mode_ := v; waveform_offset_ := waveform_offset_ x;
     dac_ := dac_ x |}.

Definition set_waveform_offset (v : Z) (x : Processor) : Processor :=
  {| lfo_ := lfo_ x; filtered_cv_ := filtered_cv_ x;
     reset_trigger_armed_ := reset_trigger_armed_ x;
     reset_triggered_ := reset_triggered_ x;
     previous_reset_ := previous_reset_ x;
     reset_subsample_ := reset_subsample_ x; last_reset_ := last_reset_ x;
     synced_ := synced_ x; last_coarse_ := last_coarse_ x;
     previous_feat_mode_ := previous_feat_mode_ x; waveform_offset_ := v;
     dac_ := dac_ x |}.

Definition set_dac (v : list DacWrite) (x : Processor) : Processor :=
  {| lfo_ := lfo_ x; filtered_cv_ := filtered_cv_ x;
     reset_trigger_armed_ := reset_trigger_armed_ x;
     reset_triggered_ := reset_triggered_ x;
     previous_reset_ := previous_reset_ x;
     reset_subsample_ := reset_subsample_ x; last_reset_ := last_reset_ x;
     synced_ := synced_ x; last_coarse_ := last_coarse_ x;
     previous_feat_mode_ := previous_feat_mode_ x;
     waveform_offset_ := waveform_offset_ x; dac_ := v |}.

Definition Processor_wf (p : Processor) : Prop :=
  length (lfo_ p) = 4%nat /\
  length (filtered_cv_ p) = 4%nat /\
  length (reset_trigger_armed_ p) = 4%nat /\
  length (reset_triggered_ p) = 4%nat /\
  length (previous_reset_ p) = 4%nat /\
  length (reset_subsample_ p) = 4%nat /\
  length (last_reset_ p) = 4%nat /\
  length (synced_ p) = 4%nat /\
  length (last_coarse_ p) = 4%nat /\
  length (dac_ p) = 4%nat.

(** What one call of [Process] reads from the drivers: the CV and reset
    inputs of the four channels, and the panel switches behind
    [sync_mode()] and [shape()]. *)
Record TickInput := {
  cv : list Z;
  reset : list Z;
  sync_mode : bool;
  shape : Z
}.

Definition kNumChannels : nat := 4.
Definition kUnsyncPotThreshold : Z := cdiv INT16_MAX 20.
Definition kResetThresholdLow : Z := 10000.
Definition kResetThresholdHigh : Z := 20000.

(** A call on oscillator [i]. *)
Definition lfo_call (i : nat) (c : LfoCall) (p : Processor) : Processor :=
  set_lfo (upd (lfo_ p) i (c :: at_ (lfo_ p) i)) p.

(** A loop whose body may fail: the first failure ends it. *)
Definition for_opt {S : Type} (n : nat) (body : nat -> S -> option S) (s : S)
  : option S :=
  fold_left (fun acc i => acc ≫= body i) (seq 0 n) (Some s).

(** [Processor::Init]. *)
Definition Processor_Init (p : Processor) : Processor :=
  let p := set_previous_feat_mode FEAT_MODE_LAST p in
  let p := for_ kNumChannels (fun i p =>
    let p := set_reset_trigger_armed (upd (reset_trigger_armed_ p) i false) p in
    set_last_reset (upd (last_reset_ p) i 0) p) p in
  set_waveform_offset 0 p.

Section Conversions.
Context `{Deps}.

Definition AdcValuesToPitch (coarse fine cv : Z) : Z :=
  let coarse := u16 coarse in
  let fine := s16 fine in
  let cv := s16 cv in
  let coarse := u16 (Interpolate88 lut_scale_pitch coarse - 32768) in
  let fine := s16 (asr (1 * kOctave * fine) 16) in
  let cv := s16 (asr (cv * 5 * kOctave) 15) in
  s16 (coarse + fine + cv).

Definition AdcValuesToDivider (pot fine cv : Z) : Z :=
  let pot := u16 pot in
  let fine := s16 fine in
  let cv := s16 cv in
  let ctrl := pot + cv in
  let ctrl := CONSTRAIN ctrl 0 UINT16_MAX in
  let fine := s16 (asr (5 * (fine + cdiv INT16_MAX 5)) 16) in
  let div := s8 (lut_scale_divide (asr ctrl 8)) in
  let div := s8 (div - fine) in
  let div := CONSTRAIN div 1 64 in
  u8 div.

(** The first half of [AdcValuesToDividerMultiplier]: the fine offset
    after scaling, and the entry of the table. *)
Definition scaled_fine (fine : Z) : Z :=
  s16 (asr (5 * (s16 fine + cdiv INT16_MAX 5)) 16).

Definition divide_multiply_lookup (pot cv : Z) : Z :=
  let ctrl := u16 pot + s16 cv in
  let ctrl := CONSTRAIN ctrl 0 UINT16_MAX in
  s8 (lut_scale_divide_multiply (asr ctrl 8)).

(** The second half, up to the final clamp: the entry moved by the fine
    offset, with the values 0 and -1 skipped. *)
Definition divide_multiply_adjust (div fine : Z) : Z :=
  if fine >? 1 then
    let div := s8 (div - fine) in
    if div =? 0 then -2
    else if div =? -1 then -3
    else div
  else if fine =? 1 then
    let div := s8 (div - fine) in
    if div =? 0 then -2 else div
  else if fine <? -1 then
    let div := s8 (div - fine) in
    if div =? 0 then 2 else div
  else if fine =? -1 then
    s8 (div - fine)
  else div.

(** The final clamp. *)
Definition divide_multiply_clamp (div : Z) : Z :=
  if div >=? -1 then CONSTRAIN div 1 64 else CONSTRAIN div (-64) (-2).

Definition AdcValuesToDividerMultiplier (pot fine cv : Z) : Z :=
  let fine := scaled_fine fine in
  let div := divide_multiply_lookup pot cv in
  let div := divide_multiply_adjust div fine in
  divide_multiply_clamp div.

Definition AdcValuesToPhase (pot fine cv : Z) : Z :=
  let pot := u16 pot in
  let fine := s16 fine in
  let cv := s16 cv in
  let pot := u16 (65536 - pot) in
  let ctrl := pot + cv + cdiv fine 8 in
  let ctrl := CONSTRAIN ctrl 0 UINT16_MAX in
  u16 (Interpolate88 lut_scale_phase ctrl).

Definition AdcValuesToLevel (pot fine cv : Z) : Z :=
  let pot := u16 pot in
  let fine := s16 fine in
  let cv := s16 cv in
  let ctrl := pot + cv - 256 in
  let ctrl := ctrl + cdiv fine 4 in
  let ctrl := CONSTRAIN ctrl 0 UINT16_MAX in
  u16 (Interpolate88 lut_scale_phase ctrl).

End Conversions.

Section Process.
Context `{Deps}.

Definition wrap_waveform_offset (x : Z) : Z := x mod 2 ^ waveform_offset_bits.

(** [Processor::SetFrequency]. *)
Definition SetFrequency (ui : Ui) (inp : TickInput) (lfo_no : nat) (p : Processor)
  : Processor :=
  let cv := s16 (asr (at_ (filtered_cv_ p) lfo_no * atten ui lfo_no) 16) in
  let p :=
    if sync_mode inp then
      if cv >? 0 then
        let p := lfo_call lfo_no (call_set_multiplier (cdiv (cv * 8) 32767 + 1)) p in
        lfo_call lfo_no (call_set_divider 1) p
      else
        let p := lfo_call lfo_no (call_set_multiplier 1) p in
        lfo_call lfo_no (call_set_divider (cdiv (- cv * 8) 32767 + 1)) p
    else p in
  let p :=
    if at_ (reset_triggered_ p) lfo_no then
      let p :=
        if sync_mode inp then
          let p := lfo_call lfo_no (call_set_period (at_ (last_reset_ p) lfo_no)) p in
          let p := lfo_call lfo_no call_align p in
          set_synced (upd (synced_ p) lfo_no true) p
        else
          lfo_call lfo_no (call_Reset (at_ (reset_subsample_ p) lfo_no)) p in
      let p := set_reset_trigger_armed (upd (reset_trigger_armed_ p) lfo_no false) p in
      set_last_reset (upd (last_reset_ p) lfo_no 0) p
    else
      set_last_reset (upd (last_reset_ p) lfo_no (at_ (last_reset_ p) lfo_no + 1)) p in
  let pitch := AdcValuesToPitch (coarse ui lfo_no) (fine ui lfo_no) cv in
  if negb (at_ (synced_ p) lfo_no)
     || (coarse ui lfo_no >=? at_ (last_coarse_ p) lfo_no + kUnsyncPotThreshold)
     || (coarse ui lfo_no <=? at_ (last_coarse_ p) lfo_no - kUnsyncPotThreshold)
  then
    let p := lfo_call lfo_no (call_set_pitch pitch) p in
    let p := set_last_coarse (upd (last_coarse_ p) lfo_no (coarse ui lfo_no)) p in
    set_synced (upd (synced_ p) lfo_no false) p
  else p.

(** The detection of a trigger on the reset input of channel [i].  The
    quotient that gives the sub-sample has no value when the input did not
    move since the last tick: that is [None]. *)
Definition detect_reset (inp : TickInput) (i : nat) (p : Processor)
  : option Processor :=
  let reset := s16 (at_ (reset inp) i) in
  let p :=
    if reset <? kResetThresholdLow
    then set_reset_trigger_armed (upd (reset_trigger_armed_ p) i true) p
    else p in
  p ← (if (reset >? kResetThresholdHigh) && at_ (reset_trigger_armed_ p) i then
         let p := set_reset_triggered (upd (reset_triggered_ p) i true) p in
         let dist_to_trig := kResetThresholdHigh - at_ (previous_reset_ p) i in
         let dist_to_next := reset - at_ (previous_reset_ p) i in
         if dist_to_next =? 0 then None
         else Some (set_reset_subsample
                      (upd (reset_subsample_ p) i
                           (cdiv (dist_to_trig * 32) dist_to_next)) p)
       else Some (set_reset_triggered (upd (reset_triggered_ p) i false) p));
  Some (set_previous_reset (upd (previous_reset_ p) i reset) p).

(** The first loop of [Process]: level, CV filter and reset detection. *)
Definition read_channel (ui : Ui) (inp : TickInput) (i : nat) (p : Processor)
  : option Processor :=
  let p :=
    if negb (bool_decide (feat_mode_ ui = FEAT_MODE_QUAD))
    then lfo_call i (call_set_level (AdcValuesToLevel (level ui i) 0 0)) p
    else p in
  let f := at_ (filtered_cv_ p) i in
  let p := set_filtered_cv
             (upd (filtered_cv_ p) i (f + asr (at_ (cv inp) i - f) 6)) p in
  detect_reset inp i p.

(** Resets 2, 3 and 4 of the linked modes: hold, direction and the
    change of waveform. *)
Definition master_controls (p : Processor) : Processor :=
  let p := lfo_call 0 (call_set_hold (at_ (reset_triggered_ p) 1)) p in
  let p := lfo_call 0 (call_set_direction (negb (at_ (reset_triggered_ p) 2))) p in
  if at_ (reset_triggered_ p) 3 then
    let p := set_waveform_offset (wrap_waveform_offset (waveform_offset_ p + 1)) p in
    set_reset_trigger_armed (upd (reset_trigger_armed_ p) 3 false) p
  else p.

(** [for (int i = 1; i < kNumChannels; i++) body]. *)
Definition for_linked (body : nat -> Processor -> Processor) (p : Processor)
  : Processor :=
  fold_left (fun acc i => body i acc) (seq 1 (kNumChannels - 1)) p.

Definition mode_free (ui : Ui) (inp : TickInput) (p : Processor) : Processor :=
  for_ kNumChannels (fun i p =>
    let p := SetFrequency ui inp i p in
    lfo_call i (call_set_initial_phase (phase ui i)) p) p.

Definition mode_quad (ui : Ui) (inp : TickInput) (p : Processor) : Processor :=
  let p := SetFrequency ui inp 0 p in
  let p := lfo_call 0 (call_set_initial_phase (phase ui 0)) p in
  let p := master_controls p in
  let p := lfo_call 0 (call_set_level (AdcValuesToLevel (level ui 0) 0 0)) p in
  for_linked (fun i p =>
    let cv := asr (at_ (filtered_cv_ p) i * atten ui i) 16 in
    let p := lfo_call i (call_set_level
                           (AdcValuesToLevel (coarse ui i) (fine ui i) cv)) p in
    let p := lfo_call i (call_link_to 0) p in
    let div := s16 (asr (7 * (65535 - level ui i)) 16) in
    let div := s16 (div + (Z.of_nat i + 1)) in
    let div := CONSTRAIN div 1 16 in
    let p := lfo_call i (call_set_divider div) p in
    lfo_call i (call_set_initial_phase (phase ui i)) p) p.

Definition mode_phase (ui : Ui) (inp : TickInput) (p : Processor) : Processor :=
  let p := SetFrequency ui inp 0 p in
  let p := master_controls p in
  if (coarse ui 1 >? UINT16_MAX - 256)
     && (coarse ui 2 >? UINT16_MAX - 256)
     && (coarse ui 3 >? UINT16_MAX - 256)
  then
    for_linked (fun i p =>
      let p := lfo_call i (call_link_to 0) p in
      lfo_call i (call_set_initial_phase
                    ((Z.of_nat kNumChannels - Z.of_nat i) * Z.shiftr UINT16_MAX 2)) p) p
  else
    for_linked (fun i p =>
      let p := lfo_call i (call_link_to 0) p in
      let cv := s16 (asr (at_ (filtered_cv_ p) i * atten ui i) 16) in
      let p := lfo_call i (call_set_initial_phase
                             (AdcValuesToPhase (coarse ui i) (fine ui i) cv)) p in
      let div := s16 (asr (7 * (65535 - phase ui i)) 16) in
      let div := CONSTRAIN div 1 16 in
      lfo_call i (call_set_divider div) p) p.

Definition mode_divide (ui : Ui) (inp : TickInput) (p : Processor) : Processor :=
  let p := SetFrequency ui inp 0 p in
  let p := lfo_call 0 (call_set_initial_phase (phase ui 0)) p in
  let p := master_controls p in
  for_linked (fun i p =>
    let p := lfo_call i (call_link_to 0) p in
    let cv := s16 (asr (at_ (filtered_cv_ p) i * atten ui i) 16) in
    let divMult := AdcValuesToDividerMultiplier (coarse ui i) (fine ui i) cv in
    let p :=
      if divMult >? 1 then
        let p := lfo_call i (call_set_multiplier 1) p in
        lfo_call i (call_set_divider divMult) p
      else if divMult <? -1 then
        let p := lfo_call i (call_set_multiplier (- divMult)) p in
        lfo_call i (call_set_divider 1) p
      else
        let p := lfo_call i (call_set_multiplier 1) p in
        lfo_call i (call_set_divider 1) p in
    let p := lfo_call i (call_set_initial_phase (phase ui i)) p in
    if negb (sync_mode inp) && at_ (reset_triggered_ p) 0
    then lfo_call i (call_Reset (at_ (reset_subsample_ p) 0)) p
    else p) p.

(** The shape each channel renders. *)
Definition channel_shape (ui : Ui) (inp : TickInput) (p : Processor) (i : nat) : Z :=
  let '(ui_shape, offset) :=
    match bank ui i with
    | BANK_CLASSIC => (shape inp, SHAPE_TRAPEZOID)
    | BANK_RANDOM => (random_waveform_index ui i, SHAPE_RANDOM_STEP)
    | BANK_LAST => (shape inp, 42)
    end in
  let s := cmod (ui_shape + waveform_offset_ p) 4 + u8 offset in
  if bool_decide (feat_mode_ ui = FEAT_MODE_QUAD) && (s =? SHAPE_TRAPEZOID)
  then SHAPE_SQUARE
  else s.

(** The running sums of the last loop. *)
Record Mix := { sample1 : Z; sample2 : Z; gain : Z }.

(** The denominator of the normalisation in quad mode. *)
Definition quad_denominator (gain : Z) : Z :=
  if gain <? UINT16_MAX then UINT16_MAX else gain.

(** The body of the last loop: step, accumulate, write. *)
Definition output_channel (ui : Ui) (shapes : list Z) (i : nat)
  (st : Processor * Mix) : Processor * Mix :=
  let '(p, m) := st in
  let p := lfo_call i call_Step p in
  let quad := bool_decide (feat_mode_ ui = FEAT_MODE_QUAD) in
  let m := if negb quad then {| sample1 := 0; sample2 := 0; gain := 0 |} else m in
  let m := {| sample1 := sample1 m + ComputeSampleShape (at_ (lfo_ p) i) SHAPE_SINE;
              sample2 := sample2 m + ComputeSampleShape (at_ (lfo_ p) i) (at_ shapes i);
              gain := gain m + lfo_level (at_ (lfo_ p) i) |} in
  let w :=
    if quad then
      let g := quad_denominator (gain m) in
      {| dac_sine := Z.shiftl (cdiv (Z.shiftl (sample1 m) 13) g) 3;
         dac_asgn := Z.shiftl (cdiv (Z.shiftl (sample2 m) 13) g) 3 |}
    else
      {| dac_sine := sample1 m; dac_asgn := sample2 m |} in
  (set_dac (upd (dac_ p) i w) p, m).

Definition output_stage (ui : Ui) (shapes : list Z) (p : Processor)
  : Processor * Mix :=
  for_down kNumChannels (output_channel ui shapes)
           (p, {| sample1 := 0; sample2 := 0; gain := 0 |}).

(** The [switch] on the feature mode in the middle of [Process]. *)
Definition mode_switch (ui : Ui) (inp : TickInput) (p : Processor) : Processor :=
  match feat_mode_ ui with
  | FEAT_MODE_FREE => mode_free ui inp p
  | FEAT_MODE_QUAD => mode_quad ui inp p
  | FEAT_MODE_PHASE => mode_phase ui inp p
  | FEAT_MODE_DIVIDE => mode_divide ui inp p
  | FEAT_MODE_LAST => p
  end.

(** The LFOs are initialised again when the feature mode has changed. *)
Definition mode_changed (ui : Ui) (p : Processor) : Processor :=
  if negb (bool_decide (feat_mode_ ui = previous_feat_mode_ p)) then
    let p := for_ kNumChannels (fun i p => lfo_call i call_Init p) p in
    let p := set_previous_feat_mode (feat_mode_ ui) p in
    set_waveform_offset 0 p
  else p.

(** [Processor::Process]: one tick.  [None] is the division by zero of
    [detect_reset]. *)
Definition Process (ui : Ui) (inp : TickInput) (p : Processor) : option Processor :=
  if bool_decide (mode_ ui = UI_MODE_SPLASH) then Some p
  else
    let p := mode_changed ui p in
    p ← for_opt kNumChannels (read_channel ui inp) p;
    let p := mode_switch ui inp p in
    let shapes := map (channel_shape ui inp p) (seq 0 4) in
    Some (fst (output_stage ui shapes p)).

(** A run of ticks, each with the interface and the inputs of its
    instant. *)
Fixpoint run (ticks : list (Ui * TickInput)) (p : Processor) : option Processor :=
  match ticks with
  | [] => Some p
  | (ui, inp) :: rest => Process ui inp p ≫= run rest
  end.

End Process.

(** * What the statements speak of *)

(** ** The interface *)

(** [l'] is [l] with element [t] overwritten by [v], and nothing else. *)
Definition written_at (l l' : list Z) (t : nat) (v : Z) : Prop :=
  at_ l' t = v /\ forall j, j <> t -> at_ l' j = at_ l j.

(** Everything in the interface other than the four arrays of the zoom
    settings. *)
Definition zoom_frame (ui ui' : Ui) : Prop :=
  pot_value_ ui' = pot_value_ ui /\
  pot_filtered_value_ ui' = pot_filtered_value_ ui /\
  pot_coarse_value_ ui' = pot_coarse_value_ ui /\
  last_touched_pot_ ui' = last_touched_pot_ ui /\
  press_time_ ui' = press_time_ ui /\
  detect_very_long_press_ ui' = detect_very_long_press_ ui /\
  detect_clear_settings_long_press_ ui' = detect_clear_settings_long_press_ ui /\
  catchup_state_ ui' = catchup_state_ ui /\
  animation_counter_ ui' = animation_counter_ ui /\
  queue_ ui' = queue_ ui /\
  leds_ ui' = leds_ ui /\
  mode_ ui' = mode_ ui /\
  feat_mode_ ui' = feat_mode_ ui /\
  bank_ ui' = bank_ ui /\
  classic_waveform_index_ ui' = classic_waveform_index_ ui /\
  random_waveform_index_ ui' = random_waveform_index_ ui /\
  version_token_ ui' = version_token_ ui /\
  storage ui' = storage ui.

(** A run of pot events through [OnPotChanged]. *)
Definition pot_events (evs : list Event) (ui : Ui) : Ui :=
  fold_left (fun acc e => OnPotChanged e acc) evs ui.

(** The events of [evs] addressed to channel [c] all lie [kCatchupThreshold]
    or more away from [v]. *)
Definition all_far_from (c : nat) (v : Z) (evs : list Event) : Prop :=
  Forall (fun e => 0 <= control_id e /\
                   (Z.to_nat (control_id e) = c ->
                    Z.abs (data e - v) >= kCatchupThreshold)) evs.

(** The events [Poll] adds to the queue. *)
Definition emitted (inp : PollInput) (ui : Ui) : list Event :=
  drop (length (queue_ ui)) (queue_ (Poll inp ui)).

(** The event [Poll] queues for pot [i] at the value [v]. *)
Definition pot_event (i : nat) (v : Z) : Event :=
  {| control_type := CONTROL_POT; control_id := Z.of_nat i; data := v |}.

(** Whether pot [i] has moved by the threshold since its last commit. *)
Definition pot_moved (thr : Z) (ui : Ui) (adc_pot : list Z) (i : nat) : bool :=
  let value := pot_filter ui adc_pot i in
  (value >=? at_ (pot_value_ ui) i + thr) || (value <=? at_ (pot_value_ ui) i - thr).

(** The pot events of one call of [Poll], for the pots below [k]. *)
Definition pot_events_upto (thr : Z) (ui : Ui) (adc_pot : list Z) (k : nat)
  : list Event :=
  flat_map (fun i => if pot_moved thr ui adc_pot i
                     then [pot_event i (pot_filter ui adc_pot i)] else [])
           (seq 0 k).

(** ** The processor *)

Section ProcessSpec.
Context `{Deps}.

(** The reset input of channel [i] as [Process] reads it. *)
Definition reset_sample (inp : TickInput) (i : nat) : Z := s16 (at_ (reset inp) i).

(** Whether channel [i] is armed once the low threshold has been looked
    at, and whether its trigger fires. *)
Definition armed_now (inp : TickInput) (p : Processor) (i : nat) : bool :=
  if reset_sample inp i <? kResetThresholdLow then true
  else at_ (reset_trigger_armed_ p) i.

Definition triggers (inp : TickInput) (p : Processor) (i : nat) : bool :=
  (reset_sample inp i >? kResetThresholdHigh) && armed_now inp p i.

(** The divisor of the sub-sample quotient. *)
Definition dist_to_next (inp : TickInput) (p : Processor) (i : nat) : Z :=
  reset_sample inp i - at_ (previous_reset_ p) i.

(** The trigger of channel [i] fires and the divisor is zero. *)
Definition faults (inp : TickInput) (p : Processor) (i : nat) : bool :=
  triggers inp p i && (dist_to_next inp p i =? 0).

(** The parts of the processor that the reset detection leaves alone. *)
Definition detect_frame (p p' : Processor) : Prop :=
  lfo_ p' = lfo_ p /\
  filtered_cv_ p' = filtered_cv_ p /\
  last_reset_ p' = last_reset_ p /\
  synced_ p' = synced_ p /\
  last_coarse_ p' = last_coarse_ p /\
  previous_feat_mode_ p' = previous_feat_mode_ p /\
  waveform_offset_ p' = waveform_offset_ p /\
  dac_ p' = dac_ p.

(** [l'] agrees with [l] away from index [i]. *)
Definition same_except {A} `{Inhabited A} (l l' : list A) (i : nat) : Prop :=
  forall j, j <> i -> at_ l' j = at_ l j.

(** What the first loop of [Process] leaves of channel [i]. *)
Definition channel_read (inp : TickInput) (p p' : Processor) (i : nat) : Prop :=
  at_ (reset_triggered_ p') i = triggers inp p i /\
  at_ (reset_trigger_armed_ p') i = armed_now inp p i /\
  at_ (previous_reset_ p') i = reset_sample inp i.

(** Channel [i] is as it was. *)
Definition channel_untouched (p p' : Processor) (i : nat) : Prop :=
  at_ (reset_triggered_ p') i = at_ (reset_triggered_ p) i /\
  at_ (reset_trigger_armed_ p') i = at_ (reset_trigger_armed_ p) i /\
  at_ (previous_reset_ p') i = at_ (previous_reset_ p) i.

(** The fields that no branch of a mode touches. *)
Definition mode_frame (p p' : Processor) : Prop :=
  previous_feat_mode_ p' = previous_feat_mode_ p /\
  reset_triggered_ p' = reset_triggered_ p /\
  previous_reset_ p' = previous_reset_ p.

(** The waveform offset a tick starts from: [Process] clears it when the
    feature mode has changed. *)
Definition offset_at_start (ui : Ui) (p : Processor) : Z :=
  if bool_decide (feat_mode_ ui = previous_feat_mode_ p)
  then waveform_offset_ p else 0.

(** Every tick of the run is in quad mode with the reset input of
    channel 3 not below the low threshold. *)
Definition quad_reset3_high (ticks : list (Ui * TickInput)) : Prop :=
  Forall (fun t => feat_mode_ (fst t) = FEAT_MODE_QUAD /\
                   reset_sample (snd t) 3 >= kResetThresholdLow) ticks.

(** An armed channel last saw its reset input at or below the high
    threshold. *)
Definition reset_inv (p : Processor) : Prop :=
  forall i, (i < 4)%nat ->
    at_ (reset_trigger_armed_ p) i = true ->
    at_ (previous_reset_ p) i <= kResetThresholdHigh.

(** Oscillator [j] once the last loop has stepped it. *)
Definition stepped (p : Processor) (j : nat) : Lfo := call_Step :: at_ (lfo_ p) j.

(** The sum of [f] over the channels from the last down to [i]: what the
    loop has accumulated when it writes channel [i]. *)
Definition sum_from (f : nat -> Z) (i : nat) : Z :=
  fold_left (fun acc j => acc + f j) (rev (seq i (4 - i))) 0.

(** The three sums of the last loop at channel [i]. *)
Definition gain_from (p : Processor) (i : nat) : Z :=
  sum_from (fun j => lfo_level (stepped p j)) i.

Definition sine_from (p : Processor) (i : nat) : Z :=
  sum_from (fun j => ComputeSampleShape (stepped p j) SHAPE_SINE) i.

Definition shaped_from (p : Processor) (shapes : list Z) (i : nat) : Z :=
  sum_from (fun j => ComputeSampleShape (stepped p j) (at_ shapes j)) i.

(** The sums once oscillator [l], rendering shape [s], is added. *)
Definition mix_add (m : Mix) (l : Lfo) (s : Z) : Mix :=
  {| sample1 := sample1 m + ComputeSampleShape l SHAPE_SINE;
     sample2 := sample2 m + ComputeSampleShape l s;
     gain := gain m + lfo_level l |}.

(** The pair of samples written in quad mode from the sums [m]. *)
Definition quad_write (m : Mix) : DacWrite :=
  {| dac_sine := Z.shiftl (cdiv (Z.shiftl (sample1 m) 13) (quad_denominator (gain m))) 3;
     dac_asgn := Z.shiftl (cdiv (Z.shiftl (sample2 m) 13) (quad_denominator (gain m))) 3 |}.

End ProcessSpec.

(** ** Concrete states and inputs *)

(** The interface in Normal, feature mode Quad, with some settings away
    from their defaults. *)
Definition ui_example : Ui :=
  {| pot_value_ := [1000; 2000; 3000; 4000];
     pot_filtered_value_ := [1000; 2000; 3000; 4000];
     pot_coarse_value_ := [1000; 2000; 3000; 4000];
     last_touched_pot_ := 0;
     press_time_ := [0; 0; 0; 0];
     detect_very_long_press_ := [false; false; false; false];
     detect_clear_settings_long_press_ := [false; false; false; false];
     catchup_state_ := [false; false; false; false];
     animation_counter_ := 300;
     queue_ := [];
     leds_ := [false; true; false; false];
     mode_ := UI_MODE_NORMAL;
     feat_mode_ := FEAT_MODE_QUAD;
     bank_ := [BANK_RANDOM; BANK_CLASSIC; BANK_CLASSIC; BANK_CLASSIC];
     classic_waveform_index_ := [-1; -1; -1; -1];
     random_waveform_index_ := [2; 0; 0; 0];
     pot_fine_value_ := [32767; 40000; 32767; 32767];
     pot_level_value_ := [65535; 65535; 65535; 65535];
     pot_atten_value_ := [65535; 65535; 65535; 65535];
     pot_phase_value_ := [65535; 65535; 65535; 65535];
     version_token_ := 7;
     storage := None |}.

(** A layout to run the interface on, that of enums of one byte: the
    block ends after element 1 of the phase array, and elements 0 and 1
    are saved and loaded whole. *)
Definition layout_short_enums : Layout.
Proof.
  refine {| phase_image := fun l => [at_ l 0; at_ l 1];
            phase_restore := fun image current =>
              upd (upd current 0 (at_ image 0)) 1 (at_ image 1) |}.
  - intros image current. unfold upd. rewrite !length_insert. reflexivity.
  - intros image current i Hi. unfold at_, upd.
    rewrite !list_lookup_total_insert_ne by lia. reflexivity.
  - intros l l' H0 H1. rewrite H0, H1. reflexivity.
  - intros l current Hl. unfold at_, upd.
    rewrite list_lookup_total_insert_ne by lia.
    rewrite list_lookup_total_insert_eq by exact Hl. reflexivity.
  - intros l. destruct l as [|a [|b l]]; reflexivity.
Defined.

(** The layout of enums of four bytes on a little-endian machine: the
    block ends one byte into element 1 of the phase array, whose low
    byte alone is saved and loaded. *)
Definition layout_int_enums : Layout.
Proof.
  refine {| phase_image := fun l => [at_ l 0; at_ l 1 mod 256];
            phase_restore := fun image current =>
              upd (upd current 0 (at_ image 0)) 1
                  (at_ current 1 - at_ current 1 mod 256 + at_ image 1) |}.
  - intros image current. unfold upd. rewrite !length_insert. reflexivity.
  - intros image current i Hi. unfold at_, upd.
    rewrite !list_lookup_total_insert_ne by lia. reflexivity.
  - intros l l' H0 H1. rewrite H0, H1. reflexivity.
  - intros l current Hl. unfold at_, upd.
    rewrite list_lookup_total_insert_ne by lia.
    rewrite list_lookup_total_insert_eq by exact Hl. reflexivity.
  - intros l. destruct l as [|a [|b l]]; try reflexivity.
    unfold upd, at_. cbn. f_equal. f_equal. lia.
Defined.


(** The level an oscillator was last given. *)
Fixpoint last_level (l : Lfo) : Z :=
  match l with
  | [] => 0
  | call_set_level v :: _ => v
  | _ :: l' => last_level l'
  end.

(** Tables and an oscillator to run the processor on: every table entry
    is [entry], the interpolation reads the entry of the high byte, a
    sample is a hundred times the number of its shape, and the level of
    an oscillator is the one it was last given. *)
Definition flat_deps (entry : Z) : Deps :=
  {| lut_scale_pitch := fun _ => entry;
     lut_scale_phase := fun _ => entry;
     lut_scale_divide := fun _ => entry;
     lut_scale_divide_multiply := fun _ => entry;
     Interpolate88 := fun table index => table (asr index 8);
     kOctave := 12 * 128;
     SHAPE_SINE := 2;
     SHAPE_TRAPEZOID := 0;
     SHAPE_SQUARE := 1;
     SHAPE_RANDOM_STEP := 4;
     ComputeSampleShape := fun l s => 100 * s;
     lfo_level := last_level;
     waveform_offset_bits := 8 |}.

(** The processor after [Processor::Init], with oscillators not yet
    called. *)
Definition processor_example : Processor :=
  Processor_Init
    {| lfo_ := [[]; []; []; []];
       filtered_cv_ := [0; 0; 0; 0];
       reset_trigger_armed_ := [false; false; false; false];
       reset_triggered_ := [false; false; false; false];
       previous_reset_ := [0; 0; 0; 0];
       reset_subsample_ := [0; 0; 0; 0];
       last_reset_ := [0; 0; 0; 0];
       synced_ := [false; false; false; false];
       last_coarse_ := [0; 0; 0; 0];
       previous_feat_mode_ := FEAT_MODE_LAST;
       waveform_offset_ := 0;
       dac_ := replicate 4 {| dac_sine := 0; dac_asgn := 0 |} |}.

(** A tick with the four reset inputs at [r0] to [r3] and everything
    else at rest. *)
Definition tick (r0 r1 r2 r3 : Z) : TickInput :=
  {| cv := [0; 0; 0; 0]; reset := [r0; r1; r2; r3]; sync_mode := false; shape := 0 |}.

(** The interface in Phase mode with pots 1 to 3 at their maximum. *)
Definition ui_phase_maxed : Ui :=
  set_pot_coarse_value [1000; 65535; 65535; 65535]
    (set_feat_mode FEAT_MODE_PHASE ui_example).

(** The interface in quad mode. *)
Definition ui_quad : Ui := set_feat_mode FEAT_MODE_QUAD ui_example.

(** The processor in quad mode, channel 4 (index 3) armed. *)
Definition processor_quad_armed : Processor :=
  set_reset_trigger_armed [false; false; false; true]
    (set_previous_feat_mode FEAT_MODE_QUAD
       (set_waveform_offset 5 processor_example)).

(** The same with channel 4 disarmed. *)
Definition processor_quad_disarmed : Processor :=
  set_reset_trigger_armed [false; false; false; false]
    (set_previous_feat_mode FEAT_MODE_QUAD
       (set_waveform_offset 6 processor_example)).

(** No switch touched, pot 2 turned up to 30000. *)
Definition poll_input_example : PollInput :=
  {| just_pressed := fun _ => false;
     pressed := fun _ => false;
     released := fun _ => false;
     milliseconds := 12345;
     pot := [1000; 2000; 30000; 4000] |}.

(** In Zoom, with pot 2 committed at 9000 while its coarse value is
    3000. *)
Definition ui_zoom_moved : Ui :=
  set_mode UI_MODE_ZOOM (set_pot_value [1000; 2000; 9000; 4000] ui_example).

(** Back in Normal, channel 2 in catch-up. *)
Definition ui_catchup : Ui :=
  set_catchup_state [false; false; true; false]
    (set_pot_value [1000; 2000; 9000; 4000] ui_example).

(** The release of the select button after [d] ms. *)
Definition release_event (d : Z) : Event :=
  {| control_type := CONTROL_SWITCH; control_id := SWITCH_SELECT; data := d |}.

(** A load that failed and left arbitrary values behind. *)
Definition load_failed : LoadResult :=
  {| load_ok := false;
     load_buffer := {| s_feat_mode := FEAT_MODE_LAST;
                       s_bank := [BANK_LAST; BANK_RANDOM; BANK_LAST; BANK_LAST];
                       s_classic_waveform_index := [255; 255; 255; 255];
                       s_random_waveform_index := [255; 255; 255; 255];
                       s_pot_fine_value := [65535; 65535; 65535; 65535];
                       s_pot_level_value := [65535; 65535; 0; 65535];
                       s_pot_atten_value := [65535; 65535; 65535; 0];
                       s_pot_phase_image := [65535; 0] |};
     load_token := 0 |}.

(** ** More of the interface *)

(** The feature mode that follows [m] on the panel. *)
Definition next_feature_mode (m : FeatureMode) : FeatureMode :=
  match m with
  | FEAT_MODE_FREE => FEAT_MODE_QUAD
  | FEAT_MODE_QUAD => FEAT_MODE_PHASE
  | FEAT_MODE_PHASE => FEAT_MODE_DIVIDE
  | FEAT_MODE_DIVIDE => FEAT_MODE_FREE
  | FEAT_MODE_LAST => FEAT_MODE_QUAD
  end.

(** The release of the select button after [d] ms, as the interface
    handles it. *)
Definition short_release `{Layout} (d : Z) (ui : Ui) : Ui :=
  OnSwitchReleased
    {| control_type := CONTROL_SWITCH; control_id := SWITCH_SELECT; data := d |} ui.

(** Calls of [Poll] one after the other, with no event handled in
    between. *)
Definition polls (inps : list PollInput) (ui : Ui) : Ui :=
  fold_left (fun acc inp => Poll inp acc) inps ui.

(** The pots read [adc] at start-up and again at the first [Poll]. *)
Definition reads_pots (adc : list Z) (inp : PollInput) : Prop :=
  pot inp = adc /\ length adc = 4%nat /\
  forall i, (i < 4)%nat -> 0 <= at_ adc i <= 65535.

(** ** More of the processor *)

(** Every tick of the run is either skipped for the splash animation or
    made in free mode. *)
Definition free_ticks (ticks : list (Ui * TickInput)) : Prop :=
  List.Forall (fun t => mode_ (fst t) = UI_MODE_SPLASH \/
                        feat_mode_ (fst t) = FEAT_MODE_FREE) ticks.

(** The latest multiplier and the latest divider given to an
    oscillator. *)
Fixpoint multiplier_of (l : Lfo) : option Z :=
  match l with
  | [] => None
  | call_set_multiplier m :: _ => Some m
  | _ :: l' => multiplier_of l'
  end.

Fixpoint divider_of (l : Lfo) : option Z :=
  match l with
  | [] => None
  | call_set_divider d :: _ => Some d
  | _ :: l' => divider_of l'
  end.

(** The latest pitch given to an oscillator. *)
Fixpoint pitch_of (l : Lfo) : option Z :=
  match l with
  | [] => None
  | call_set_pitch x :: _ => Some x
  | _ :: l' => pitch_of l'
  end.

(** The CV of channel [n] after its attenuator, as [SetFrequency] and the
    linked modes compute it. *)
Definition attenuated_cv (ui : Ui) (p : Processor) (n : nat) : Z :=
  s16 (asr (at_ (filtered_cv_ p) n * atten ui n) 16).

(** The body of the loop over the linked channels in divide mode. *)
Definition divide_channel `{Deps} (ui : Ui) (inp : TickInput) (i : nat) (p : Processor)
  : Processor :=
  let p := lfo_call i (call_link_to 0) p in
  let cv := s16 (asr (at_ (filtered_cv_ p) i * atten ui i) 16) in
  let divMult := AdcValuesToDividerMultiplier (coarse ui i) (fine ui i) cv in
  let p :=
    if divMult >? 1 then
      let p := lfo_call i (call_set_multiplier 1) p in
      lfo_call i (call_set_divider divMult) p
    else if divMult <? -1 then
      let p := lfo_call i (call_set_multiplier (- divMult)) p in
      lfo_call i (call_set_divider 1) p
    else
      let p := lfo_call i (call_set_multiplier 1) p in
      lfo_call i (call_set_divider 1) p in
  let p := lfo_call i (call_set_initial_phase (phase ui i)) p in
  if negb (sync_mode inp) && at_ (reset_triggered_ p) 0
  then lfo_call i (call_Reset (at_ (reset_subsample_ p) 0)) p
  else p.

(** ** More concrete states and inputs *)

(** The interface at the start of the splash animation. *)
Definition ui_splash : Ui :=
  set_animation_counter 0 (set_mode UI_MODE_SPLASH ui_example).

(** The select button went down at 12000 ms and no long press has been
    reported yet. *)
Definition ui_select_down : Ui := set_press_time [0; 0; 0; 12000] ui_example.

(** The select button is held at [ms], the pots are where the interface
    has them. *)
Definition poll_select_held (ms : Z) : PollInput :=
  {| just_pressed := fun _ => false;
     pressed := fun i => i =? SWITCH_SELECT;
     released := fun _ => false;
     milliseconds := ms;
     pot := [1000; 2000; 3000; 4000] |}.

(** The select button comes up at [ms]. *)
Definition poll_select_released (ms : Z) : PollInput :=
  {| just_pressed := fun _ => false;
     pressed := fun _ => false;
     released := fun i => i =? SWITCH_SELECT;
     milliseconds := ms;
     pot := [1000; 2000; 3000; 4000] |}.

(** The interface in free mode, in divide mode and in phase mode with
    the pots away from their maximum. *)
Definition ui_free : Ui := set_feat_mode FEAT_MODE_FREE ui_example.
Definition ui_divide : Ui := set_feat_mode FEAT_MODE_DIVIDE ui_example.
Definition ui_phase : Ui := set_feat_mode FEAT_MODE_PHASE ui_example.

(** A tick in sync mode with 8000 on the CV input of channel 0. *)
Definition tick_sync : TickInput :=
  {| cv := [8000; 0; 0; 0]; reset := [0; 0; 0; 0]; sync_mode := true; shape := 0 |}.

(** The processor with channel 0 following an external clock, its
    filtered CV at 8000 and its pitch last set with the pot at 1000. *)
Definition processor_synced : Processor :=
  set_last_coarse [1000; 0; 0; 0]
    (set_filtered_cv [8000; 0; 0; 0]
      (set_synced [true; false; false; false] processor_example)).

(** The processor with channel 1 armed, its reset input last seen at
    5000. *)
Definition processor_armed : Processor :=
  set_previous_reset [0; 5000; 0; 0]
    (set_reset_trigger_armed [false; true; false; false] processor_example).

(** * Proofs *)

(** ** Integers and arrays *)

Lemma u16_id x : 0 <= x <= 65535 -> u16 x = x.
Proof. intros H. unfold u16. apply Z.mod_small. lia. Qed.

Lemma u16_range x : 0 <= u16 x <= 65535.
Proof. unfold u16. pose proof (Z.mod_pos_bound x 65536). lia. Qed.

Lemma CONSTRAIN_range var lo hi : lo <= hi -> lo <= CONSTRAIN var lo hi <= hi.
Proof.
  intros H. unfold CONSTRAIN.
  destruct (Z.ltb_spec var lo); [lia|].
  destruct (Z.gtb_spec var hi); lia.
Qed.

Lemma at_upd_eq {A} `{Inhabited A} (a : list A) i v :
  (i < length a)%nat -> at_ (upd a i v) i = v.
Proof.
  intros Hi. unfold at_, upd. apply list_lookup_total_insert_eq. exact Hi.
Qed.

Lemma at_upd_ne {A} `{Inhabited A} (a : list A) i j v :
  i <> j -> at_ (upd a i v) j = at_ a j.
Proof.
  intros Hij. unfold at_, upd. apply list_lookup_total_insert_ne. exact Hij.
Qed.

Lemma length_upd {A} (a : list A) i v : length (upd a i v) = length a.
Proof. unfold upd. apply length_insert. Qed.

(** ** Tactics *)

Ltac len4 :=
  repeat match goal with
  | H : length ?l = 4%nat |- _ =>
      is_var l;
      destruct l as [|? [|? [|? [|? [|? ?]]]]]; try discriminate H; clear H
  end.

Ltac split_ands :=
  repeat match goal with H : _ /\ _ |- _ => destruct H end.

Ltac ui_arrays ui :=
  destruct ui; unfold Ui_wf in *; cbn [pot_value_ pot_filtered_value_ pot_coarse_value_
    press_time_ detect_very_long_press_ detect_clear_settings_long_press_
    catchup_state_ leds_ bank_ classic_waveform_index_ random_waveform_index_
    pot_fine_value_ pot_level_value_ pot_atten_value_ pot_phase_value_] in *;
  split_ands; len4.

Ltac pr_fields :=
  cbn [lfo_ filtered_cv_ reset_trigger_armed_ reset_triggered_ previous_reset_
       reset_subsample_ last_reset_ synced_ last_coarse_ previous_feat_mode_
       waveform_offset_ dac_
       set_lfo set_filtered_cv set_reset_trigger_armed set_reset_triggered
       set_previous_reset set_reset_subsample set_last_reset set_synced
       set_last_coarse set_previous_feat_mode set_waveform_offset set_dac
       lfo_call].

Ltac pr_fields_all :=
  cbn [lfo_ filtered_cv_ reset_trigger_armed_ reset_triggered_ previous_reset_
       reset_subsample_ last_reset_ synced_ last_coarse_ previous_feat_mode_
       waveform_offset_ dac_
       set_lfo set_filtered_cv set_reset_trigger_armed set_reset_triggered
       set_previous_reset set_reset_subsample set_last_reset set_synced
       set_last_coarse set_previous_feat_mode set_waveform_offset set_dac
       lfo_call] in *.

Ltac pr_wf :=
  unfold Processor_wf in *; pr_fields; rewrite ?length_upd; intuition idtac.

Ltac split_ifs :=
  repeat (pr_fields;
          match goal with
          | |- context [if ?c then _ else _] => destruct c eqn:?
          end).

(** ** The interface *)

Section Startup.
Context `{Layout}.

(** C8.  When the load of the settings fails, whatever the load left
    in the buffer, [Init] ends with the feature mode Free, the classic
    bank and random waveform index 0 on the four channels, the fine pots
    at 32767 and the phase, level and attenuation pots at 65535; the
    interface is in Splash and every array has its four elements.  [Init]
    is a total function: there is no failing path. *)
Lemma Init_defaults ld adc ui :
  Ui_wf ui -> Settings_wf (load_buffer ld) -> load_ok ld = false ->
  let ui' := Init ld adc ui in
  feat_mode_ ui' = FEAT_MODE_FREE /\
  bank_ ui' = [BANK_CLASSIC; BANK_CLASSIC; BANK_CLASSIC; BANK_CLASSIC] /\
  random_waveform_index_ ui' = [0; 0; 0; 0] /\
  pot_fine_value_ ui' = [32767; 32767; 32767; 32767] /\
  pot_phase_value_ ui' = [65535; 65535; 65535; 65535] /\
  pot_level_value_ ui' = [65535; 65535; 65535; 65535] /\
  pot_atten_value_ ui' = [65535; 65535; 65535; 65535] /\
  mode_ ui' = UI_MODE_SPLASH /\
  Ui_wf ui'.
Proof.
  intros Hwf Hs Hok. destruct ld as [ok buf tok]. cbn in Hs, Hok. subst ok.
  destruct buf; unfold Settings_wf in Hs; cbn in Hs.
  repeat match goal with H : _ /\ _ |- _ => destruct H end; len4.
  ui_arrays ui.
  cbv zeta. unfold Init. cbn -[u16 at_].
  match goal with
  | |- context [phase_restore ?im ?cur] =>
      pose proof (phase_restore_length im cur) as Hl;
      destruct (phase_restore im cur) as [|? [|? [|? [|? [|? ?]]]]];
      try discriminate Hl
  end.
  cbn -[u16 at_]. repeat split; reflexivity.
Qed.

End Startup.

Section ClearSettings.
Context `{Layout}.


End ClearSettings.

Lemma written_at_upd (l : list Z) t v :
  (t < length l)%nat -> written_at l (upd l t v) t v.
Proof.
  intros Ht. split.
  - apply at_upd_eq. exact Ht.
  - intros j Hj. apply at_upd_ne. congruence.
Qed.

(** C10.  In Zoom, a pot event with control id [k] writes the fine
    (k = 0), level (k = 1), attenuation (k = 2) or phase (k = 3) value of
    the last touched channel, that element and no other; the other three
    of these arrays are unchanged, and so is everything else in the
    interface: coarse values, catch-up flags, banks, waveform indices and
    the index of the last touched pot among them. *)
Theorem zoom_pot_changed_frame ui e :
  Ui_wf ui ->
  mode_ ui = UI_MODE_ZOOM ->
  0 <= last_touched_pot_ ui < 4 ->
  let t := Z.to_nat (last_touched_pot_ ui) in
  let ui' := OnPotChanged e ui in
  zoom_frame ui ui' /\
  (control_id e = 0 ->
     written_at (pot_fine_value_ ui) (pot_fine_value_ ui') t (u16 (data e)) /\
     pot_level_value_ ui' = pot_level_value_ ui /\
     pot_atten_value_ ui' = pot_atten_value_ ui /\
     pot_phase_value_ ui' = pot_phase_value_ ui) /\
  (control_id e = 1 ->
     written_at (pot_level_value_ ui) (pot_level_value_ ui') t (u16 (data e)) /\
     pot_fine_value_ ui' = pot_fine_value_ ui /\
     pot_atten_value_ ui' = pot_atten_value_ ui /\
     pot_phase_value_ ui' = pot_phase_value_ ui) /\
  (control_id e = 2 ->
     written_at (pot_atten_value_ ui) (pot_atten_value_ ui') t (u16 (data e)) /\
     pot_fine_value_ ui' = pot_fine_value_ ui /\
     pot_level_value_ ui' = pot_level_value_ ui /\
     pot_phase_value_ ui' = pot_phase_value_ ui) /\
  (control_id e = 3 ->
     written_at (pot_phase_value_ ui) (pot_phase_value_ ui') t (u16 (data e)) /\
     pot_fine_value_ ui' = pot_fine_value_ ui /\
     pot_level_value_ ui' = pot_level_value_ ui /\
     pot_atten_value_ ui' = pot_atten_value_ ui).
Proof.
  intros Hwf Hmode Ht t ui'.
  assert (Hlt : (t < 4)%nat) by (subst t; lia).
  destruct Hwf as (_&_&_&_&_&_&_&_&_&_&_&Hf&Hl&Ha&Hp).
  subst ui'. unfold OnPotChanged. rewrite Hmode. fold t.
  split.
  - unfold zoom_frame.
    destruct (control_id e) as [|[[|[]|]|[]|]|]; cbn; repeat split; reflexivity.
  - split; [|split; [|split]]; intros ->;
      cbn [set_pot_fine_value set_pot_level_value set_pot_atten_value
           set_pot_phase_value pot_fine_value_ pot_level_value_
           pot_atten_value_ pot_phase_value_];
      (split; [apply written_at_upd; lia | repeat split; reflexivity]).
Qed.

Section Catchup.
Context `{Layout}.

Lemma gotoNormal_effect ui :
  let ui' := gotoNormalModeWithCatchupAndSaving ui in
  mode_ ui' = UI_MODE_NORMAL /\
  pot_coarse_value_ ui' = pot_coarse_value_ ui /\
  pot_value_ ui' = pot_value_ ui /\
  storage ui' = Some (settings_of ui) /\
  forall i, (i < 4)%nat -> length (catchup_state_ ui) = 4%nat ->
    at_ (catchup_state_ ui') i =
      if Z.abs (at_ (pot_value_ ui) i - at_ (pot_coarse_value_ ui) i) >? kCatchupThreshold
      then true else at_ (catchup_state_ ui) i.
Proof.
  destruct ui as [pv pf pc lt pt vl cs cu ac q le mo fm bk cw rw fi lv at_v ph vt sto].
  cbv zeta. unfold gotoNormalModeWithCatchupAndSaving, ParsimoniousSave, for_.
  cbn [seq fold_left].
  set (far := fun i : nat => Z.abs (at_ pv i - at_ pc i) >? kCatchupThreshold).
  cbn [pot_value_ pot_coarse_value_ catchup_state_ set_catchup_state].
  fold (far 0%nat) (far 1%nat) (far 2%nat) (far 3%nat).
  destruct (far 0%nat) eqn:H0; cbn [pot_value_ pot_coarse_value_ catchup_state_ set_catchup_state];
  fold (far 1%nat); destruct (far 1%nat) eqn:H1;
    cbn [pot_value_ pot_coarse_value_ catchup_state_ set_catchup_state];
  fold (far 2%nat); destruct (far 2%nat) eqn:H2;
    cbn [pot_value_ pot_coarse_value_ catchup_state_ set_catchup_state];
  fold (far 3%nat); destruct (far 3%nat) eqn:H3;
  (split; [reflexivity|]); (split; [reflexivity|]); (split; [reflexivity|]);
  (split; [reflexivity|]);
  intros i Hi Hl; cbn in Hl;
  destruct cu as [|? [|? [|? [|? [|? ?]]]]]; try discriminate Hl;
  destruct i as [|[|[|[|?]]]]; try lia;
  cbn [pot_value_ pot_coarse_value_];
  fold (far 0%nat) (far 1%nat) (far 2%nat) (far 3%nat);
  rewrite ?H0, ?H1, ?H2, ?H3; reflexivity.
Qed.

Lemma OnPotChanged_normal_step ui e c v :
  mode_ ui = UI_MODE_NORMAL ->
  length (catchup_state_ ui) = 4%nat ->
  length (pot_coarse_value_ ui) = 4%nat ->
  (c < 4)%nat ->
  at_ (catchup_state_ ui) c = true ->
  at_ (pot_coarse_value_ ui) c = v ->
  0 <= control_id e ->
  (Z.to_nat (control_id e) = c -> Z.abs (data e - v) >= kCatchupThreshold) ->
  let ui' := OnPotChanged e ui in
  mode_ ui' = UI_MODE_NORMAL /\
  length (catchup_state_ ui') = 4%nat /\
  length (pot_coarse_value_ ui') = 4%nat /\
  at_ (catchup_state_ ui') c = true /\
  at_ (pot_coarse_value_ ui') c = v.
Proof.
  intros Hm Hlc Hlp Hc Hcu Hco Hid Hfar ui'. subst ui'.
  unfold OnPotChanged. rewrite Hm.
  cbn [set_last_touched_pot catchup_state_ pot_coarse_value_].
  set (n := Z.to_nat (control_id e)) in *.
  destruct (decide (n = c)) as [->|Hne].
  - rewrite Hcu. cbn [negb]. rewrite Hco.
    specialize (Hfar eq_refl).
    destruct (Z.ltb_spec (Z.abs (data e - v)) kCatchupThreshold); [lia|].
    cbn. auto.
  - destruct (negb (at_ (catchup_state_ ui) n)).
    + cbn. rewrite length_upd, at_upd_ne by exact Hne. auto.
    + destruct (_ <? _); cbn; rewrite ?length_upd, ?at_upd_ne by exact Hne; auto.
Qed.

Lemma pot_events_frozen evs : forall ui c v,
  mode_ ui = UI_MODE_NORMAL ->
  length (catchup_state_ ui) = 4%nat ->
  length (pot_coarse_value_ ui) = 4%nat ->
  (c < 4)%nat ->
  at_ (catchup_state_ ui) c = true ->
  at_ (pot_coarse_value_ ui) c = v ->
  all_far_from c v evs ->
  let ui' := pot_events evs ui in
  mode_ ui' = UI_MODE_NORMAL /\
  length (catchup_state_ ui') = 4%nat /\
  length (pot_coarse_value_ ui') = 4%nat /\
  at_ (catchup_state_ ui') c = true /\
  at_ (pot_coarse_value_ ui') c = v.
Proof.
  induction evs as [|e evs IH]; intros ui c v Hm Hlc Hlp Hc Hcu Hco Hfar.
  - cbn. auto.
  - inversion Hfar as [|? ? [Hid He] Hrest]; subst.
    destruct (OnPotChanged_normal_step ui e c _ Hm Hlc Hlp Hc Hcu eq_refl Hid He)
      as (Hm' & Hlc' & Hlp' & Hcu' & Hco').
    cbn [pot_events fold_left]. apply IH; assumption.
Qed.

Lemma OnPotChanged_normal_snap ui e c :
  mode_ ui = UI_MODE_NORMAL ->
  length (catchup_state_ ui) = 4%nat ->
  length (pot_coarse_value_ ui) = 4%nat ->
  (c < 4)%nat ->
  at_ (catchup_state_ ui) c = true ->
  Z.to_nat (control_id e) = c ->
  Z.abs (data e - at_ (pot_coarse_value_ ui) c) < kCatchupThreshold ->
  let ui' := OnPotChanged e ui in
  at_ (pot_coarse_value_ ui') c = u16 (data e) /\
  at_ (catchup_state_ ui') c = false.
Proof.
  intros Hm Hlc Hlp Hc Hcu Hid Hnear ui'. subst ui'.
  unfold OnPotChanged. rewrite Hm.
  cbn [set_last_touched_pot catchup_state_ pot_coarse_value_].
  rewrite Hid, Hcu. cbn [negb].
  destruct (Z.ltb_spec (Z.abs (data e - at_ (pot_coarse_value_ ui) c)) kCatchupThreshold);
    [|lia].
  cbn. rewrite !at_upd_eq by lia. auto.
Qed.

(** C5, amended.  First part: on a release of the select button that takes Zoom
    or random waveform selection to Normal, every channel whose committed
    pot value is more than 1024 away from its coarse value has its
    catch-up flag set, and no coarse value changes.  Second part: in
    Normal, for a channel [c] in catch-up, a run of pot events in which
    every event addressed to [c] lies 1024 or more away from the stored
    coarse value leaves that coarse value and the flag as they are; the
    next event for [c] that lies less than 1024 away sets the coarse
    value to exactly its value and clears the flag. *)
Theorem catchup_after_return_to_normal :
  (forall ui e i,
     Ui_wf ui ->
     control_id e = SWITCH_SELECT ->
     (mode_ ui = UI_MODE_ZOOM /\ data e <= kVeryLongPressDuration) \/
     (mode_ ui = UI_MODE_RANDOM_WAVEFORM_SELECT /\ data e <= kLongPressDuration) ->
     (i < 4)%nat ->
     Z.abs (at_ (pot_value_ ui) i - at_ (pot_coarse_value_ ui) i) > kCatchupThreshold ->
     let ui' := OnSwitchReleased e ui in
     mode_ ui' = UI_MODE_NORMAL /\
     at_ (catchup_state_ ui') i = true /\
     pot_coarse_value_ ui' = pot_coarse_value_ ui) /\
  (forall ui evs e c,
     Ui_wf ui ->
     mode_ ui = UI_MODE_NORMAL ->
     (c < 4)%nat ->
     at_ (catchup_state_ ui) c = true ->
     all_far_from c (at_ (pot_coarse_value_ ui) c) evs ->
     Z.to_nat (control_id e) = c ->
     Z.abs (data e - at_ (pot_coarse_value_ ui) c) < kCatchupThreshold ->
     0 <= data e <= 65535 ->
     let ui1 := pot_events evs ui in
     let ui2 := OnPotChanged e ui1 in
     at_ (pot_coarse_value_ ui1) c = at_ (pot_coarse_value_ ui) c /\
     at_ (catchup_state_ ui1) c = true /\
     at_ (pot_coarse_value_ ui2) c = data e /\
     at_ (catchup_state_ ui2) c = false).
Proof.
  split.
  - intros ui e i Hwf Hid Hcase Hi Hfar ui'.
    assert (Hgo : ui' = gotoNormalModeWithCatchupAndSaving ui).
    { subst ui'. unfold OnSwitchReleased. rewrite Hid, Z.eqb_refl.
      unfold kVeryLongPressDuration, kLongPressDuration,
        kClearSettingsLongPressDuration in *.
      destruct Hcase as [[Hm Hd]|[Hm Hd]]; rewrite Hm.
      - destruct (Z.gtb_spec (data e) 4000); [lia|].
        destruct (Z.gtb_spec (data e) 2000); [lia|].
        destruct (data e >? 500); reflexivity.
      - destruct (Z.gtb_spec (data e) 4000); [lia|].
        destruct (Z.gtb_spec (data e) 2000); [lia|].
        destruct (Z.gtb_spec (data e) 500); [lia|]. reflexivity. }
    rewrite Hgo.
    destruct (gotoNormal_effect ui) as (Hm & Hco & _ & _ & Hcu).
    split; [exact Hm|]. split; [|exact Hco].
    rewrite Hcu; [|exact Hi|apply Hwf].
    destruct (Z.gtb_spec (Z.abs (at_ (pot_value_ ui) i - at_ (pot_coarse_value_ ui) i))
                kCatchupThreshold); [reflexivity|lia].
  - intros ui evs e c Hwf Hm Hc Hcu Hfar Hid Hnear Hdata ui1 ui2.
    assert (Hlc : length (catchup_state_ ui) = 4%nat) by apply Hwf.
    assert (Hlp : length (pot_coarse_value_ ui) = 4%nat) by apply Hwf.
    destruct (pot_events_frozen evs ui c _ Hm Hlc Hlp Hc Hcu eq_refl Hfar)
      as (Hm1 & Hlc1 & Hlp1 & Hcu1 & Hco1).
    fold ui1 in Hm1, Hlc1, Hlp1, Hcu1, Hco1.
    split; [exact Hco1|]. split; [exact Hcu1|].
    assert (Hnear1 : Z.abs (data e - at_ (pot_coarse_value_ ui1) c) < kCatchupThreshold)
      by (rewrite Hco1; exact Hnear).
    destruct (OnPotChanged_normal_snap ui1 e c Hm1 Hlc1 Hlp1 Hc Hcu1 Hid Hnear1)
      as (Hs & Hf).
    split; [|exact Hf]. subst ui2. rewrite Hs. apply u16_id. exact Hdata.
Qed.

End Catchup.

Lemma for__frame {S A : Type} (f : S -> A) n (body : nat -> S -> S) s :
  (forall i x, f (body i x) = f x) -> f (for_ n body s) = f s.
Proof.
  intros Hb. unfold for_. generalize (seq 0 n). intros l. revert s.
  induction l as [|i l IH]; intros s; cbn; [reflexivity|].
  rewrite IH. apply Hb.
Qed.

Ltac frame :=
  repeat first
    [ reflexivity
    | progress cbn [queue_ pot_value_ pot_filtered_value_ mode_
        set_animation_counter set_mode set_leds set_led set_press_time
        set_detect_very_long_press set_detect_clear_settings_long_press]
    | match goal with
      | |- context [if ?c then _ else _] => destruct c
      | |- context [for_ _ _ _] => rewrite for__frame; [|intros]
      end ].

Lemma paint_frame ui :
  queue_ (paint ui) = queue_ ui /\
  pot_value_ (paint ui) = pot_value_ ui /\
  pot_filtered_value_ (paint ui) = pot_filtered_value_ ui.
Proof.
  unfold paint. destruct (mode_ ui); cbv zeta; repeat split; frame.
Qed.

Lemma poll_switch_effect inp i ui :
  exists sw,
    queue_ (poll_switch inp i ui) = queue_ ui ++ sw /\
    Forall (fun e => control_type e = CONTROL_SWITCH) sw /\
    pot_value_ (poll_switch inp i ui) = pot_value_ ui /\
    pot_filtered_value_ (poll_switch inp i ui) = pot_filtered_value_ ui /\
    mode_ (poll_switch inp i ui) = mode_ ui.
Proof.
  unfold poll_switch. cbv zeta.
  repeat match goal with
  | |- context [if ?c then _ else _] => destruct c
  end;
  cbn [queue_ pot_value_ pot_filtered_value_ mode_ AddEvent set_queue
       set_press_time set_detect_very_long_press
       set_detect_clear_settings_long_press];
  rewrite <- ?app_assoc;
  (eexists; split; [reflexivity|split; [repeat constructor|auto]])
  || (exists []; rewrite app_nil_r; auto).
Qed.

Lemma poll_switches_effect inp ui :
  exists sw,
    queue_ (poll_switches inp ui) = queue_ ui ++ sw /\
    Forall (fun e => control_type e = CONTROL_SWITCH) sw /\
    pot_value_ (poll_switches inp ui) = pot_value_ ui /\
    pot_filtered_value_ (poll_switches inp ui) = pot_filtered_value_ ui /\
    mode_ (poll_switches inp ui) = mode_ ui.
Proof.
  change (poll_switches inp ui) with (poll_switch inp 3 ui).
  apply poll_switch_effect.
Qed.

Lemma for__S {S : Type} n (body : nat -> S -> S) s :
  for_ (Datatypes.S n) body s = body n (for_ n body s).
Proof. unfold for_. rewrite seq_S, fold_left_app. reflexivity. Qed.

Lemma poll_pot_effect thr adc i ui :
  let v := pot_filter ui adc i in
  let ui' := poll_pot thr adc i ui in
  queue_ ui' = queue_ ui ++ (if pot_moved thr ui adc i then [pot_event i v] else []) /\
  pot_filtered_value_ ui' = upd (pot_filtered_value_ ui) i (u16 v) /\
  pot_value_ ui' =
    (if pot_moved thr ui adc i then upd (pot_value_ ui) i (u16 v) else pot_value_ ui).
Proof.
  cbv zeta. unfold poll_pot, pot_moved.
  cbn [pot_value_ set_pot_filtered_value].
  destruct (_ || _); cbn; rewrite ?app_nil_r; auto.
Qed.

Lemma poll_pot_loop thr adc ui k :
  length (pot_value_ ui) = 4%nat ->
  length (pot_filtered_value_ ui) = 4%nat ->
  (k <= 4)%nat ->
  let ui' := for_ k (poll_pot thr adc) ui in
  queue_ ui' = queue_ ui ++ pot_events_upto thr ui adc k /\
  length (pot_value_ ui') = 4%nat /\
  length (pot_filtered_value_ ui') = 4%nat /\
  (forall i, (i < k)%nat ->
     at_ (pot_filtered_value_ ui') i = u16 (pot_filter ui adc i) /\
     at_ (pot_value_ ui') i =
       if pot_moved thr ui adc i then u16 (pot_filter ui adc i)
       else at_ (pot_value_ ui) i) /\
  (forall i, (k <= i)%nat ->
     at_ (pot_filtered_value_ ui') i = at_ (pot_filtered_value_ ui) i /\
     at_ (pot_value_ ui') i = at_ (pot_value_ ui) i).
Proof.
  intros Hv Hf. induction k as [|k IH]; intros Hk.
  - cbn. rewrite app_nil_r. repeat split; auto; intros; lia.
  - cbv zeta. rewrite for__S.
    destruct IH as (Hq & Hlv & Hlf & Hlo & Hhi); [lia|].
    set (u := for_ k (poll_pot thr adc) ui) in *.
    destruct (poll_pot_effect thr adc k u) as (Eq & Ef & Ev).
    destruct (Hhi k (Nat.le_refl k)) as (Hfk & Hvk).
    assert (Efil : pot_filter u adc k = pot_filter ui adc k)
      by (unfold pot_filter; rewrite Hfk; reflexivity).
    assert (Emov : pot_moved thr u adc k = pot_moved thr ui adc k)
      by (unfold pot_moved; rewrite Efil, Hvk; reflexivity).
    rewrite Efil, Emov in *.
    split.
    { rewrite Eq, Hq. unfold pot_events_upto.
      rewrite seq_S, flat_map_app, <- app_assoc. cbn [flat_map].
      rewrite app_nil_r. reflexivity. }
    split. { rewrite Ev. destruct (pot_moved thr ui adc k); rewrite ?length_upd; exact Hlv. }
    split. { rewrite Ef, length_upd. exact Hlf. }
    split.
    + intros i Hi. destruct (decide (i = k)) as [->|Hne].
      * rewrite Ef, Ev. rewrite at_upd_eq by lia.
        split; [reflexivity|].
        destruct (pot_moved thr ui adc k); [apply at_upd_eq; lia|exact Hvk].
      * destruct (Hlo i ltac:(lia)) as (H1 & H2).
        rewrite Ef, Ev. rewrite at_upd_ne by congruence.
        split; [exact H1|].
        destruct (pot_moved thr ui adc k); rewrite ?at_upd_ne by congruence; exact H2.
    + intros i Hi. destruct (Hhi i ltac:(lia)) as (H1 & H2).
      rewrite Ef, Ev. rewrite at_upd_ne by lia.
      split; [exact H1|].
      destruct (pot_moved thr ui adc k); rewrite ?at_upd_ne by lia; exact H2.
Qed.

Lemma pot_filter_range ui adc i :
  0 <= at_ (pot_filtered_value_ ui) i <= 65535 ->
  0 <= pot_filter ui adc i <= 65535.
Proof.
  intros Hf. unfold pot_filter, asr. rewrite Z.shiftr_div_pow2 by lia.
  pose proof (u16_range (at_ adc i)) as Ha.
  change (2 ^ 5) with 32.
  split.
  - apply Z.div_pos; lia.
  - apply Z.div_le_upper_bound; lia.
Qed.

Lemma pot_moved_spec thr ui adc i :
  0 <= thr ->
  pot_moved thr ui adc i = true <->
  Z.abs (pot_filter ui adc i - at_ (pot_value_ ui) i) >= thr.
Proof.
  intros Hthr. unfold pot_moved. cbv zeta.
  rewrite orb_true_iff, Z.geb_le, Z.leb_le. lia.
Qed.

Lemma in_pot_events_upto thr ui adc k i d :
  In (pot_event i d) (pot_events_upto thr ui adc k) <->
  (i < k)%nat /\ pot_moved thr ui adc i = true /\ d = pot_filter ui adc i.
Proof.
  unfold pot_events_upto. rewrite in_flat_map. split.
  - intros (j & Hj & Hin). apply in_seq in Hj.
    destruct (pot_moved thr ui adc j) eqn:Hm; [|destruct Hin].
    destruct Hin as [Heq|[]]. unfold pot_event in Heq.
    injection Heq as Hji Hd. apply Nat2Z.inj in Hji. subst j.
    repeat split; [lia|exact Hm|congruence].
  - intros (Hi & Hm & ->). exists i. split; [apply in_seq; lia|].
    rewrite Hm. left. reflexivity.
Qed.

Lemma potMoveThreshold_nonneg m : 0 <= potMoveThreshold m.
Proof. destruct m; apply Z.leb_le; reflexivity. Qed.

Lemma emitted_eq inp ui :
  Ui_wf ui ->
  exists sw,
    Forall (fun e => control_type e = CONTROL_SWITCH) sw /\
    emitted inp ui =
      sw ++ pot_events_upto (potMoveThreshold (mode_ ui)) ui (pot inp) 4.
Proof.
  intros Hwf. unfold emitted, Poll.
  destruct (poll_switches_effect inp ui) as (sw & Hq & Hsw & Hv & Hf & Hm).
  destruct (paint_frame (poll_pots inp (poll_switches inp ui))) as (Pq & _ & _).
  rewrite Pq. unfold poll_pots.
  set (u := poll_switches inp ui) in *.
  destruct (poll_pot_loop (potMoveThreshold (mode_ u)) (pot inp) u 4) as (Lq & _);
    [rewrite Hv; apply Hwf|rewrite Hf; apply Hwf|lia|].
  exists sw. split; [exact Hsw|].
  rewrite Lq, Hq, Hm, <- app_assoc, drop_app_length. f_equal.
  unfold pot_events_upto, pot_moved, pot_filter. rewrite Hv, Hf. reflexivity.
Qed.

Lemma Poll_pot_fields inp ui i :
  Ui_wf ui -> (i < 4)%nat ->
  let thr := potMoveThreshold (mode_ ui) in
  at_ (pot_filtered_value_ (Poll inp ui)) i = u16 (pot_filter ui (pot inp) i) /\
  at_ (pot_value_ (Poll inp ui)) i =
    if pot_moved thr ui (pot inp) i then u16 (pot_filter ui (pot inp) i)
    else at_ (pot_value_ ui) i.
Proof.
  intros Hwf Hi thr. unfold Poll.
  destruct (poll_switches_effect inp ui) as (sw & Hq & Hsw & Hv & Hf & Hm).
  destruct (paint_frame (poll_pots inp (poll_switches inp ui))) as (_ & Pv & Pf).
  rewrite Pv, Pf. unfold poll_pots.
  set (u := poll_switches inp ui) in *.
  destruct (poll_pot_loop (potMoveThreshold (mode_ u)) (pot inp) u 4)
    as (_ & _ & _ & Lo & _);
    [rewrite Hv; apply Hwf|rewrite Hf; apply Hwf|lia|].
  destruct (Lo i Hi) as (L1 & L2). rewrite L1, L2. subst thr. rewrite Hm.
  unfold pot_moved, pot_filter. rewrite Hv, Hf. auto.
Qed.

(** C4.  For every call of [Poll] and every pot [i], with [value] the
    filtered reading (31 parts of the previous filtered value, 1 part of
    the new sample, over 32): the event (CONTROL_POT, i, value) is among
    the events this call adds to the queue if and only if [value] lies
    at least the threshold of the mode away from the committed value; no
    pot event for [i] carries another value; the stored filtered value
    is [value]; the committed value becomes [value] when the event is
    emitted and stays otherwise.  The threshold is 256 in Normal, 1024
    in Zoom and 2048 in random waveform selection. *)
Theorem Poll_pot_changed inp ui i :
  Ui_wf ui ->
  (i < 4)%nat ->
  0 <= at_ (pot_filtered_value_ ui) i <= 65535 ->
  let value := pot_filter ui (pot inp) i in
  let current_value := at_ (pot_value_ ui) i in
  let thr := potMoveThreshold (mode_ ui) in
  let ui' := Poll inp ui in
  (In (pot_event i value) (emitted inp ui) <-> Z.abs (value - current_value) >= thr) /\
  (forall d, In (pot_event i d) (emitted inp ui) -> d = value) /\
  at_ (pot_filtered_value_ ui') i = value /\
  (Z.abs (value - current_value) >= thr -> at_ (pot_value_ ui') i = value) /\
  (Z.abs (value - current_value) < thr -> at_ (pot_value_ ui') i = current_value) /\
  value = asr (31 * at_ (pot_filtered_value_ ui) i + u16 (at_ (pot inp) i)) 5 /\
  potMoveThreshold UI_MODE_NORMAL = 256 /\
  potMoveThreshold UI_MODE_ZOOM = 1024 /\
  potMoveThreshold UI_MODE_RANDOM_WAVEFORM_SELECT = 2048.
Proof.
  intros Hwf Hi Hf value current_value thr ui'.
  pose proof (pot_filter_range ui (pot inp) i Hf) as Hr. fold value in Hr.
  pose proof (potMoveThreshold_nonneg (mode_ ui)) as Hthr. fold thr in Hthr.
  pose proof (pot_moved_spec thr ui (pot inp) i Hthr) as Hmv.
  fold value current_value in Hmv.
  destruct (emitted_eq inp ui Hwf) as (sw & Hsw & He). fold thr in He.
  destruct (Poll_pot_fields inp ui i Hwf Hi) as (Ff & Fv).
  fold thr value ui' in Ff, Fv. rewrite (u16_id value Hr) in Ff, Fv.
  assert (Hin : forall d, In (pot_event i d) (emitted inp ui) <->
                          pot_moved thr ui (pot inp) i = true /\ d = value).
  { intros d. rewrite He, in_app_iff, in_pot_events_upto. fold value. split.
    - intros [Hs|(_ & Hm & Hd)]; [|auto].
      rewrite List.Forall_forall in Hsw. apply Hsw in Hs. discriminate Hs.
    - intros (Hm & Hd). right. auto. }
  split. { rewrite Hin, Hmv. tauto. }
  split. { intros d Hd. apply Hin in Hd. tauto. }
  split. { exact Ff. }
  split. { intros Habs. apply Hmv in Habs. rewrite Fv, Habs. reflexivity. }
  split. { intros Habs. rewrite Fv.
           destruct (pot_moved thr ui (pot inp) i); [|reflexivity].
           pose proof (proj1 Hmv eq_refl). lia. }
  repeat split; reflexivity.
Qed.

(** ** The processor *)

Section ProcessFacts.
Context `{Deps}.

Lemma lfo_call_wf i c p : Processor_wf p -> Processor_wf (lfo_call i c p).
Proof. intros Hwf. pr_wf. Qed.

Lemma same_except_refl {A} `{Inhabited A} (l : list A) i : same_except l l i.
Proof. intros j _. reflexivity. Qed.

Lemma same_except_upd {A} `{Inhabited A} (l : list A) i v :
  same_except l (upd l i v) i.
Proof. intros j Hj. apply at_upd_ne. congruence. Qed.

Lemma detect_reset_None inp i p :
  (i < 4)%nat -> Processor_wf p ->
  faults inp p i = true -> detect_reset inp i p = None.
Proof.
  intros Hi Hwf.
  unfold faults, triggers, armed_now, dist_to_next, reset_sample, detect_reset.
  cbv zeta. intros Hf.
  apply andb_true_iff in Hf as [Ht Hz]. apply andb_true_iff in Ht as [Hhigh Harm].
  assert (Hla : length (reset_trigger_armed_ p) = 4%nat) by apply Hwf.
  destruct (s16 (at_ (reset inp) i) <? kResetThresholdLow) eqn:Hlow; pr_fields;
    rewrite Hhigh; rewrite ?at_upd_eq by lia; rewrite ?Harm; cbn [andb];
    pr_fields; rewrite Hz; reflexivity.
Qed.

Lemma detect_reset_Some inp i p :
  (i < 4)%nat -> Processor_wf p ->
  faults inp p i = false ->
  exists p',
    detect_reset inp i p = Some p' /\
    Processor_wf p' /\
    detect_frame p p' /\
    at_ (reset_triggered_ p') i = triggers inp p i /\
    at_ (reset_trigger_armed_ p') i = armed_now inp p i /\
    at_ (previous_reset_ p') i = reset_sample inp i /\
    same_except (reset_triggered_ p) (reset_triggered_ p') i /\
    same_except (reset_trigger_armed_ p) (reset_trigger_armed_ p') i /\
    same_except (previous_reset_ p) (previous_reset_ p') i.
Proof.
  intros Hi Hwf.
  unfold faults, triggers, armed_now, dist_to_next, reset_sample, detect_reset.
  cbv zeta. intros Hf.
  assert (Hla : length (reset_trigger_armed_ p) = 4%nat) by apply Hwf.
  assert (Hlt : length (reset_triggered_ p) = 4%nat) by apply Hwf.
  assert (Hlp : length (previous_reset_ p) = 4%nat) by apply Hwf.
  destruct (s16 (at_ (reset inp) i) <? kResetThresholdLow) eqn:Hlow; pr_fields;
    rewrite ?at_upd_eq by lia;
    destruct (s16 (at_ (reset inp) i) >? kResetThresholdHigh) eqn:Hhigh;
    cbn [andb] in *;
    try (destruct (at_ (reset_trigger_armed_ p) i) eqn:Harm; cbn [andb] in * );
    pr_fields; rewrite ?Hf; cbn [mbind option_bind];
    (eexists; split; [reflexivity|]); pr_fields;
    (split; [pr_wf|]); (split; [unfold detect_frame; pr_fields; tauto|]);
    rewrite ?at_upd_eq by lia;
    repeat split;
    auto using same_except_refl, same_except_upd.
Qed.

Lemma for_opt_S {S : Type} n (body : nat -> S -> option S) s :
  for_opt (Datatypes.S n) body s = for_opt n body s ≫= body n.
Proof. unfold for_opt. rewrite seq_S, fold_left_app. reflexivity. Qed.

Lemma read_channel_Some ui inp i p :
  (i < 4)%nat -> Processor_wf p ->
  faults inp p i = false ->
  exists p',
    read_channel ui inp i p = Some p' /\
    Processor_wf p' /\
    previous_feat_mode_ p' = previous_feat_mode_ p /\
    waveform_offset_ p' = waveform_offset_ p /\
    channel_read inp p p' i /\
    forall j, j <> i -> channel_untouched p p' j.
Proof.
  intros Hi Hwf Hf. unfold read_channel. cbv zeta.
  match goal with
  | |- context [detect_reset inp i ?q] =>
      destruct (detect_reset_Some inp i q Hi) as (p' & E & Hwf' & Hfr & Ht & Ha & Hp & St & Sa & Sp)
  end.
  - destruct (negb _); pr_wf.
  - destruct (negb _); exact Hf.
  - exists p'. split; [exact E|]. split; [exact Hwf'|].
    destruct Hfr as (_ & _ & _ & _ & _ & Hpf & Hwo & _).
    split. { rewrite Hpf. destruct (negb _); reflexivity. }
    split. { rewrite Hwo. destruct (negb _); reflexivity. }
    split.
    + unfold channel_read. rewrite Ht, Ha, Hp.
      destruct (negb _); auto.
    + intros j Hj. unfold channel_untouched.
      rewrite (St j Hj), (Sa j Hj), (Sp j Hj).
      destruct (negb _); auto.
Qed.

Lemma read_loop ui inp p k :
  (k <= 4)%nat -> Processor_wf p ->
  (forall i, (i < k)%nat -> faults inp p i = false) ->
  exists p',
    for_opt k (read_channel ui inp) p = Some p' /\
    Processor_wf p' /\
    previous_feat_mode_ p' = previous_feat_mode_ p /\
    waveform_offset_ p' = waveform_offset_ p /\
    (forall i, (i < k)%nat -> channel_read inp p p' i) /\
    (forall i, (k <= i)%nat -> channel_untouched p p' i).
Proof.
  intros Hk Hwf. induction k as [|k IH]; intros Hf.
  - exists p. split; [reflexivity|]. split; [exact Hwf|].
    split; [reflexivity|]. split; [reflexivity|].
    split; [intros i Hi; lia|]. intros i _. unfold channel_untouched. auto.
  - destruct IH as (pk & E & Hwfk & Hpf & Hwo & Hlo & Hhi);
      [lia|intros; apply Hf; lia|].
    destruct (Hhi k (Nat.le_refl k)) as (Ut & Ua & Up).
    assert (Hfk : faults inp pk k = false).
    { rewrite <- (Hf k) by lia.
      unfold faults, triggers, armed_now, dist_to_next. rewrite Ua, Up. reflexivity. }
    destruct (read_channel_Some ui inp k pk ltac:(lia) Hwfk Hfk)
      as (p' & E' & Hwf' & Hpf' & Hwo' & Hr & Hu).
    exists p'. rewrite for_opt_S, E. cbn [mbind option_bind].
    split; [exact E'|]. split; [exact Hwf'|].
    split; [congruence|]. split; [congruence|].
    split.
    + intros i Hi. destruct (decide (i = k)) as [->|Hne].
      * destruct Hr as (R1 & R2 & R3). unfold channel_read.
        rewrite R1, R2, R3. unfold triggers, armed_now. rewrite Ua. auto.
      * destruct (Hu i Hne) as (U1 & U2 & U3).
        destruct (Hlo i ltac:(lia)) as (L1 & L2 & L3).
        unfold channel_read. rewrite U1, U2, U3. auto.
    + intros i Hi. destruct (Hu i ltac:(lia)) as (U1 & U2 & U3).
      destruct (Hhi i ltac:(lia)) as (L1 & L2 & L3).
      unfold channel_untouched. rewrite U1, U2, U3. auto.
Qed.

Lemma at_lfo_call_eq i c p :
  (i < length (lfo_ p))%nat -> at_ (lfo_ (lfo_call i c p)) i = c :: at_ (lfo_ p) i.
Proof. intros Hi. pr_fields. apply at_upd_eq. exact Hi. Qed.

Lemma mode_frame_trans p q r : mode_frame p q -> mode_frame q r -> mode_frame p r.
Proof. unfold mode_frame. intuition congruence. Qed.

Lemma SetFrequency_effect ui inp n p :
  Processor_wf p ->
  let p' := SetFrequency ui inp n p in
  Processor_wf p' /\
  mode_frame p p' /\
  waveform_offset_ p' = waveform_offset_ p /\
  same_except (lfo_ p) (lfo_ p') n /\
  same_except (reset_trigger_armed_ p) (reset_trigger_armed_ p') n /\
  ((n < 4)%nat ->
   at_ (reset_trigger_armed_ p') n =
     if at_ (reset_triggered_ p) n then false else at_ (reset_trigger_armed_ p) n).
Proof.
  intros Hwf p'. subst p'. unfold SetFrequency. cbv zeta.
  assert (Hla : length (reset_trigger_armed_ p) = 4%nat) by apply Hwf.
  split_ifs; pr_fields;
    (split; [pr_wf|]); (split; [unfold mode_frame; pr_fields; auto|]);
    (split; [reflexivity|]);
    (split; [intros j Hj; rewrite ?at_upd_ne by congruence; reflexivity|]);
    (split; [intros j Hj; rewrite ?at_upd_ne by congruence; reflexivity|]);
    intros Hn; pr_fields_all; try congruence;
    repeat match goal with
    | E : at_ (reset_triggered_ p) n = _ |- _ => rewrite E; clear E
    end;
    try reflexivity; apply at_upd_eq; lia.
Qed.

Lemma master_controls_effect p :
  Processor_wf p ->
  let p' := master_controls p in
  Processor_wf p' /\
  mode_frame p p' /\
  same_except (lfo_ p) (lfo_ p') 0 /\
  waveform_offset_ p' =
    (if at_ (reset_triggered_ p) 3
     then wrap_waveform_offset (waveform_offset_ p + 1) else waveform_offset_ p) /\
  reset_trigger_armed_ p' =
    (if at_ (reset_triggered_ p) 3
     then upd (reset_trigger_armed_ p) 3 false else reset_trigger_armed_ p).
Proof.
  intros Hwf p'. subst p'. unfold master_controls. cbv zeta. pr_fields.
  destruct (at_ (reset_triggered_ p) 3); pr_fields;
    (split; [pr_wf|]); (split; [unfold mode_frame; pr_fields; auto|]);
    (split; [intros j Hj; rewrite ?at_upd_ne by congruence; reflexivity|]);
    auto.
Qed.

Lemma for_linked_unroll body p :
  for_linked body p = body 3%nat (body 2%nat (body 1%nat p)).
Proof. reflexivity. Qed.

Lemma output_stage_unroll ui shapes p :
  output_stage ui shapes p =
    output_channel ui shapes 0
      (output_channel ui shapes 1
        (output_channel ui shapes 2
          (output_channel ui shapes 3
             (p, {| sample1 := 0; sample2 := 0; gain := 0 |})))).
Proof. reflexivity. Qed.

Lemma output_channel_fst ui shapes i st :
  exists w,
    fst (output_channel ui shapes i st) =
      set_dac (upd (dac_ (fst st)) i w) (lfo_call i call_Step (fst st)).
Proof. destruct st as [p m]. unfold output_channel. cbn. eexists. reflexivity. Qed.

Lemma output_stage_effect ui shapes p :
  Processor_wf p ->
  let p' := fst (output_stage ui shapes p) in
  Processor_wf p' /\
  mode_frame p p' /\
  waveform_offset_ p' = waveform_offset_ p /\
  reset_trigger_armed_ p' = reset_trigger_armed_ p /\
  forall i, (i < 4)%nat -> at_ (lfo_ p') i = call_Step :: at_ (lfo_ p) i.
Proof.
  intros Hwf p'. subst p'. rewrite output_stage_unroll.
  repeat match goal with
  | |- context [fst (output_channel ui shapes ?i ?st)] =>
      let w := fresh "w" in let E := fresh "E" in
      destruct (output_channel_fst ui shapes i st) as (w & E);
      rewrite E; clear E;
      generalize dependent (snd (output_channel ui shapes i st)); intros
  end.
  cbn [fst].
  assert (Hl : length (lfo_ p) = 4%nat) by apply Hwf.
  split; [pr_wf|]. split; [unfold mode_frame; pr_fields; auto|].
  split; [reflexivity|]. split; [reflexivity|].
  intros i Hi. pr_fields.
  destruct i as [|[|[|[|?]]]]; try lia;
    destruct (lfo_ p) as [|? [|? [|? [|? [|? ?]]]]]; try discriminate Hl; reflexivity.
Qed.

Lemma mode_changed_effect ui p :
  Processor_wf p ->
  let p' := mode_changed ui p in
  Processor_wf p' /\
  previous_feat_mode_ p' = feat_mode_ ui /\
  waveform_offset_ p' =
    (if bool_decide (feat_mode_ ui = previous_feat_mode_ p)
     then waveform_offset_ p else 0) /\
  reset_trigger_armed_ p' = reset_trigger_armed_ p /\
  previous_reset_ p' = previous_reset_ p.
Proof.
  intros Hwf p'. subst p'. unfold mode_changed.
  destruct (bool_decide_reflect (feat_mode_ ui = previous_feat_mode_ p)) as [E|E];
    cbn [negb].
  - auto.
  - cbv zeta. change (for_ kNumChannels ?b p) with (b 3%nat (b 2%nat (b 1%nat (b 0%nat p)))).
    cbv beta. pr_fields. split; [pr_wf|]. auto.
Qed.

(** The state in which the trigger detection leaves the processor, and
    the result of the tick, when no channel divides by zero. *)
Lemma Process_runs ui inp p :
  Processor_wf p ->
  mode_ ui <> UI_MODE_SPLASH ->
  (forall i, (i < 4)%nat -> faults inp p i = false) ->
  exists p1,
    Processor_wf p1 /\
    previous_feat_mode_ p1 = feat_mode_ ui /\
    waveform_offset_ p1 =
      (if bool_decide (feat_mode_ ui = previous_feat_mode_ p)
       then waveform_offset_ p else 0) /\
    (forall i, (i < 4)%nat -> channel_read inp p p1 i) /\
    Process ui inp p =
      Some (fst (output_stage ui
                   (map (channel_shape ui inp (mode_switch ui inp p1)) (seq 0 4))
                   (mode_switch ui inp p1))).
Proof.
  intros Hwf Hm Hf. unfold Process.
  rewrite (bool_decide_eq_false_2 (mode_ ui = UI_MODE_SPLASH) Hm). cbv zeta.
  destruct (mode_changed_effect ui p Hwf) as (Hwf0 & Hpf0 & Hwo0 & Ha0 & Hp0).
  set (p0 := mode_changed ui p) in *.
  assert (Hf0 : forall i, (i < 4)%nat -> faults inp p0 i = false).
  { intros i Hi. rewrite <- (Hf i Hi).
    unfold faults, triggers, armed_now, dist_to_next. rewrite Ha0, Hp0. reflexivity. }
  destruct (read_loop ui inp p0 4 ltac:(lia) Hwf0 Hf0)
    as (p1 & E & Hwf1 & Hpf1 & Hwo1 & Hr & _).
  exists p1. split; [exact Hwf1|]. split; [congruence|]. split; [congruence|].
  split.
  - intros i Hi. destruct (Hr i Hi) as (R1 & R2 & R3).
    unfold channel_read. rewrite R1, R2, R3.
    unfold triggers, armed_now. rewrite Ha0. auto.
  - change kNumChannels with 4%nat. rewrite E. reflexivity.
Qed.

Lemma mode_quad_effect ui inp p :
  Processor_wf p ->
  let p' := mode_quad ui inp p in
  Processor_wf p' /\
  mode_frame p p' /\
  waveform_offset_ p' =
    (if at_ (reset_triggered_ p) 3
     then wrap_waveform_offset (waveform_offset_ p + 1) else waveform_offset_ p) /\
  at_ (reset_trigger_armed_ p') 3 =
    (if at_ (reset_triggered_ p) 3 then false else at_ (reset_trigger_armed_ p) 3).
Proof.
  intros Hwf p'. subst p'. unfold mode_quad. cbv zeta.
  destruct (SetFrequency_effect ui inp 0 p Hwf) as (Hwf1 & Hfr1 & Hwo1 & _ & Ha1 & _).
  set (p1 := SetFrequency ui inp 0 p) in *.
  pose proof (lfo_call_wf 0 (call_set_initial_phase (phase ui 0)) p1 Hwf1) as Hwf2.
  set (p2 := lfo_call 0 (call_set_initial_phase (phase ui 0)) p1) in *.
  destruct (master_controls_effect p2 Hwf2) as (Hwf3 & Hfr3 & _ & Hwo3 & Ha3).
  set (p3 := master_controls p2) in *.
  rewrite for_linked_unroll. cbv beta. pr_fields.
  assert (Ht : reset_triggered_ p2 = reset_triggered_ p) by apply Hfr1.
  assert (Hla : length (reset_trigger_armed_ p1) = 4%nat) by apply Hwf1.
  split; [pr_wf|].
  split. { destruct Hfr1 as (A1 & A2 & A3), Hfr3 as (B1 & B2 & B3).
           unfold mode_frame. subst p2. pr_fields_all.
           repeat split; congruence. }
  split. { rewrite Hwo3, Ht. subst p2. pr_fields. rewrite Hwo1. reflexivity. }
  rewrite Ha3, Ht. subst p2. pr_fields.
  destruct (at_ (reset_triggered_ p) 3).
  - apply at_upd_eq. lia.
  - apply Ha1. discriminate.
Qed.

Lemma free_channel_effect ui inp i p :
  Processor_wf p -> (i < 4)%nat ->
  let p' := lfo_call i (call_set_initial_phase (phase ui i)) (SetFrequency ui inp i p) in
  Processor_wf p' /\
  mode_frame p p' /\
  same_except (reset_trigger_armed_ p) (reset_trigger_armed_ p') i /\
  at_ (reset_trigger_armed_ p') i =
    if at_ (reset_triggered_ p) i then false else at_ (reset_trigger_armed_ p) i.
Proof.
  intros Hwf Hi p'. subst p'.
  destruct (SetFrequency_effect ui inp i p Hwf) as (Hwf1 & Hfr & _ & _ & Hs & Ha).
  split; [apply lfo_call_wf; exact Hwf1|]. pr_fields. auto.
Qed.

Lemma mode_free_effect ui inp p :
  Processor_wf p ->
  let p' := mode_free ui inp p in
  Processor_wf p' /\
  mode_frame p p' /\
  forall i, (i < 4)%nat ->
    at_ (reset_trigger_armed_ p') i =
      if at_ (reset_triggered_ p) i then false else at_ (reset_trigger_armed_ p) i.
Proof.
  intros Hwf p'. subst p'. unfold mode_free.
  change (for_ kNumChannels ?b p) with (b 3%nat (b 2%nat (b 1%nat (b 0%nat p)))).
  cbv beta zeta.
  destruct (free_channel_effect ui inp 0 p Hwf ltac:(lia)) as (W0 & F0 & S0 & A0).
  set (q0 := lfo_call 0 _ (SetFrequency ui inp 0 p)) in *.
  destruct (free_channel_effect ui inp 1 q0 W0 ltac:(lia)) as (W1 & F1 & S1 & A1).
  set (q1 := lfo_call 1 _ (SetFrequency ui inp 1 q0)) in *.
  destruct (free_channel_effect ui inp 2 q1 W1 ltac:(lia)) as (W2 & F2 & S2 & A2).
  set (q2 := lfo_call 2 _ (SetFrequency ui inp 2 q1)) in *.
  destruct (free_channel_effect ui inp 3 q2 W2 ltac:(lia)) as (W3 & F3 & S3 & A3).
  set (q3 := lfo_call 3 _ (SetFrequency ui inp 3 q2)) in *.
  split; [exact W3|].
  split; [eauto using mode_frame_trans|].
  assert (T0 : reset_triggered_ q0 = reset_triggered_ p) by apply F0.
  assert (T1 : reset_triggered_ q1 = reset_triggered_ q0) by apply F1.
  assert (T2 : reset_triggered_ q2 = reset_triggered_ q1) by apply F2.
  intros i Hi. destruct i as [|[|[|[|?]]]]; try lia.
  - rewrite (S3 0%nat), (S2 0%nat), (S1 0%nat) by lia. exact A0.
  - rewrite (S3 1%nat), (S2 1%nat) by lia. rewrite A1, T0, (S0 1%nat) by lia.
    reflexivity.
  - rewrite (S3 2%nat) by lia. rewrite A2, T1, T0, (S1 2%nat), (S0 2%nat) by lia.
    reflexivity.
  - rewrite A3, T2, T1, T0, (S2 3%nat), (S1 3%nat), (S0 3%nat) by lia.
    reflexivity.
Qed.

Lemma mode_phase_quadrature ui inp p :
  Processor_wf p ->
  coarse ui 1 > UINT16_MAX - 256 ->
  coarse ui 2 > UINT16_MAX - 256 ->
  coarse ui 3 > UINT16_MAX - 256 ->
  let p' := mode_phase ui inp p in
  Processor_wf p' /\
  forall i, (1 <= i < 4)%nat ->
    at_ (lfo_ p') i =
      call_set_initial_phase ((4 - Z.of_nat i) * 16383) :: call_link_to 0 ::
      at_ (lfo_ p) i.
Proof.
  intros Hwf H1 H2 H3 p'. subst p'. unfold mode_phase. cbv zeta.
  destruct (SetFrequency_effect ui inp 0 p Hwf) as (Hwf1 & _ & _ & Hl1 & _).
  set (p1 := SetFrequency ui inp 0 p) in *.
  destruct (master_controls_effect p1 Hwf1) as (Hwf2 & _ & Hl2 & _).
  set (p2 := master_controls p1) in *.
  destruct (Z.gtb_spec (coarse ui 1) (UINT16_MAX - 256)); [|lia].
  destruct (Z.gtb_spec (coarse ui 2) (UINT16_MAX - 256)); [|lia].
  destruct (Z.gtb_spec (coarse ui 3) (UINT16_MAX - 256)); [|lia].
  cbn [andb]. rewrite for_linked_unroll. cbv beta zeta.
  assert (Hl : length (lfo_ p2) = 4%nat) by apply Hwf2.
  split; [pr_wf|].
  intros i Hi.
  assert (Hs : at_ (lfo_ p2) i = at_ (lfo_ p) i).
  { rewrite Hl2 by lia. apply Hl1. lia. }
  rewrite <- Hs. pr_fields.
  destruct (lfo_ p2) as [|? [|? [|? [|? [|? ?]]]]]; try discriminate Hl.
  destruct i as [|[|[|[|?]]]]; try lia; reflexivity.
Qed.

Lemma for_opt_None {S : Type} (body : nat -> S -> option S) s k n :
  (k <= n)%nat -> for_opt k body s = None -> for_opt n body s = None.
Proof.
  intros Hkn Hk. induction n as [|n IH].
  - replace k with 0%nat in Hk by lia. exact Hk.
  - destruct (decide (k = Datatypes.S n)) as [->|Hne]; [exact Hk|].
    rewrite for_opt_S, IH by lia. reflexivity.
Qed.

Lemma read_channel_None ui inp i p :
  (i < 4)%nat -> Processor_wf p ->
  faults inp p i = true -> read_channel ui inp i p = None.
Proof.
  intros Hi Hwf Hf. unfold read_channel. cbv zeta.
  apply detect_reset_None; [exact Hi| |].
  - destruct (negb _); pr_wf.
  - destruct (negb _); exact Hf.
Qed.

Lemma read_loop_None ui inp p i :
  (i < 4)%nat -> Processor_wf p ->
  (forall j, (j < i)%nat -> faults inp p j = false) ->
  faults inp p i = true ->
  for_opt 4 (read_channel ui inp) p = None.
Proof.
  intros Hi Hwf Hlo Hf.
  apply (for_opt_None _ _ (Datatypes.S i)); [lia|].
  destruct (read_loop ui inp p i ltac:(lia) Hwf Hlo)
    as (pi & E & Hwfi & _ & _ & _ & Hhi).
  rewrite for_opt_S, E. cbn [mbind option_bind].
  apply read_channel_None; [exact Hi|exact Hwfi|].
  destruct (Hhi i (Nat.le_refl i)) as (_ & Ua & Up).
  rewrite <- Hf. unfold faults, triggers, armed_now, dist_to_next.
  rewrite Ua, Up. reflexivity.
Qed.

(** A tick fails exactly when some channel divides by zero. *)
Lemma Process_None ui inp p i :
  Processor_wf p ->
  mode_ ui <> UI_MODE_SPLASH ->
  (i < 4)%nat -> faults inp p i = true ->
  Process ui inp p = None.
Proof.
  intros Hwf Hm Hi Hf. unfold Process.
  rewrite (bool_decide_eq_false_2 (mode_ ui = UI_MODE_SPLASH) Hm). cbv zeta.
  destruct (mode_changed_effect ui p Hwf) as (Hwf0 & _ & _ & Ha0 & Hp0).
  set (p0 := mode_changed ui p) in *.
  assert (Hsame : forall j, faults inp p0 j = faults inp p j).
  { intros j. unfold faults, triggers, armed_now, dist_to_next.
    rewrite Ha0, Hp0. reflexivity. }
  assert (Hnone : for_opt 4 (read_channel ui inp) p0 = None).
  { destruct (faults inp p0 0) eqn:F0.
    { apply (read_loop_None ui inp p0 0); auto; intros; lia. }
    destruct (faults inp p0 1) eqn:F1.
    { apply (read_loop_None ui inp p0 1); auto.
      intros j Hj. replace j with 0%nat by lia. exact F0. }
    destruct (faults inp p0 2) eqn:F2.
    { apply (read_loop_None ui inp p0 2); auto.
      intros j Hj. destruct j as [|[|?]]; auto; lia. }
    destruct (faults inp p0 3) eqn:F3.
    { apply (read_loop_None ui inp p0 3); auto.
      intros j Hj. destruct j as [|[|[|?]]]; auto; lia. }
    rewrite <- Hsame in Hf.
    destruct i as [|[|[|[|?]]]]; try lia; congruence. }
  change kNumChannels with 4%nat. rewrite Hnone. reflexivity.
Qed.

Lemma Process_Some_no_fault ui inp p p' :
  Processor_wf p -> mode_ ui <> UI_MODE_SPLASH ->
  Process ui inp p = Some p' ->
  forall i, (i < 4)%nat -> faults inp p i = false.
Proof.
  intros Hwf Hm E i Hi. destruct (faults inp p i) eqn:F; [|reflexivity].
  rewrite (Process_None ui inp p i Hwf Hm Hi F) in E. discriminate E.
Qed.

(** C2, amended.  In Phase feature mode, on a tick that runs (the
    interface is not in Splash and no channel divides by zero), when the
    coarse values of channels 1, 2 and 3 all exceed 65535 - 256, each
    channel i of 1, 2, 3 is linked to channel 0 and its initial phase is
    set to (4 - i) * 16383, that is (4 - i) * (65535 >> 2): its last calls
    are [link_to], [set_initial_phase] and the [Step] of the output
    loop. *)
Theorem phase_mode_quadrature ui inp p :
  Processor_wf p ->
  mode_ ui <> UI_MODE_SPLASH ->
  feat_mode_ ui = FEAT_MODE_PHASE ->
  coarse ui 1 > UINT16_MAX - 256 ->
  coarse ui 2 > UINT16_MAX - 256 ->
  coarse ui 3 > UINT16_MAX - 256 ->
  (forall i, (i < 4)%nat -> faults inp p i = false) ->
  exists p',
    Process ui inp p = Some p' /\
    forall i, (1 <= i < 4)%nat ->
      linked_to (at_ (lfo_ p') i) = Some 0%nat /\
      initial_phase_of (at_ (lfo_ p') i) = Some ((4 - Z.of_nat i) * 16383) /\
      exists older,
        at_ (lfo_ p') i =
          call_Step :: call_set_initial_phase ((4 - Z.of_nat i) * 16383)
            :: call_link_to 0 :: older.
Proof.
  intros Hwf Hm Hfeat H1 H2 H3 Hf.
  destruct (Process_runs ui inp p Hwf Hm Hf) as (p1 & Hwf1 & _ & _ & _ & E).
  eexists. split; [exact E|].
  unfold mode_switch. rewrite Hfeat.
  destruct (mode_phase_quadrature ui inp p1 Hwf1 H1 H2 H3) as (Hwf2 & Hl).
  set (p2 := mode_phase ui inp p1) in *.
  destruct (output_stage_effect ui (map (channel_shape ui inp p2) (seq 0 4)) p2 Hwf2)
    as (_ & _ & _ & _ & Hs).
  intros i Hi. rewrite Hs by lia. rewrite Hl by exact Hi.
  split; [reflexivity|]. split; [reflexivity|]. eexists. reflexivity.
Qed.

Lemma quad_tick ui inp p :
  Processor_wf p ->
  mode_ ui <> UI_MODE_SPLASH ->
  feat_mode_ ui = FEAT_MODE_QUAD ->
  (forall i, (i < 4)%nat -> faults inp p i = false) ->
  exists p',
    Process ui inp p = Some p' /\
    Processor_wf p' /\
    previous_feat_mode_ p' = FEAT_MODE_QUAD /\
    waveform_offset_ p' =
      (if triggers inp p 3
       then wrap_waveform_offset (offset_at_start ui p + 1)
       else offset_at_start ui p) /\
    at_ (reset_trigger_armed_ p') 3 =
      (if triggers inp p 3 then false else armed_now inp p 3).
Proof.
  intros Hwf Hm Hfeat Hf.
  destruct (Process_runs ui inp p Hwf Hm Hf) as (p1 & Hwf1 & Hpf1 & Hwo1 & Hr & E).
  eexists. split; [exact E|].
  unfold mode_switch. rewrite Hfeat.
  destruct (mode_quad_effect ui inp p1 Hwf1) as (Hwf2 & Hfr2 & Hwo2 & Ha2).
  set (p2 := mode_quad ui inp p1) in *.
  destruct (output_stage_effect ui (map (channel_shape ui inp p2) (seq 0 4)) p2 Hwf2)
    as (Hwf3 & Hfr3 & Hwo3 & Ha3 & _).
  destruct (Hr 3%nat ltac:(lia)) as (R1 & R2 & _).
  split; [exact Hwf3|].
  split. { destruct Hfr3 as (-> & _), Hfr2 as (-> & _). congruence. }
  split. { rewrite Hwo3, Hwo2, R1, Hwo1. reflexivity. }
  rewrite Ha3, Ha2, R1, R2. reflexivity.
Qed.

Lemma Process_splash ui inp p :
  mode_ ui = UI_MODE_SPLASH -> Process ui inp p = Some p.
Proof. intros Hm. unfold Process. rewrite Hm. reflexivity. Qed.

Lemma quad_run_idle ticks : forall p p',
  Processor_wf p ->
  previous_feat_mode_ p = FEAT_MODE_QUAD ->
  at_ (reset_trigger_armed_ p) 3 = false ->
  quad_reset3_high ticks ->
  run ticks p = Some p' ->
  waveform_offset_ p' = waveform_offset_ p /\
  at_ (reset_trigger_armed_ p') 3 = false.
Proof.
  induction ticks as [|[ui inp] ticks IH]; intros p p' Hwf Hpf Ha Hq Hrun.
  - cbn in Hrun. injection Hrun as <-. auto.
  - inversion Hq as [|? ? [Hfeat Hhigh] Hrest]; subst. cbn [fst snd] in *.
    cbn [run] in Hrun.
    destruct (decide (mode_ ui = UI_MODE_SPLASH)) as [Hs|Hs].
    + rewrite (Process_splash ui inp p Hs) in Hrun. cbn [mbind option_bind] in Hrun.
      apply (IH p p'); assumption.
    + destruct (Process ui inp p) as [p1|] eqn:E; [|discriminate Hrun].
      cbn [mbind option_bind] in Hrun.
      pose proof (Process_Some_no_fault ui inp p p1 Hwf Hs E) as Hf.
      destruct (quad_tick ui inp p Hwf Hs Hfeat Hf) as (q & Eq & Hwfq & Hpfq & Hwoq & Haq).
      rewrite E in Eq. injection Eq as <-.
      assert (Harm : armed_now inp p 3 = false).
      { unfold armed_now. rewrite Ha.
        destruct (Z.ltb_spec (reset_sample inp 3) kResetThresholdLow); [lia|reflexivity]. }
      assert (Htr : triggers inp p 3 = false).
      { unfold triggers. rewrite Harm. apply andb_false_r. }
      rewrite Htr in Hwoq, Haq.
      assert (Hoff : offset_at_start ui p = waveform_offset_ p).
      { unfold offset_at_start. rewrite Hfeat, Hpf.
        rewrite bool_decide_eq_true_2 by reflexivity. reflexivity. }
      destruct (IH p1 p' Hwfq Hpfq ltac:(congruence) Hrest Hrun) as (I1 & I2).
      split; [congruence|exact I2].
Qed.

(** C7.  First part: in Quad feature mode, on a tick that runs, a
    trigger on channel 3 moves the waveform offset one step up from the
    value the tick starts from (within the width of the counter; exactly
    plus 1 when the processor was already in quad mode and the counter
    does not wrap) and clears the arm flag of channel 3.  Second part:
    from a state with channel 3 disarmed, over any run of quad ticks on
    which the reset input of channel 3 is never below the low threshold,
    the waveform offset stays as it is and channel 3 stays disarmed. *)
Theorem quad_reset4_changes_waveform_once :
  (forall ui inp p,
     Processor_wf p ->
     mode_ ui <> UI_MODE_SPLASH ->
     feat_mode_ ui = FEAT_MODE_QUAD ->
     (forall i, (i < 4)%nat -> faults inp p i = false) ->
     triggers inp p 3 = true ->
     exists p',
       Process ui inp p = Some p' /\
       Processor_wf p' /\
       previous_feat_mode_ p' = FEAT_MODE_QUAD /\
       waveform_offset_ p' = (offset_at_start ui p + 1) mod 2 ^ waveform_offset_bits /\
       (previous_feat_mode_ p = FEAT_MODE_QUAD ->
        0 <= waveform_offset_ p + 1 < 2 ^ waveform_offset_bits ->
        waveform_offset_ p' = waveform_offset_ p + 1) /\
       at_ (reset_trigger_armed_ p') 3 = false) /\
  (forall ticks p p',
     Processor_wf p ->
     previous_feat_mode_ p = FEAT_MODE_QUAD ->
     at_ (reset_trigger_armed_ p) 3 = false ->
     quad_reset3_high ticks ->
     run ticks p = Some p' ->
     waveform_offset_ p' = waveform_offset_ p /\
     at_ (reset_trigger_armed_ p') 3 = false).
Proof.
  split.
  - intros ui inp p Hwf Hm Hfeat Hf Htr.
    destruct (quad_tick ui inp p Hwf Hm Hfeat Hf) as (p' & E & Hwf' & Hpf & Hwo & Ha).
    rewrite Htr in Hwo, Ha. exists p'.
    split; [exact E|]. split; [exact Hwf'|]. split; [exact Hpf|].
    split; [exact Hwo|]. split; [|exact Ha].
    intros Hprev Hrange. rewrite Hwo. unfold offset_at_start, wrap_waveform_offset.
    rewrite Hfeat, Hprev, bool_decide_eq_true_2 by reflexivity.
    apply Z.mod_small. exact Hrange.
  - intros ticks p p'. apply quad_run_idle.
Qed.

Lemma triggers_divisor inp p i :
  reset_inv p -> (i < 4)%nat ->
  triggers inp p i = true -> dist_to_next inp p i > 0.
Proof.
  intros Hinv Hi Ht. unfold triggers, armed_now in Ht.
  apply andb_true_iff in Ht as [Hhigh Harm].
  apply Z.gtb_lt in Hhigh. unfold kResetThresholdHigh, kResetThresholdLow in *.
  destruct (Z.ltb_spec (reset_sample inp i) 10000); [lia|].
  pose proof (Hinv i Hi Harm) as Hp. unfold kResetThresholdHigh in Hp.
  unfold dist_to_next. lia.
Qed.

(** In free mode every channel is disarmed when its trigger fires, the
    invariant holds from tick to tick and no tick divides by zero. *)
Lemma free_mode_divisor_nonzero ui inp p :
  Processor_wf p ->
  reset_inv p ->
  mode_ ui <> UI_MODE_SPLASH ->
  feat_mode_ ui = FEAT_MODE_FREE ->
  (forall i, (i < 4)%nat -> triggers inp p i = true -> dist_to_next inp p i <> 0) /\
  exists p', Process ui inp p = Some p' /\ Processor_wf p' /\ reset_inv p'.
Proof.
  intros Hwf Hinv Hm Hfeat.
  assert (Hdiv : forall i, (i < 4)%nat -> triggers inp p i = true ->
                           dist_to_next inp p i <> 0).
  { intros i Hi Ht. pose proof (triggers_divisor inp p i Hinv Hi Ht). lia. }
  split; [exact Hdiv|].
  assert (Hf : forall i, (i < 4)%nat -> faults inp p i = false).
  { intros i Hi. unfold faults. destruct (triggers inp p i) eqn:Ht; [|reflexivity].
    cbn [andb]. apply Z.eqb_neq. apply Hdiv; assumption. }
  destruct (Process_runs ui inp p Hwf Hm Hf) as (p1 & Hwf1 & _ & _ & Hr & E).
  eexists. split; [exact E|].
  unfold mode_switch. rewrite Hfeat.
  destruct (mode_free_effect ui inp p1 Hwf1) as (Hwf2 & Hfr2 & Ha2).
  set (p2 := mode_free ui inp p1) in *.
  destruct (output_stage_effect ui (map (channel_shape ui inp p2) (seq 0 4)) p2 Hwf2)
    as (Hwf3 & Hfr3 & _ & Ha3 & _).
  split; [exact Hwf3|].
  intros i Hi Harm. rewrite Ha3, (Ha2 i Hi) in Harm.
  destruct (Hr i Hi) as (R1 & R2 & R3). rewrite R1, R2 in Harm.
  destruct Hfr3 as (_ & _ & ->), Hfr2 as (_ & _ & ->). rewrite R3.
  destruct (triggers inp p i) eqn:Ht; [discriminate Harm|].
  unfold triggers in Ht. rewrite Harm, andb_true_r in Ht.
  destruct (Z.gtb_spec (reset_sample inp i) kResetThresholdHigh); [discriminate|lia].
Qed.

(** A channel that is still armed and whose reset input stays where it
    was, above the high threshold, makes the tick divide by zero. *)
Lemma held_high_divides_by_zero ui inp p i :
  Processor_wf p ->
  mode_ ui <> UI_MODE_SPLASH ->
  (i < 4)%nat ->
  at_ (reset_trigger_armed_ p) i = true ->
  reset_sample inp i > kResetThresholdHigh ->
  at_ (previous_reset_ p) i = reset_sample inp i ->
  Process ui inp p = None.
Proof.
  intros Hwf Hm Hi Ha Hhigh Hprev.
  apply (Process_None ui inp p i Hwf Hm Hi).
  unfold faults, triggers, armed_now, dist_to_next. rewrite Ha, Hprev.
  destruct (Z.gtb_spec (reset_sample inp i) kResetThresholdHigh); [|lia].
  destruct (_ <? _); cbn [andb]; apply Z.eqb_eq; lia.
Qed.

Lemma quad_denominator_max g : quad_denominator g = Z.max g UINT16_MAX.
Proof.
  unfold quad_denominator. destruct (Z.ltb_spec g UINT16_MAX); lia.
Qed.

Lemma output_channel_quad ui shapes i p m :
  feat_mode_ ui = FEAT_MODE_QUAD ->
  (i < length (lfo_ p))%nat ->
  output_channel ui shapes i (p, m) =
    (set_dac (upd (dac_ p) i (quad_write (mix_add m (stepped p i) (at_ shapes i))))
             (lfo_call i call_Step p),
     mix_add m (stepped p i) (at_ shapes i)).
Proof.
  intros Hq Hi. unfold output_channel.
  rewrite (bool_decide_eq_true_2 (feat_mode_ ui = FEAT_MODE_QUAD) Hq).
  cbn [negb]. rewrite (at_lfo_call_eq i call_Step p Hi). reflexivity.
Qed.

(** C9.  In quad mode the pair of samples written for channel [i] is
    each accumulated sum, shifted left by 13, divided by [g] and shifted
    left by 3, where [g] is the accumulated gain of the channels from the
    last down to [i] with 65535 as its floor.  [g] is at least 65535,
    hence not zero, and is 65535 when every channel has gain zero. *)
Theorem quad_normalization_denominator ui shapes p :
  Processor_wf p ->
  feat_mode_ ui = FEAT_MODE_QUAD ->
  let p' := fst (output_stage ui shapes p) in
  forall i, (i < 4)%nat ->
    let g := quad_denominator (gain_from p i) in
    at_ (dac_ p') i =
      {| dac_sine := Z.shiftl (cdiv (Z.shiftl (sine_from p i) 13) g) 3;
         dac_asgn := Z.shiftl (cdiv (Z.shiftl (shaped_from p shapes i) 13) g) 3 |} /\
    g = Z.max (gain_from p i) UINT16_MAX /\
    g >= UINT16_MAX /\
    g <> 0 /\
    ((forall j, lfo_level (stepped p j) = 0) -> g = UINT16_MAX).
Proof.
  intros Hwf Hq p' i Hi g.
  assert (Hg : g = Z.max (gain_from p i) UINT16_MAX) by apply quad_denominator_max.
  split.
  - subst p' g. rewrite output_stage_unroll.
    assert (Hl : length (lfo_ p) = 4%nat) by apply Hwf.
    assert (Hd : length (dac_ p) = 4%nat) by apply Hwf.
    rewrite (output_channel_quad ui shapes 3 p _ Hq) by lia.
    rewrite (output_channel_quad ui shapes 2 _ _ Hq)
      by (pr_fields; rewrite length_upd; lia).
    rewrite (output_channel_quad ui shapes 1 _ _ Hq)
      by (pr_fields; rewrite !length_upd; lia).
    rewrite (output_channel_quad ui shapes 0 _ _ Hq)
      by (pr_fields; rewrite !length_upd; lia).
    cbn [fst]. unfold stepped. pr_fields.
    unfold gain_from, sine_from, shaped_from, sum_from, stepped.
    destruct i as [|[|[|[|?]]]]; try lia;
      rewrite ?at_upd_ne by lia;
      rewrite at_upd_eq by (rewrite ?length_upd; lia);
      repeat rewrite at_upd_ne by lia;
      unfold quad_write, mix_add;
      cbn [seq rev app fold_left Nat.sub sample1 sample2 gain];
      reflexivity.
  - split; [exact Hg|]. unfold UINT16_MAX in *.
    split; [lia|]. split; [lia|].
    intros Hz. rewrite Hg. unfold gain_from, sum_from.
    destruct i as [|[|[|[|?]]]]; try lia; cbn [seq rev app fold_left Nat.sub];
      rewrite !Hz; reflexivity.
Qed.

Lemma divide_multiply_clamp_range div :
  let r := divide_multiply_clamp div in
  (div >= -1 -> r = CONSTRAIN div 1 64 /\ 1 <= r <= 64) /\
  (div < -1 -> r = CONSTRAIN div (-64) (-2) /\ -64 <= r <= -2).
Proof.
  cbv zeta. unfold divide_multiply_clamp.
  destruct (Z.geb_spec div (-1)); split; intros; try lia;
    (split; [reflexivity|apply CONSTRAIN_range; lia]).
Qed.

(** C3.  [AdcValuesToDividerMultiplier] never returns 0 or -1.  With
    [lookup] the table entry and [f] the fine offset after scaling:
    lookup 2 and f = 2 give -2; lookup 1 and f = 1 give -2; lookup 1 and
    f = 2 give -3; lookup -2 and f = -2 give 2.  The result is the
    adjusted value clamped to [1, 64] when that value is at least -1 and
    to [-64, -2] otherwise. *)
Theorem AdcValuesToDividerMultiplier_skips pot fine cv :
  let lookup := divide_multiply_lookup pot cv in
  let f := scaled_fine fine in
  let div := divide_multiply_adjust lookup f in
  let r := AdcValuesToDividerMultiplier pot fine cv in
  r <> 0 /\ r <> -1 /\
  (lookup = 2 -> f = 2 -> r = -2) /\
  (lookup = 1 -> f = 1 -> r = -2) /\
  (lookup = 1 -> f = 2 -> r = -3) /\
  (lookup = -2 -> f = -2 -> r = 2) /\
  (div >= -1 -> r = CONSTRAIN div 1 64 /\ 1 <= r <= 64) /\
  (div < -1 -> r = CONSTRAIN div (-64) (-2) /\ -64 <= r <= -2).
Proof.
  intros lookup f div r.
  assert (Hr : r = divide_multiply_clamp div) by reflexivity.
  destruct (divide_multiply_clamp_range div) as (Hpos & Hneg). rewrite <- Hr in *.
  assert (Hcase : div >= -1 \/ div < -1) by lia.
  split. { destruct Hcase as [C|C]; [apply Hpos in C|apply Hneg in C]; lia. }
  split. { destruct Hcase as [C|C]; [apply Hpos in C|apply Hneg in C]; lia. }
  split. { intros Hl Hf. rewrite Hr. subst div. rewrite Hl, Hf. reflexivity. }
  split. { intros Hl Hf. rewrite Hr. subst div. rewrite Hl, Hf. reflexivity. }
  split. { intros Hl Hf. rewrite Hr. subst div. rewrite Hl, Hf. reflexivity. }
  split. { intros Hl Hf. rewrite Hr. subst div. rewrite Hl, Hf. reflexivity. }
  split; assumption.
Qed.

End ProcessFacts.

(** ** The statements on concrete inputs *)

(** From here on the interface runs on the layout of one-byte enums. *)
#[local] Existing Instance layout_short_enums.

(** The example states are well formed. *)
Lemma ui_example_wf : Ui_wf ui_example.
Proof. repeat split; reflexivity. Defined.

Lemma processor_example_wf : Processor_wf processor_example.
Proof. repeat split; reflexivity. Defined.

(** No channel divides by zero when none of the four does. *)
Lemma no_faults_at_rest r0 r1 r2 r3 p :
  faults (tick r0 r1 r2 r3) p 0 = false ->
  faults (tick r0 r1 r2 r3) p 1 = false ->
  faults (tick r0 r1 r2 r3) p 2 = false ->
  faults (tick r0 r1 r2 r3) p 3 = false ->
  forall i, (i < 4)%nat -> faults (tick r0 r1 r2 r3) p i = false.
Proof.
  intros F0 F1 F2 F3 i Hi.
  destruct i as [|[|[|[|?]]]]; [exact F0|exact F1|exact F2|exact F3|].
  exfalso. apply (Nat.lt_irrefl 4). apply (Nat.le_lt_trans _ (4 + n)%nat); [|exact Hi].
  apply Nat.le_add_r.
Defined.



(** C2 as stated fails.  In Phase mode with the coarse values of
    channels 1, 2 and 3 at 65535, channel 1 gets the initial phase 49149,
    not (4 - 1) * 16384 = 49152. *)
Lemma phase_quadrature_not_16384 :
  mode_ ui_phase_maxed <> UI_MODE_SPLASH /\
  feat_mode_ ui_phase_maxed = FEAT_MODE_PHASE /\
  coarse ui_phase_maxed 1 = 65535 /\
  coarse ui_phase_maxed 2 = 65535 /\
  coarse ui_phase_maxed 3 = 65535 /\
  exists p',
    @Process (flat_deps 0) ui_phase_maxed (tick 0 0 0 0) processor_example = Some p' /\
    initial_phase_of (at_ (lfo_ p') 1) = Some 49149 /\
    initial_phase_of (at_ (lfo_ p') 1) <> Some ((4 - 1) * 16384).
Proof.
  split; [discriminate|]. repeat (split; [reflexivity|]).
  eexists. split; [vm_compute; reflexivity|].
  split; [reflexivity|]. cbn. discriminate.
Qed.

(** C2, amended, on the interface with pots 1 to 3 at 65535: channel 3
    gets the initial phase 16383. *)
Lemma phase_mode_quadrature_witness :
  exists p',
    @Process (flat_deps 0) ui_phase_maxed (tick 0 0 0 0) processor_example = Some p' /\
    initial_phase_of (at_ (lfo_ p') 3) = Some 16383.
Proof.
  destruct (@phase_mode_quadrature (flat_deps 0) ui_phase_maxed (tick 0 0 0 0)
              processor_example processor_example_wf)
    as (p' & E & Hp).
  - discriminate.
  - reflexivity.
  - reflexivity.
  - reflexivity.
  - reflexivity.
  - apply no_faults_at_rest; reflexivity.
  - exists p'. split; [exact E|].
    destruct (Hp 3%nat) as (_ & Hph & _); [split; repeat constructor|]. exact Hph.
Defined.

(** C3 on tables whose entries are all 2, all 1, and all -2, with fine
    inputs that scale to 2, 1, 2 and -2. *)
Lemma AdcValuesToDividerMultiplier_skips_witness :
  @AdcValuesToDividerMultiplier (flat_deps 2) 0 20000 0 = -2 /\
  @AdcValuesToDividerMultiplier (flat_deps 1) 0 7000 0 = -2 /\
  @AdcValuesToDividerMultiplier (flat_deps 1) 0 20000 0 = -3 /\
  @AdcValuesToDividerMultiplier (flat_deps (-2)) 0 (-20000) 0 = 2.
Proof.
  destruct (@AdcValuesToDividerMultiplier_skips (flat_deps 2) 0 20000 0)
    as (_ & _ & A & _).
  destruct (@AdcValuesToDividerMultiplier_skips (flat_deps 1) 0 7000 0)
    as (_ & _ & _ & B & _).
  destruct (@AdcValuesToDividerMultiplier_skips (flat_deps 1) 0 20000 0)
    as (_ & _ & _ & _ & C & _).
  destruct (@AdcValuesToDividerMultiplier_skips (flat_deps (-2)) 0 (-20000) 0)
    as (_ & _ & _ & _ & _ & D & _).
  split; [apply A; reflexivity|].
  split; [apply B; reflexivity|].
  split; [apply C; reflexivity|apply D; reflexivity].
Defined.

(** C4 on a reading that moves pot 2 from 3000 to the filtered value
    3843 in Normal mode. *)
Lemma Poll_pot_changed_witness :
  In (pot_event 2 3843) (emitted poll_input_example ui_example) /\
  at_ (pot_value_ (Poll poll_input_example ui_example)) 2 = 3843.
Proof.
  destruct (Poll_pot_changed poll_input_example ui_example 2 ui_example_wf)
    as (Hin & _ & _ & Hv & _).
  - repeat constructor.
  - split; discriminate.
  - split; [apply Hin; discriminate|apply Hv; discriminate].
Defined.

(** C5, amended, on a long release in Zoom with pot 2 at 9000 against a coarse
    value of 3000, and on the events 8000, 5000 (too far) and 3500
    (within reach) for channel 2. *)
Lemma catchup_after_return_to_normal_witness :
  at_ (catchup_state_ (OnSwitchReleased (release_event 700) ui_zoom_moved)) 2 = true /\
  at_ (pot_coarse_value_
         (OnPotChanged (pot_event 2 3500)
            (pot_events [pot_event 2 8000; pot_event 1 2100; pot_event 2 5000]
               ui_catchup))) 2 = 3500.
Proof.
  destruct catchup_after_return_to_normal as (A & B).
  split.
  - apply (A ui_zoom_moved (release_event 700) 2%nat).
    + repeat split; reflexivity.
    + reflexivity.
    + left. split; [reflexivity|discriminate].
    + repeat constructor.
    + reflexivity.
  - apply (B ui_catchup [pot_event 2 8000; pot_event 1 2100; pot_event 2 5000]
             (pot_event 2 3500) 2%nat).
    + repeat split; reflexivity.
    + reflexivity.
    + repeat constructor.
    + reflexivity.
    + repeat constructor; try discriminate; intros _; discriminate.
    + reflexivity.
    + reflexivity.
    + split; discriminate.
Defined.

(** C5 as stated fails.  In Normal with channel 2 in catch-up and its
    coarse value at 3000, the pot event of value 4024 for channel 2 is
    within 1024 of the coarse value, yet the coarse value stays 3000 and
    the channel stays in catch-up: the code leaves catch-up only below
    1024. *)
Lemma catchup_at_1024_stays_frozen :
  let e := pot_event 2 4024 in
  Ui_wf ui_catchup /\
  mode_ ui_catchup = UI_MODE_NORMAL /\
  at_ (catchup_state_ ui_catchup) 2 = true /\
  at_ (pot_coarse_value_ ui_catchup) 2 = 3000 /\
  Z.abs (data e - at_ (pot_coarse_value_ ui_catchup) 2) <= 1024 /\
  at_ (pot_coarse_value_ (OnPotChanged e ui_catchup)) 2 = 3000 /\
  at_ (pot_coarse_value_ (OnPotChanged e ui_catchup)) 2 <> data e /\
  at_ (catchup_state_ (OnPotChanged e ui_catchup)) 2 = true.
Proof.
  repeat split; try reflexivity; vm_compute; discriminate.
Qed.

(** C6 fails on the code.  In quad mode the reset input of channel 2
    (index 1) reads 0, then 30000, then 30000 again.  After the first two
    ticks the channel is still armed, as nothing disarms channels 1 and 2
    outside free mode; on the third tick its trigger fires again with
    [dist_to_next] equal to 0, and [Process] divides by zero. *)
Lemma reset_divisor_zero_in_quad :
  exists q,
    @run (flat_deps 0)
      [(ui_quad, tick 0 0 0 0); (ui_quad, tick 0 30000 0 0)] processor_example = Some q /\
    triggers (tick 0 30000 0 0) q 1 = true /\
    dist_to_next (tick 0 30000 0 0) q 1 = 0 /\
    @Process (flat_deps 0) ui_quad (tick 0 30000 0 0) q = None.
Proof.
  eexists. split; [vm_compute; reflexivity|].
  split; [reflexivity|]. split; [reflexivity|]. vm_compute. reflexivity.
Qed.

(** C7 on a trigger of 30000 with the offset at 5, and on two further
    ticks at 30000 and 15000. *)
Lemma quad_reset4_changes_waveform_once_witness :
  (exists p',
     @Process (flat_deps 0) ui_quad (tick 0 0 0 30000) processor_quad_armed = Some p' /\
     waveform_offset_ p' = 6 /\
     at_ (reset_trigger_armed_ p') 3 = false) /\
  (exists p',
     @run (flat_deps 0) [(ui_quad, tick 0 0 0 30000); (ui_quad, tick 0 0 0 15000)]
       processor_quad_disarmed = Some p' /\
     waveform_offset_ p' = 6 /\
     at_ (reset_trigger_armed_ p') 3 = false).
Proof.
  destruct (@quad_reset4_changes_waveform_once (flat_deps 0)) as (A & B).
  split.
  - destruct (A ui_quad (tick 0 0 0 30000) processor_quad_armed) as (p' & E & _ & _ & _ & Hwo & Ha).
    + repeat split; reflexivity.
    + discriminate.
    + reflexivity.
    + apply no_faults_at_rest; reflexivity.
    + reflexivity.
    + exists p'. split; [exact E|]. split; [|exact Ha].
      apply Hwo; [reflexivity|]. split; [discriminate|reflexivity].
  - eexists. split; [vm_compute; reflexivity|].
    eapply (B [(ui_quad, tick 0 0 0 30000); (ui_quad, tick 0 0 0 15000)]
              processor_quad_disarmed).
    + repeat split; reflexivity.
    + reflexivity.
    + reflexivity.
    + repeat constructor; discriminate.
    + vm_compute. reflexivity.
Defined.

(** C8 on a failed load that left arbitrary values in the buffer. *)
Lemma Init_defaults_witness :
  feat_mode_ (Init load_failed [100; 200; 300; 400] ui_example) = FEAT_MODE_FREE.
Proof.
  apply (Init_defaults load_failed [100; 200; 300; 400] ui_example ui_example_wf).
  - repeat split; reflexivity.
  - reflexivity.
Defined.

(** C9 on four oscillators of gain zero: the denominator is 65535 and
    channel 0 is written 800 and 0. *)
Lemma quad_normalization_denominator_witness :
  at_ (dac_ (fst (@output_stage (flat_deps 0) ui_quad [0; 0; 0; 0] processor_example))) 0
    = {| dac_sine := 800; dac_asgn := 0 |}.
Proof.
  destruct (@quad_normalization_denominator (flat_deps 0) ui_quad [0; 0; 0; 0]
              processor_example processor_example_wf eq_refl 0%nat)
    as (Hw & _).
  - repeat constructor.
  - rewrite Hw. reflexivity.
Defined.

(** C10 on the event (1, 777) with channel 2 touched last. *)
Lemma zoom_pot_changed_frame_witness :
  pot_level_value_ (OnPotChanged (pot_event 1 777) (set_last_touched_pot 2 ui_zoom_moved))
    = [65535; 65535; 777; 65535] .
Proof.
  destruct (zoom_pot_changed_frame (set_last_touched_pot 2 ui_zoom_moved)
              (pot_event 1 777)) as (_ & _ & H1 & _).
  - repeat split; reflexivity.
  - reflexivity.
  - split; [discriminate|reflexivity].
  - reflexivity.
Defined.

(** * More of the code *)

(** ** The interface *)

Section Releases.
Context `{Layout}.

Lemma short_release_normal ui d :
  Ui_wf ui ->
  mode_ ui = UI_MODE_NORMAL ->
  d <= kLongPressDuration ->
  let ui' := short_release d ui in
  Ui_wf ui' /\
  mode_ ui' = UI_MODE_NORMAL /\
  feat_mode_ ui' = next_feature_mode (feat_mode_ ui) /\
  pot_fine_value_ ui' = [32767; 32767; 32767; 32767] /\
  pot_phase_value_ ui' = [65535; 65535; 65535; 65535] /\
  pot_level_value_ ui' = [65535; 65535; 65535; 65535] /\
  pot_atten_value_ ui' = [65535; 65535; 65535; 65535] /\
  bank_ ui' = bank_ ui /\
  random_waveform_index_ ui' = random_waveform_index_ ui /\
  pot_coarse_value_ ui' = pot_coarse_value_ ui /\
  catchup_state_ ui' = catchup_state_ ui /\
  storage ui' = Some (settings_of ui').
Proof.
  intros Hwf Hm Hd ui'. subst ui'. unfold short_release, OnSwitchReleased.
  cbn [control_id data]. rewrite Z.eqb_refl.
  unfold kLongPressDuration, kVeryLongPressDuration, kClearSettingsLongPressDuration in *.
  destruct (Z.gtb_spec d 4000); [lia|].
  destruct (Z.gtb_spec d 2000); [lia|].
  destruct (Z.gtb_spec d 500); [lia|].
  destruct ui as [pv pf pc lt pt vl cs cu ac q le mo fm bk cw rw fi lv av ph vt sto].
  cbn [mode_] in Hm. subst mo. unfold Ui_wf in *.
  cbn [pot_value_ pot_filtered_value_ pot_coarse_value_ press_time_
       detect_very_long_press_ detect_clear_settings_long_press_ catchup_state_
       leds_ bank_ classic_waveform_index_ random_waveform_index_ pot_fine_value_
       pot_level_value_ pot_atten_value_ pot_phase_value_] in Hwf.
  split_ands. len4.
  destruct fm; cbn -[u16]; repeat split; reflexivity.
Qed.

(** X1. In Normal, a release of the select button of at most 500 ms moves
    the feature mode to the next one (Free, Quad, Phase, Divide and back to
    Free), puts the fine values at 32767 and the phase, level and
    attenuation values at 65535 on the four channels, leaves the mode, the
    banks, the random waveform indices, the coarse values and the catch-up
    flags as they are, and writes the block of settings (the [SETTINGS_SIZE]
    bytes from [feat_mode_]) as it then stands to flash. Four such releases
    in a row bring back the feature mode the interface started from, when
    that is one of the four. *)
Theorem short_release_cycles_feature_mode ui d1 d2 d3 d4 :
  Ui_wf ui ->
  mode_ ui = UI_MODE_NORMAL ->
  d1 <= kLongPressDuration -> d2 <= kLongPressDuration ->
  d3 <= kLongPressDuration -> d4 <= kLongPressDuration ->
  let ui' := short_release d1 ui in
  feat_mode_ ui' = next_feature_mode (feat_mode_ ui) /\
  mode_ ui' = UI_MODE_NORMAL /\
  pot_fine_value_ ui' = [32767; 32767; 32767; 32767] /\
  pot_phase_value_ ui' = [65535; 65535; 65535; 65535] /\
  pot_level_value_ ui' = [65535; 65535; 65535; 65535] /\
  pot_atten_value_ ui' = [65535; 65535; 65535; 65535] /\
  bank_ ui' = bank_ ui /\
  random_waveform_index_ ui' = random_waveform_index_ ui /\
  pot_coarse_value_ ui' = pot_coarse_value_ ui /\
  catchup_state_ ui' = catchup_state_ ui /\
  storage ui' = Some (settings_of ui') /\
  (feat_mode_ ui <> FEAT_MODE_LAST ->
   feat_mode_ (short_release d4 (short_release d3 (short_release d2 ui')))
   = feat_mode_ ui).
Proof.
  intros Hwf Hm H1 H2 H3 H4 ui'.
  destruct (short_release_normal ui d1 Hwf Hm H1)
    as (W1 & M1 & F1 & E1 & E2 & E3 & E4 & E5 & E6 & E7 & E8 & E9).
  fold ui' in W1, M1, F1, E1, E2, E3, E4, E5, E6, E7, E8, E9.
  destruct (short_release_normal _ d2 W1 M1 H2) as (W2 & M2 & F2 & _).
  destruct (short_release_normal _ d3 W2 M2 H3) as (W3 & M3 & F3 & _).
  destruct (short_release_normal _ d4 W3 M3 H4) as (W4 & M4 & F4 & _).
  repeat (split; [assumption|]).
  intros Hlast. rewrite F4, F3, F2, F1.
  destruct (feat_mode_ ui); try reflexivity. contradiction.
Qed.

(** *** The selection of the random waveform *)

(** X2. In random waveform selection a pot value below 9500 gives the
    channel the classic bank and index 0; from 9500, 26214, 42312 and 60000
    on it gives the random bank with index 0, 1, 2 and 3. The index is
    always within 0..3, the other channels, the modes, the coarse values and
    the flash are untouched. *)
Theorem selectRandomWaveformFromPot_brackets ui id potVal :
  Ui_wf ui ->
  0 <= id < 4 ->
  let n := Z.to_nat id in
  let ui' := selectRandomWaveformFromPot id potVal ui in
  (potVal < 9500 ->
     at_ (bank_ ui') n = BANK_CLASSIC /\ at_ (random_waveform_index_ ui') n = 0) /\
  (9500 <= potVal < 26214 ->
     at_ (bank_ ui') n = BANK_RANDOM /\ at_ (random_waveform_index_ ui') n = 0) /\
  (26214 <= potVal < 42312 ->
     at_ (bank_ ui') n = BANK_RANDOM /\ at_ (random_waveform_index_ ui') n = 1) /\
  (42312 <= potVal < 60000 ->
     at_ (bank_ ui') n = BANK_RANDOM /\ at_ (random_waveform_index_ ui') n = 2) /\
  (60000 <= potVal ->
     at_ (bank_ ui') n = BANK_RANDOM /\ at_ (random_waveform_index_ ui') n = 3) /\
  0 <= at_ (random_waveform_index_ ui') n <= 3 /\
  (forall j, j <> n ->
     at_ (bank_ ui') j = at_ (bank_ ui) j /\
     at_ (random_waveform_index_ ui') j = at_ (random_waveform_index_ ui) j) /\
  mode_ ui' = mode_ ui /\
  feat_mode_ ui' = feat_mode_ ui /\
  pot_coarse_value_ ui' = pot_coarse_value_ ui /\
  storage ui' = storage ui.
Proof.
  intros Hwf Hid n ui'.
  assert (Hn : (n < 4)%nat) by (subst n; lia).
  assert (Hlb : length (bank_ ui) = 4%nat) by apply Hwf.
  assert (Hlr : length (random_waveform_index_ ui) = 4%nat) by apply Hwf.
  subst ui'. unfold selectRandomWaveformFromPot. fold n. cbv zeta.
  unfold tbl_waveformSelectionThreshold.
  assert (Hcase : potVal < 9500 \/ 9500 <= potVal < 26214 \/ 26214 <= potVal < 42312
                  \/ 42312 <= potVal < 60000 \/ 60000 <= potVal) by lia.
  cbn [list_find fmap option_fmap option_map prod_map fst snd].
  repeat match goal with
  | |- context [decide (potVal < ?t)] => destruct (decide (potVal < t))
  end; try lia;
  unfold CONSTRAIN, u8; cbn -[at_ upd];
  change (Z.of_nat 0) with 0; change (Z.of_nat 1) with 1;
  change (Z.of_nat 2) with 2; change (Z.of_nat 3) with 3;
  cbn -[at_ upd];
  rewrite ?at_upd_eq by lia;
  (repeat split; try reflexivity; try lia;
   try (intros; rewrite ?at_upd_ne by congruence; reflexivity);
   try (apply Z.leb_le; reflexivity)).
Qed.

End Releases.

(** *** What the handlers leave alone *)

Ltac ui_frame :=
  repeat first
    [ reflexivity
    | progress cbn [pot_value_ pot_filtered_value_ pot_coarse_value_ last_touched_pot_
        press_time_ detect_very_long_press_ detect_clear_settings_long_press_
        catchup_state_ animation_counter_ queue_ leds_ mode_ feat_mode_ bank_
        classic_waveform_index_ random_waveform_index_ pot_fine_value_
        pot_level_value_ pot_atten_value_ pot_phase_value_ version_token_ storage
        set_pot_value set_pot_filtered_value set_pot_coarse_value
        set_last_touched_pot set_press_time set_detect_very_long_press
        set_detect_clear_settings_long_press set_catchup_state
        set_animation_counter set_queue set_leds set_mode set_feat_mode set_bank
        set_classic_waveform_index set_random_waveform_index set_pot_fine_value set_pot_level_value
        set_pot_atten_value set_pot_phase_value set_version_token set_storage
        set_led AddEvent]
    | match goal with
      | |- context [if ?c then _ else _] => destruct c
      | |- context [for_ _ _ _] => rewrite for__frame; [|intros]
      end ].

Section Handlers.
Context `{Layout}.

Lemma OnPotChanged_modes ui e :
  let ui' := OnPotChanged e ui in
  mode_ ui' = mode_ ui /\
  feat_mode_ ui' = feat_mode_ ui /\
  storage ui' = storage ui /\
  version_token_ ui' = version_token_ ui /\
  queue_ ui' = queue_ ui /\
  pot_value_ ui' = pot_value_ ui /\
  pot_filtered_value_ ui' = pot_filtered_value_ ui /\
  animation_counter_ ui' = animation_counter_ ui.
Proof.
  cbv zeta. unfold OnPotChanged, selectRandomWaveformFromPot.
  destruct (mode_ ui) eqn:Hm; cbv zeta;
    try (destruct (control_id e) as [|[[|[]|]|[]|]|]);
    repeat split; ui_frame; exact Hm.
Qed.

Lemma clearZoomSettings_frame ui :
  mode_ (clearZoomSettings ui) = mode_ ui /\
  feat_mode_ (clearZoomSettings ui) = feat_mode_ ui /\
  queue_ (clearZoomSettings ui) = queue_ ui /\
  storage (clearZoomSettings ui) = storage ui /\
  version_token_ (clearZoomSettings ui) = version_token_ ui.
Proof. unfold clearZoomSettings. repeat split; ui_frame. Qed.

Lemma clearAllHiddenSettings_frame ui :
  mode_ (clearAllHiddenSettings ui) = mode_ ui /\
  feat_mode_ (clearAllHiddenSettings ui) = feat_mode_ ui /\
  queue_ (clearAllHiddenSettings ui) = queue_ ui /\
  storage (clearAllHiddenSettings ui) = storage ui /\
  version_token_ (clearAllHiddenSettings ui) = version_token_ ui.
Proof.
  unfold clearAllHiddenSettings. cbv zeta.
  destruct (clearZoomSettings_frame
              (for_ 4 (fun i ui0 =>
                 set_bank (upd (bank_ (set_random_waveform_index
                                         (upd (random_waveform_index_ ui0) i 0) ui0))
                               i BANK_CLASSIC)
                   (set_random_waveform_index
                      (upd (random_waveform_index_ ui0) i 0) ui0)) ui))
    as (-> & -> & -> & -> & ->).
  repeat split; ui_frame.
Qed.

Lemma gotoNormal_frame ui :
  feat_mode_ (gotoNormalModeWithCatchupAndSaving ui) = feat_mode_ ui /\
  queue_ (gotoNormalModeWithCatchupAndSaving ui) = queue_ ui.
Proof.
  unfold gotoNormalModeWithCatchupAndSaving, ParsimoniousSave. cbv zeta.
  split; ui_frame.
Qed.

Lemma ParsimoniousSave_frame u :
  queue_ (ParsimoniousSave u) = queue_ u /\
  feat_mode_ (ParsimoniousSave u) = feat_mode_ u /\
  mode_ (ParsimoniousSave u) = mode_ u.
Proof. repeat split; reflexivity. Qed.

Lemma set_mode_frame m u :
  queue_ (set_mode m u) = queue_ u /\ feat_mode_ (set_mode m u) = feat_mode_ u.
Proof. split; reflexivity. Qed.

Lemma set_animation_counter_frame a u :
  queue_ (set_animation_counter a u) = queue_ u /\
  feat_mode_ (set_animation_counter a u) = feat_mode_ u.
Proof. split; reflexivity. Qed.

Lemma set_feat_mode_queue m u : queue_ (set_feat_mode m u) = queue_ u.
Proof. reflexivity. Qed.

Lemma OnSwitchReleased_queue ui e :
  queue_ (OnSwitchReleased e ui) = queue_ ui.
Proof.
  unfold OnSwitchReleased. cbv zeta.
  destruct (control_id e =? SWITCH_SELECT); [|reflexivity].
  destruct (data e >? kClearSettingsLongPressDuration).
  { rewrite (proj1 (ParsimoniousSave_frame _)), (proj1 (set_mode_frame _ _)),
      (proj1 (set_animation_counter_frame _ _)).
    apply clearAllHiddenSettings_frame. }
  destruct (data e >? kVeryLongPressDuration).
  { destruct (negb _); [|reflexivity].
    rewrite (proj1 (set_animation_counter_frame _ _)). apply set_mode_frame. }
  destruct (data e >? kLongPressDuration).
  - destruct (mode_ ui);
      [reflexivity|apply set_mode_frame|apply gotoNormal_frame
      |reflexivity|reflexivity].
  - destruct (mode_ ui);
      [reflexivity| |apply gotoNormal_frame|apply gotoNormal_frame|reflexivity].
    rewrite (proj1 (ParsimoniousSave_frame _)).
    rewrite (proj1 (proj2 (proj2 (clearZoomSettings_frame _)))).
    apply set_feat_mode_queue.
Qed.

Lemma handle_event_queue e ui : queue_ (handle_event e ui) = queue_ ui.
Proof.
  unfold handle_event, OnSwitchPressed.
  destruct (control_type e).
  - apply OnPotChanged_modes.
  - destruct (data e =? 0); [reflexivity|apply OnSwitchReleased_queue].
Qed.

(** X3. No handler puts an event in the queue: every event handled leaves
    the queue as it is, so [DoEvents] ends with the queue empty, and with an
    empty queue it changes nothing. *)
Theorem DoEvents_drains_queue ui :
  queue_ (DoEvents ui) = [] /\
  (queue_ ui = [] -> DoEvents ui = ui) /\
  forall e, queue_ (handle_event e ui) = queue_ ui.
Proof.
  split; [|split].
  - unfold DoEvents.
    assert (Hgen : forall l u, queue_ u = [] ->
              queue_ (fold_left (fun acc e => handle_event e acc) l u) = []).
    { induction l as [|e l IH]; intros u Hu; [exact Hu|].
      cbn [fold_left]. apply IH. rewrite handle_event_queue. exact Hu. }
    apply Hgen. reflexivity.
  - intros Hq. unfold DoEvents. rewrite Hq. cbn [fold_left].
    destruct ui as [pv pf pc lt pt vl cs cu ac q le mo fm bk cw rw fi lv av ph vt sto].
    cbn [queue_] in Hq. subst q. reflexivity.
  - intros e. apply handle_event_queue.
Qed.

(** X4. A pot event, an event of a switch other than the select button, and
    a press event (datum 0) leave the mode, the feature mode, the image in
    flash and the version token as they are. *)
Theorem only_select_button_changes_modes ui e :
  control_type e = CONTROL_POT \/ control_id e <> SWITCH_SELECT \/ data e = 0 ->
  let ui' := handle_event e ui in
  mode_ ui' = mode_ ui /\
  feat_mode_ ui' = feat_mode_ ui /\
  storage ui' = storage ui /\
  version_token_ ui' = version_token_ ui.
Proof.
  intros Hc ui'. subst ui'. unfold handle_event, OnSwitchPressed.
  destruct (control_type e) eqn:Ht.
  - destruct (OnPotChanged_modes ui e) as (A & B & C & D & _). auto.
  - destruct Hc as [Hc|[Hc|Hc]]; [discriminate| |].
    + destruct (data e =? 0); [auto|].
      unfold OnSwitchReleased.
      destruct (Z.eqb_spec (control_id e) SWITCH_SELECT); [contradiction|auto].
    + rewrite Hc. cbn. auto.
Qed.

(** X5. An event changes the feature mode only if it is a release of the
    select button of at most 500 ms handled in Normal: pot events, press
    events, the other switches, longer presses and the other modes leave it
    as it is. *)
Theorem feature_mode_changes_only_on_short_release ui e :
  feat_mode_ (handle_event e ui) <> feat_mode_ ui ->
  control_type e = CONTROL_SWITCH /\
  control_id e = SWITCH_SELECT /\
  mode_ ui = UI_MODE_NORMAL /\
  data e <> 0 /\
  data e <= kLongPressDuration.
Proof.
  unfold handle_event, OnSwitchPressed.
  destruct (control_type e).
  { intros Hne. destruct (OnPotChanged_modes ui e) as (_ & B & _). contradiction. }
  destruct (Z.eqb_spec (data e) 0) as [|Hd0]; [intros Hne; contradiction|].
  unfold OnSwitchReleased. cbv zeta.
  destruct (Z.eqb_spec (control_id e) SWITCH_SELECT) as [Hid|]; [|intros; contradiction].
  destruct (Z.gtb_spec (data e) kClearSettingsLongPressDuration).
  { rewrite (proj1 (proj2 (ParsimoniousSave_frame _))), (proj2 (set_mode_frame _ _)),
      (proj2 (set_animation_counter_frame _ _)),
      (proj1 (proj2 (clearAllHiddenSettings_frame _))).
    intros; contradiction. }
  destruct (Z.gtb_spec (data e) kVeryLongPressDuration).
  { destruct (negb _); [|intros; contradiction].
    rewrite (proj2 (set_animation_counter_frame _ _)), (proj2 (set_mode_frame _ _)).
    intros; contradiction. }
  destruct (Z.gtb_spec (data e) kLongPressDuration).
  { destruct (mode_ ui);
      [|rewrite (proj2 (set_mode_frame _ _))|rewrite (proj1 (gotoNormal_frame _))| |];
      intros; contradiction. }
  destruct (mode_ ui) eqn:Hm;
    [intros; contradiction
    |intros _; auto
    |rewrite (proj1 (gotoNormal_frame _)); intros; contradiction
    |rewrite (proj1 (gotoNormal_frame _)); intros; contradiction
    |intros; contradiction].
Qed.

(** *** The return to Normal *)

(** X6. The return to Normal never clears a catch-up flag: the flag of a
    channel is set afterwards exactly when it was set before or the
    committed pot value is more than 1024 away from the coarse value. The
    mode is Normal, the block of settings (the [SETTINGS_SIZE] bytes from
    [feat_mode_]), the coarse values and the committed pot values are
    unchanged, and the block is written to flash. *)
Theorem gotoNormal_keeps_catchup_and_saves ui :
  Ui_wf ui ->
  let ui' := gotoNormalModeWithCatchupAndSaving ui in
  mode_ ui' = UI_MODE_NORMAL /\
  settings_of ui' = settings_of ui /\
  storage ui' = Some (settings_of ui) /\
  pot_coarse_value_ ui' = pot_coarse_value_ ui /\
  pot_value_ ui' = pot_value_ ui /\
  forall i, (i < 4)%nat ->
    (at_ (catchup_state_ ui') i = true <->
     at_ (catchup_state_ ui) i = true \/
     Z.abs (at_ (pot_value_ ui) i - at_ (pot_coarse_value_ ui) i) > kCatchupThreshold).
Proof.
  intros Hwf ui'.
  destruct (gotoNormal_effect ui) as (Hm & Hc & Hv & Hs & Hcu). fold ui' in Hm, Hc, Hv, Hs, Hcu.
  split; [exact Hm|].
  split.
  { subst ui'. unfold gotoNormalModeWithCatchupAndSaving, ParsimoniousSave, settings_of.
    cbv zeta. f_equal; ui_frame. }
  split; [exact Hs|]. split; [exact Hc|]. split; [exact Hv|].
  intros i Hi. rewrite (Hcu i Hi) by apply Hwf.
  destruct (Z.gtb_spec (Z.abs (at_ (pot_value_ ui) i - at_ (pot_coarse_value_ ui) i))
              kCatchupThreshold); split; auto; try lia.
  intros [?|?]; [assumption|lia].
Qed.

End Handlers.

Lemma fold_left_step {A B} (f : A -> B -> A) x l a :
  fold_left f (x :: l) a = fold_left f l (f a x).
Proof. reflexivity. Qed.

Lemma polls_cons inp inps ui : polls (inp :: inps) ui = polls inps (Poll inp ui).
Proof. exact (fold_left_step (fun acc inp => Poll inp acc) inp inps ui). Qed.

Lemma s32_id x : -2147483648 <= x <= 2147483647 -> s32 x = x.
Proof. intros H. unfold s32. rewrite Z.mod_small; lia. Qed.

(** *** The animation counter and the modes that end by themselves *)

Lemma poll_switches_eq inp ui : poll_switches inp ui = poll_switch inp 3 ui.
Proof. reflexivity. Qed.

Lemma poll_switch_frame inp i ui :
  animation_counter_ (poll_switch inp i ui) = animation_counter_ ui.
Proof. unfold poll_switch. cbv zeta. ui_frame. Qed.

Lemma poll_pots_frame inp ui :
  animation_counter_ (poll_pots inp ui) = animation_counter_ ui /\
  mode_ (poll_pots inp ui) = mode_ ui.
Proof.
  unfold poll_pots. cbv zeta.
  split; apply for__frame; intros i x; unfold poll_pot; cbv zeta; ui_frame.
Qed.

Lemma Poll_paint inp ui :
  exists u, Poll inp ui = paint u /\
            mode_ u = mode_ ui /\ animation_counter_ u = animation_counter_ ui.
Proof.
  exists (poll_pots inp (poll_switches inp ui)). split; [reflexivity|].
  destruct (poll_pots_frame inp (poll_switches inp ui)) as (A & M).
  destruct (poll_switches_effect inp ui) as (sw & _ & _ & _ & _ & Hm).
  rewrite A, M, Hm. split; [reflexivity|].
  rewrite poll_switches_eq. apply poll_switch_frame.
Qed.

Lemma paint_splash u :
  mode_ u = UI_MODE_SPLASH ->
  animation_counter_ (paint u) = s32 (animation_counter_ u + 1) /\
  mode_ (paint u) =
    if (cmod (animation_counter_ u) 64 =? 0) && (cdiv (animation_counter_ u) 64 >? 3)
    then UI_MODE_NORMAL else UI_MODE_SPLASH.
Proof.
  intros Hm. unfold paint. rewrite Hm. cbv zeta.
  destruct (cmod (animation_counter_ u) 64 =? 0);
    destruct (cdiv (animation_counter_ u) 64 >? 3); cbn [andb];
    split; ui_frame; exact Hm.
Qed.

Lemma paint_splash_for_select u :
  mode_ u = UI_MODE_SPLASH_FOR_RANDOM_WAVEFORM_SELECT ->
  let ac := s32 (animation_counter_ u + 1) in
  animation_counter_ (paint u) = (if ac >=? 399 then 0 else ac) /\
  mode_ (paint u) =
    if ac >=? 399 then UI_MODE_RANDOM_WAVEFORM_SELECT
    else UI_MODE_SPLASH_FOR_RANDOM_WAVEFORM_SELECT.
Proof.
  intros Hm ac. unfold paint. rewrite Hm. cbv zeta.
  change (2 * 200 - 1) with 399. fold ac.
  destruct (ac >=? 399); destruct (cmod (animation_counter_ u) 100 =? 0);
    split; ui_frame; exact Hm.
Qed.

Lemma Poll_splash_step inp ui :
  mode_ ui = UI_MODE_SPLASH ->
  0 <= animation_counter_ ui <= 256 ->
  animation_counter_ (Poll inp ui) = animation_counter_ ui + 1 /\
  mode_ (Poll inp ui) =
    if animation_counter_ ui =? 256 then UI_MODE_NORMAL else UI_MODE_SPLASH.
Proof.
  intros Hm Hac. destruct (Poll_paint inp ui) as (u & -> & Mu & Au).
  rewrite Hm in Mu. destruct (paint_splash u Mu) as (A & M).
  rewrite A, M, Au. split; [apply s32_id; lia|].
  unfold cmod, cdiv.
  destruct (Z.eqb_spec (animation_counter_ ui) 256) as [->|Hne]; [reflexivity|].
  destruct (Z.eqb_spec (Z.rem (animation_counter_ ui) 64) 0) as [Hr|]; [|reflexivity].
  destruct (Z.gtb_spec (Z.quot (animation_counter_ ui) 64) 3) as [Hq|]; [|reflexivity].
  exfalso.
  pose proof (Z.quot_rem' (animation_counter_ ui) 64).
  assert (Z.quot (animation_counter_ ui) 64 <= 4)
    by (apply Z.quot_le_upper_bound; lia).
  lia.
Qed.

Lemma polls_splash inps : forall ui,
  mode_ ui = UI_MODE_SPLASH ->
  0 <= animation_counter_ ui ->
  animation_counter_ ui + Z.of_nat (length inps) <= 256 ->
  mode_ (polls inps ui) = UI_MODE_SPLASH /\
  animation_counter_ (polls inps ui) = animation_counter_ ui + Z.of_nat (length inps).
Proof.
  induction inps as [|inp inps IH]; intros ui Hm H0 Hn.
  - cbn [length polls fold_left]. change (Z.of_nat 0) with 0. split; [exact Hm|lia].
  - cbn [length] in *. rewrite Nat2Z.inj_succ in *.
    destruct (Poll_splash_step inp ui Hm) as (A & M); [lia|].
    destruct (Z.eqb_spec (animation_counter_ ui) 256); [lia|].
    rewrite polls_cons.
    destruct (IH (Poll inp ui) M) as (M' & A'); [lia|lia|].
    split; [exact M'|]. rewrite A', A. lia.
Qed.

Lemma Poll_splash_for_select_step inp ui :
  mode_ ui = UI_MODE_SPLASH_FOR_RANDOM_WAVEFORM_SELECT ->
  0 <= animation_counter_ ui <= 398 ->
  animation_counter_ (Poll inp ui) =
    (if animation_counter_ ui =? 398 then 0 else animation_counter_ ui + 1) /\
  mode_ (Poll inp ui) =
    if animation_counter_ ui =? 398 then UI_MODE_RANDOM_WAVEFORM_SELECT
    else UI_MODE_SPLASH_FOR_RANDOM_WAVEFORM_SELECT.
Proof.
  intros Hm Hac. destruct (Poll_paint inp ui) as (u & -> & Mu & Au).
  rewrite Hm in Mu. destruct (paint_splash_for_select u Mu) as (A & M).
  rewrite A, M, Au, s32_id by lia.
  destruct (Z.eqb_spec (animation_counter_ ui) 398) as [->|Hne]; [split; reflexivity|].
  destruct (Z.geb_spec (animation_counter_ ui + 1) 399); [lia|]. split; reflexivity.
Qed.

Lemma polls_splash_for_select inps : forall ui,
  mode_ ui = UI_MODE_SPLASH_FOR_RANDOM_WAVEFORM_SELECT ->
  0 <= animation_counter_ ui ->
  animation_counter_ ui + Z.of_nat (length inps) <= 398 ->
  mode_ (polls inps ui) = UI_MODE_SPLASH_FOR_RANDOM_WAVEFORM_SELECT /\
  animation_counter_ (polls inps ui) = animation_counter_ ui + Z.of_nat (length inps).
Proof.
  induction inps as [|inp inps IH]; intros ui Hm H0 Hn.
  - cbn [length polls fold_left]. change (Z.of_nat 0) with 0. split; [exact Hm|lia].
  - cbn [length] in *. rewrite Nat2Z.inj_succ in *.
    destruct (Poll_splash_for_select_step inp ui Hm) as (A & M); [lia|].
    destruct (Z.eqb_spec (animation_counter_ ui) 398); [lia|].
    rewrite polls_cons.
    destruct (IH (Poll inp ui) M) as (M' & A'); [lia|lia|].
    split; [exact M'|]. rewrite A', A. lia.
Qed.

(** X7. From the start of Splash (animation counter 0), the interface is
    still in Splash after any 256 or fewer calls of [Poll], whatever they
    read, with the counter at the number of calls; the 257th call enters
    Normal. *)
Theorem splash_lasts_256_polls ui inps inp :
  mode_ ui = UI_MODE_SPLASH ->
  animation_counter_ ui = 0 ->
  (length inps <= 256)%nat ->
  mode_ (polls inps ui) = UI_MODE_SPLASH /\
  animation_counter_ (polls inps ui) = Z.of_nat (length inps) /\
  (length inps = 256%nat -> mode_ (Poll inp (polls inps ui)) = UI_MODE_NORMAL).
Proof.
  intros Hm Hac Hn.
  destruct (polls_splash inps ui Hm) as (M & A); [lia|lia|].
  rewrite Hac in A. cbn [Z.add] in A.
  split; [exact M|]. split; [exact A|].
  intros Hl. destruct (Poll_splash_step inp (polls inps ui) M) as (_ & M'); [lia|].
  rewrite M', A, Hl. reflexivity.
Qed.

Section SplashOfSelection.
Context `{Layout}.

(** X8. Outside random waveform selection, a release of the select button
    longer than 2000 ms and not longer than 4000 ms leaves the feature mode
    and the flash alone and starts the second splash: the interface stays in
    it over the next 398 calls of [Poll], whatever they read, and the 399th
    call enters random waveform selection with the animation counter at 0. *)
Theorem very_long_press_enters_random_waveform_select ui d inps inp :
  mode_ ui <> UI_MODE_RANDOM_WAVEFORM_SELECT ->
  kVeryLongPressDuration < d <= kClearSettingsLongPressDuration ->
  (length inps <= 398)%nat ->
  let ui1 := OnSwitchReleased (release_event d) ui in
  feat_mode_ ui1 = feat_mode_ ui /\
  storage ui1 = storage ui /\
  mode_ (polls inps ui1) = UI_MODE_SPLASH_FOR_RANDOM_WAVEFORM_SELECT /\
  (length inps = 398%nat ->
   mode_ (Poll inp (polls inps ui1)) = UI_MODE_RANDOM_WAVEFORM_SELECT /\
   animation_counter_ (Poll inp (polls inps ui1)) = 0).
Proof.
  intros Hm Hd Hn ui1.
  assert (E : ui1 = set_animation_counter 0
                      (set_mode UI_MODE_SPLASH_FOR_RANDOM_WAVEFORM_SELECT ui)).
  { subst ui1. unfold OnSwitchReleased, release_event. cbn [control_id data].
    rewrite Z.eqb_refl.
    destruct (Z.gtb_spec d kClearSettingsLongPressDuration); [lia|].
    destruct (Z.gtb_spec d kVeryLongPressDuration); [|lia].
    rewrite bool_decide_eq_false_2 by exact Hm. reflexivity. }
  rewrite E. clear E ui1.
  set (u := set_animation_counter 0 _).
  assert (Mu : mode_ u = UI_MODE_SPLASH_FOR_RANDOM_WAVEFORM_SELECT) by reflexivity.
  assert (Au : animation_counter_ u = 0) by reflexivity.
  split; [reflexivity|]. split; [reflexivity|].
  destruct (polls_splash_for_select inps u Mu) as (M & A); [lia|lia|].
  split; [exact M|].
  intros Hl.
  destruct (Poll_splash_for_select_step inp (polls inps u) M) as (A' & M'); [lia|].
  rewrite A', M', A, Au, Hl. split; reflexivity.
Qed.

End SplashOfSelection.

(** *** The switch events of [Poll] *)

Lemma poll_switch_ids inp i ui :
  exists sw,
    queue_ (poll_switch inp i ui) = queue_ ui ++ sw /\
    List.Forall (fun e => control_type e = CONTROL_SWITCH /\ control_id e = i) sw.
Proof.
  unfold poll_switch. cbv zeta.
  repeat match goal with
  | |- context [if ?c then _ else _] => destruct c
  end;
  cbn [queue_ AddEvent set_queue
       set_press_time set_detect_very_long_press
       set_detect_clear_settings_long_press];
  rewrite <- ?app_assoc;
  (eexists; split;
     [reflexivity
     |repeat first [apply List.Forall_nil
                   |apply List.Forall_cons; [split; reflexivity|]]])
  || (exists []; rewrite app_nil_r; split; [reflexivity|apply List.Forall_nil]).
Qed.

(** *** The filter of the pots *)

(** X9. The filter of the pots never overshoots: a reading at or above the
    filtered value leaves the new filtered value between the two, and the
    value does not move exactly when the reading is at most 31 above it; a
    reading below the filtered value always brings it down, and not below
    the reading. *)
Theorem pot_filter_settles ui adc i :
  let f := at_ (pot_filtered_value_ ui) i in
  let a := u16 (at_ adc i) in
  let v := pot_filter ui adc i in
  (f <= a -> f <= v <= a /\ (v = f <-> a - f <= 31)) /\
  (a < f -> a <= v < f).
Proof.
  intros f a v. subst v. unfold pot_filter, asr. fold f a.
  rewrite Z.shiftr_div_pow2 by lia. change (2 ^ 5) with 32.
  split; intros H.
  - split.
    + split; [apply Z.div_le_lower_bound; lia|].
      apply Z.div_le_upper_bound; lia.
    + split; intros E.
      * assert ((31 * f + a) / 32 < f + 1) by lia.
        assert (31 * f + a < 32 * (f + 1)); [|lia].
        destruct (Z.lt_ge_cases (31 * f + a) (32 * (f + 1))) as [|G]; [assumption|].
        apply (Z.div_le_lower_bound _ 32) in G; lia.
      * apply Z.le_antisymm.
        -- assert ((31 * f + a) / 32 < f + 1); [|lia].
           apply Z.div_lt_upper_bound; lia.
        -- apply Z.div_le_lower_bound; lia.
  - split; [apply Z.div_le_lower_bound; lia|].
    apply Z.div_lt_upper_bound; lia.
Qed.

(** *** Start-up *)

Section StartupPolls.
Context `{Layout}.

Lemma Init_pots ld adc ui :
  Ui_wf ui -> Settings_wf (load_buffer ld) ->
  let ui' := Init ld adc ui in
  Ui_wf ui' /\
  mode_ ui' = UI_MODE_SPLASH /\
  animation_counter_ ui' = 0 /\
  queue_ ui' = queue_ ui /\
  leds_ ui' = [false; false; false; false] /\
  catchup_state_ ui' = [false; false; false; false] /\
  forall i, (i < 4)%nat ->
    at_ (pot_value_ ui') i = u16 (at_ adc i) /\
    at_ (pot_filtered_value_ ui') i = u16 (at_ adc i) /\
    at_ (pot_coarse_value_ ui') i = u16 (at_ adc i).
Proof.
  intros Hwf Hs. destruct ld as [ok buf tok]. cbn [load_buffer] in Hs.
  destruct buf; unfold Settings_wf in Hs; cbn in Hs.
  repeat match goal with H : _ /\ _ |- _ => destruct H end; len4.
  ui_arrays ui.
  cbv zeta. unfold Init. destruct ok; cbn -[u16 at_];
    try match goal with
    | |- context [phase_restore ?im ?cur] =>
        pose proof (phase_restore_length im cur) as Hl;
        destruct (phase_restore im cur) as [|? [|? [|? [|? [|? ?]]]]];
        try discriminate Hl
    end;
    (repeat split; try reflexivity;
     match goal with
     | H : (?k < 4)%nat |- _ => destruct k as [|[|[|[|]]]]; try lia; reflexivity
     end).
Qed.

Lemma pot_filter_steady ui adc i :
  0 <= at_ adc i <= 65535 ->
  at_ (pot_filtered_value_ ui) i = at_ adc i ->
  pot_filter ui adc i = at_ adc i.
Proof.
  intros Ha Hf. unfold pot_filter, asr. rewrite Hf, u16_id by exact Ha.
  rewrite Z.shiftr_div_pow2 by lia. change (2 ^ 5) with 32.
  replace (31 * at_ adc i + at_ adc i) with (at_ adc i * 32) by lia.
  apply Z.div_mul. lia.
Qed.

(** X10. [Init] leaves the committed value and the coarse value of every pot
    at the reading of the converter and every channel out of catch-up; if
    the first [Poll] reads the pots where they were, it reports no pot event
    and the committed and filtered values stay at the reading. *)
Theorem first_poll_after_Init_is_quiet ld adc ui inp :
  Ui_wf ui -> Settings_wf (load_buffer ld) ->
  reads_pots adc inp ->
  let ui0 := Init ld adc ui in
  (forall e, In e (emitted inp ui0) -> control_type e = CONTROL_SWITCH) /\
  forall i, (i < 4)%nat ->
    at_ (pot_value_ ui0) i = at_ adc i /\
    at_ (pot_coarse_value_ ui0) i = at_ adc i /\
    at_ (catchup_state_ ui0) i = false /\
    at_ (pot_value_ (Poll inp ui0)) i = at_ adc i /\
    at_ (pot_filtered_value_ (Poll inp ui0)) i = at_ adc i.
Proof.
  intros Hwf Hs (Hp & Hl & Hr) ui0.
  destruct (Init_pots ld adc ui Hwf Hs) as (Hwf0 & Hm & _ & _ & _ & Hc & Hpots).
  fold ui0 in Hwf0, Hm, Hc, Hpots. clearbody ui0.
  assert (Hst : forall i, (i < 4)%nat ->
            pot_filter ui0 (pot inp) i = at_ adc i /\
            pot_moved (potMoveThreshold (mode_ ui0)) ui0 (pot inp) i = false).
  { intros i Hi. destruct (Hpots i Hi) as (Hv & Hf & _).
    rewrite u16_id in Hv, Hf by (apply Hr; exact Hi).
    assert (E : pot_filter ui0 (pot inp) i = at_ adc i).
    { rewrite Hp. apply pot_filter_steady; [apply Hr; exact Hi|exact Hf]. }
    split; [exact E|].
    unfold pot_moved. cbv zeta. rewrite E, Hv, Hm.
    change (potMoveThreshold UI_MODE_SPLASH) with 256.
    destruct (Z.geb_spec (at_ adc i) (at_ adc i + 256)); [lia|].
    destruct (Z.leb_spec (at_ adc i) (at_ adc i - 256)); [lia|]. reflexivity. }
  split.
  - intros e Hin. destruct (emitted_eq inp ui0 Hwf0) as (sw & Hsw & E).
    rewrite E in Hin. apply in_app_or in Hin. destruct Hin as [Hin|Hin].
    + rewrite List.Forall_forall in Hsw. apply Hsw. exact Hin.
    + exfalso. unfold pot_events_upto in Hin. apply in_flat_map in Hin.
      destruct Hin as (i & Hi & He). apply in_seq in Hi.
      destruct (Hst i) as (_ & Hmv); [lia|]. rewrite Hmv in He. destruct He.
  - intros i Hi. destruct (Hpots i Hi) as (Hv & Hf & Hco).
    rewrite u16_id in Hv, Hf, Hco by (apply Hr; exact Hi).
    destruct (Hst i Hi) as (E & Hmv).
    destruct (Poll_pot_fields inp ui0 i Hwf0 Hi) as (Pf & Pv).
    rewrite Hmv in Pv. rewrite E in Pf.
    rewrite u16_id in Pf by (apply Hr; exact Hi).
    split; [exact Hv|]. split; [exact Hco|].
    split; [rewrite Hc; destruct i as [|[|[|[|]]]]; try lia; reflexivity|].
    split; [rewrite Pv; exact Hv|exact Pf].
Qed.

End StartupPolls.

(** *** What [Poll] keeps *)

Ltac ui_len :=
  repeat first
    [ assumption
    | progress cbn [pot_value_ pot_filtered_value_ pot_coarse_value_ last_touched_pot_
        press_time_ detect_very_long_press_ detect_clear_settings_long_press_
        catchup_state_ animation_counter_ queue_ leds_ mode_ feat_mode_ bank_
        classic_waveform_index_ random_waveform_index_ pot_fine_value_
        pot_level_value_ pot_atten_value_ pot_phase_value_ version_token_ storage
        set_pot_value set_pot_filtered_value set_pot_coarse_value
        set_last_touched_pot set_press_time set_detect_very_long_press
        set_detect_clear_settings_long_press set_catchup_state
        set_animation_counter set_queue set_leds set_mode set_feat_mode set_bank
        set_random_waveform_index set_pot_fine_value set_pot_level_value
        set_pot_atten_value set_pot_phase_value set_version_token set_storage
        set_led AddEvent]
    | rewrite length_upd
    | match goal with
      | |- context [if ?c then _ else _] => destruct c
      end ].

Lemma poll_switch_wf inp i ui : Ui_wf ui -> Ui_wf (poll_switch inp i ui).
Proof.
  intros Hwf. unfold Ui_wf in *. split_ands.
  unfold poll_switch. cbv zeta. repeat split; ui_len.
Qed.

Lemma poll_pot_wf thr adc i ui : Ui_wf ui -> Ui_wf (poll_pot thr adc i ui).
Proof.
  intros Hwf. unfold Ui_wf in *. split_ands.
  unfold poll_pot. cbv zeta. repeat split; ui_len.
Qed.

Lemma for__inv {S : Type} (P : S -> Prop) n (body : nat -> S -> S) s :
  (forall i x, P x -> P (body i x)) -> P s -> P (for_ n body s).
Proof.
  intros Hb. unfold for_. generalize (seq 0 n). intros l. revert s.
  induction l as [|i l IH]; intros s Hs; cbn; [exact Hs|].
  apply IH. apply Hb. exact Hs.
Qed.

Lemma set_led_wf i b ui : Ui_wf ui -> Ui_wf (set_led i b ui).
Proof. intros Hwf. unfold Ui_wf in *. split_ands. repeat split; ui_len. Qed.

Lemma set_animation_counter_wf a ui : Ui_wf ui -> Ui_wf (set_animation_counter a ui).
Proof. intros Hwf. exact Hwf. Qed.

Lemma set_mode_wf m ui : Ui_wf ui -> Ui_wf (set_mode m ui).
Proof. intros Hwf. exact Hwf. Qed.

Lemma paint_wf ui : Ui_wf ui -> Ui_wf (paint ui).
Proof.
  intros Hwf. unfold paint. cbv zeta.
  destruct (mode_ ui);
    repeat first
      [ assumption
      | apply set_animation_counter_wf
      | apply set_mode_wf
      | apply set_led_wf
      | apply for__inv; [intros ? ? ?|]
      | match goal with
        | |- context [if ?c then _ else _] => destruct c
        end ].
Qed.

Lemma Poll_wf inp ui : Ui_wf ui -> Ui_wf (Poll inp ui).
Proof.
  intros Hwf. unfold Poll. apply paint_wf. unfold poll_pots. cbv zeta.
  apply for__inv; [intros i x; apply poll_pot_wf|].
  rewrite poll_switches_eq. apply poll_switch_wf. exact Hwf.
Qed.

Lemma Poll_switch_state inp ui :
  press_time_ (Poll inp ui) = press_time_ (poll_switches inp ui) /\
  detect_very_long_press_ (Poll inp ui) = detect_very_long_press_ (poll_switches inp ui) /\
  detect_clear_settings_long_press_ (Poll inp ui) =
    detect_clear_settings_long_press_ (poll_switches inp ui).
Proof.
  unfold Poll. generalize (poll_switches inp ui). intros u.
  assert (P : forall v,
            press_time_ (paint v) = press_time_ v /\
            detect_very_long_press_ (paint v) = detect_very_long_press_ v /\
            detect_clear_settings_long_press_ (paint v) =
              detect_clear_settings_long_press_ v).
  { intros v. unfold paint. destruct (mode_ v); cbv zeta; repeat split; ui_frame. }
  destruct (P (poll_pots inp u)) as (-> & -> & ->).
  unfold poll_pots. cbv zeta.
  repeat split; apply for__frame; intros i x; unfold poll_pot; cbv zeta; ui_frame.
Qed.

Lemma emitted_split inp ui sw :
  Ui_wf ui ->
  queue_ (poll_switches inp ui) = queue_ ui ++ sw ->
  emitted inp ui = sw ++ pot_events_upto (potMoveThreshold (mode_ ui)) ui (pot inp) 4.
Proof.
  intros Hwf Hq. unfold emitted, Poll.
  destruct (poll_switches_effect inp ui) as (sw0 & _ & _ & Hv & Hf & Hm).
  destruct (paint_frame (poll_pots inp (poll_switches inp ui))) as (Pq & _ & _).
  rewrite Pq. unfold poll_pots.
  set (u := poll_switches inp ui) in *.
  destruct (poll_pot_loop (potMoveThreshold (mode_ u)) (pot inp) u 4) as (Lq & _);
    [rewrite Hv; apply Hwf|rewrite Hf; apply Hwf|lia|].
  rewrite Lq, Hq, Hm, <- app_assoc, drop_app_length. f_equal.
  unfold pot_events_upto, pot_moved, pot_filter. rewrite Hv, Hf. reflexivity.
Qed.

Lemma pot_events_are_pots thr ui adc k e :
  In e (pot_events_upto thr ui adc k) -> control_type e = CONTROL_POT.
Proof.
  unfold pot_events_upto. intros Hin. apply in_flat_map in Hin.
  destruct Hin as (i & _ & He).
  destruct (pot_moved thr ui adc i); [|destruct He].
  destruct He as [<-|[]]. reflexivity.
Qed.

Lemma emitted_ids inp ui :
  Ui_wf ui ->
  exists sw,
    List.Forall (fun e => control_type e = CONTROL_SWITCH /\
                          control_id e = SWITCH_SELECT) sw /\
    emitted inp ui =
      sw ++ pot_events_upto (potMoveThreshold (mode_ ui)) ui (pot inp) 4.
Proof.
  intros Hwf.
  destruct (poll_switch_ids inp 3 ui) as (sw & Hq & Hsw).
  rewrite <- poll_switches_eq in Hq.
  exists sw. split; [exact Hsw|]. apply emitted_split; assumption.
Qed.

(** X11. With the select button the last of the four switches, every switch
    event a call of [Poll] puts in the queue carries its id (the loop starts
    after the three panel switches, which are read where they are used and
    never reported), and every pot event carries the index of a pot, 0 to 3,
    with the filtered reading of that pot as its datum. *)
Theorem Poll_reports_select_button_only inp ui e :
  Ui_wf ui ->
  In e (emitted inp ui) ->
  match control_type e with
  | CONTROL_SWITCH => control_id e = SWITCH_SELECT
  | CONTROL_POT =>
      exists i, (i < 4)%nat /\ control_id e = Z.of_nat i /\
                data e = pot_filter ui (pot inp) i
  end.
Proof.
  intros Hwf Hin.
  destruct (emitted_ids inp ui Hwf) as (sw & Hsw & E).
  rewrite E in Hin. apply in_app_or in Hin. destruct Hin as [Hin|Hin].
  - rewrite List.Forall_forall in Hsw. destruct (Hsw e Hin) as (-> & ->). reflexivity.
  - unfold pot_events_upto in Hin. apply in_flat_map in Hin.
    destruct Hin as (i & Hi & He). apply in_seq in Hi.
    destruct (pot_moved _ ui (pot inp) i); [|destruct He].
    destruct He as [<-|[]]. cbn [pot_event control_type control_id data].
    exists i. split; [lia|]. split; reflexivity.
Qed.

(** *** The select button *)

Lemma poll_switch_release inp ui :
  Ui_wf ui ->
  just_pressed inp 3 = false -> pressed inp 3 = false -> released inp 3 = true ->
  let quiet := (at_ (press_time_ ui) 3 =? 0)
               || at_ (detect_very_long_press_ ui) 3
               || at_ (detect_clear_settings_long_press_ ui) 3 in
  let ui' := poll_switches inp ui in
  queue_ ui' =
    queue_ ui ++
    (if quiet then []
     else [release_event (s32 (u32 (milliseconds inp - at_ (press_time_ ui) 3 + 1)))]) /\
  at_ (press_time_ ui') 3 = (if quiet then at_ (press_time_ ui) 3 else 0).
Proof.
  intros Hwf Hj Hp Hr quiet ui'. subst quiet ui'.
  rewrite poll_switches_eq. unfold poll_switch. cbv zeta.
  rewrite Hj, Hp, Hr. cbn [andb]. change (Z.to_nat 3) with 3%nat.
  assert (Hl : length (press_time_ ui) = 4%nat) by apply Hwf.
  destruct (at_ (press_time_ ui) 3 =? 0); cbn [negb andb orb];
    [rewrite app_nil_r; split; reflexivity|].
  destruct (at_ (detect_very_long_press_ ui) 3); cbn [negb andb orb];
    [rewrite app_nil_r; split; reflexivity|].
  destruct (at_ (detect_clear_settings_long_press_ ui) 3); cbn [negb andb orb];
    [rewrite app_nil_r; split; reflexivity|].
  cbn [queue_ press_time_ set_press_time AddEvent set_queue].
  rewrite at_upd_eq by lia. split; reflexivity.
Qed.

Lemma poll_switch_hold inp ui :
  Ui_wf ui ->
  just_pressed inp 3 = false -> pressed inp 3 = true -> released inp 3 = false ->
  at_ (press_time_ ui) 3 <> 0 ->
  at_ (detect_very_long_press_ ui) 3 = false ->
  at_ (detect_clear_settings_long_press_ ui) 3 = false ->
  let held := s32 (u32 (milliseconds inp - at_ (press_time_ ui) 3)) in
  let ui' := poll_switches inp ui in
  queue_ ui' = queue_ ui ++ (if held >? kLongPressDuration then [release_event held] else []) /\
  at_ (press_time_ ui') 3 = at_ (press_time_ ui) 3 /\
  at_ (detect_very_long_press_ ui') 3 = (held >? kLongPressDuration) /\
  at_ (detect_clear_settings_long_press_ ui') 3 = false.
Proof.
  intros Hwf Hj Hp Hr Ht Hv Hc held ui'. subst ui'.
  rewrite poll_switches_eq. unfold poll_switch. cbv zeta.
  rewrite Hj, Hp, Hr. cbn [andb]. change (Z.to_nat 3) with 3%nat.
  rewrite (proj2 (Z.eqb_neq _ _) Ht), Hv, Hc. cbn [negb andb]. fold held.
  assert (Hl : length (detect_very_long_press_ ui) = 4%nat) by apply Hwf.
  destruct (held >? kLongPressDuration).
  - cbn [queue_ press_time_ detect_very_long_press_ detect_clear_settings_long_press_
         set_detect_very_long_press AddEvent set_queue].
    rewrite at_upd_eq by lia. repeat split; try reflexivity; exact Hc.
  - rewrite app_nil_r. repeat split; assumption.
Qed.

(** X12. When the select button comes up after a press on which no long
    press was reported, [Poll] puts one switch event in the queue, ahead of
    the pot events: a release whose datum is the time the button was down
    plus 1 ms; and it clears the press time. *)
Theorem short_press_emits_on_release inp ui :
  Ui_wf ui ->
  just_pressed inp 3 = false -> pressed inp 3 = false -> released inp 3 = true ->
  at_ (press_time_ ui) 3 <> 0 ->
  at_ (detect_very_long_press_ ui) 3 = false ->
  at_ (detect_clear_settings_long_press_ ui) 3 = false ->
  let d := s32 (u32 (milliseconds inp - at_ (press_time_ ui) 3 + 1)) in
  emitted inp ui =
    release_event d
    :: pot_events_upto (potMoveThreshold (mode_ ui)) ui (pot inp) 4 /\
  at_ (press_time_ (Poll inp ui)) 3 = 0.
Proof.
  intros Hwf Hj Hp Hr Ht Hv Hc d. subst d.
  destruct (poll_switch_release inp ui Hwf Hj Hp Hr) as (Q & T).
  rewrite (proj2 (Z.eqb_neq _ _) Ht), Hv, Hc in Q, T. cbn [orb] in Q, T.
  split.
  - apply (emitted_split inp ui _ Hwf Q).
  - destruct (Poll_switch_state inp ui) as (-> & _). exact T.
Qed.

(** X13. While the select button is held and no long press was reported yet,
    the call of [Poll] on which the time held exceeds 500 ms reports it
    once, with that time as its datum; when the button then comes up, the
    next call of [Poll] reports no switch event, so that a long press is not
    followed by the action of a short one. *)
Theorem long_press_release_is_silent ui inp1 inp2 :
  Ui_wf ui ->
  at_ (press_time_ ui) 3 <> 0 ->
  at_ (detect_very_long_press_ ui) 3 = false ->
  at_ (detect_clear_settings_long_press_ ui) 3 = false ->
  just_pressed inp1 3 = false -> pressed inp1 3 = true -> released inp1 3 = false ->
  just_pressed inp2 3 = false -> pressed inp2 3 = false -> released inp2 3 = true ->
  let held := s32 (u32 (milliseconds inp1 - at_ (press_time_ ui) 3)) in
  held > kLongPressDuration ->
  let ui1 := Poll inp1 ui in
  emitted inp1 ui =
    release_event held
    :: pot_events_upto (potMoveThreshold (mode_ ui)) ui (pot inp1) 4 /\
  forall e, In e (emitted inp2 ui1) -> control_type e = CONTROL_POT.
Proof.
  intros Hwf Ht Hv Hc Hj1 Hp1 Hr1 Hj2 Hp2 Hr2 held Hh ui1.
  destruct (poll_switch_hold inp1 ui Hwf Hj1 Hp1 Hr1 Ht Hv Hc) as (Q1 & T1 & V1 & C1).
  assert (Hg : (s32 (u32 (milliseconds inp1 - at_ (press_time_ ui) 3))
                >? kLongPressDuration) = true) by (apply Z.gtb_lt; subst held; lia).
  rewrite Hg in Q1, V1. clear Hg Hh. subst held.
  split; [apply (emitted_split inp1 ui _ Hwf Q1)|].
  pose proof (Poll_wf inp1 ui Hwf) as Hwf1.
  destruct (Poll_switch_state inp1 ui) as (Pt & Pv & Pc).
  subst ui1. revert Hwf1 Pt Pv Pc. generalize (Poll inp1 ui). intros u1 Hwf1 Pt Pv Pc.
  destruct (poll_switch_release inp2 u1 Hwf1 Hj2 Hp2 Hr2) as (Q2 & _).
  rewrite Pv, V1 in Q2. rewrite orb_true_r in Q2. cbn [orb] in Q2.
  intros e Hin. rewrite (emitted_split inp2 u1 _ Hwf1 Q2) in Hin.
  cbn [app] in Hin. apply pot_events_are_pots in Hin. exact Hin.
Qed.

(** *** The LEDs in normal mode *)

Lemma poll_frame_leds inp ui :
  exists u, Poll inp ui = paint u /\
            mode_ u = mode_ ui /\
            animation_counter_ u = animation_counter_ ui /\
            feat_mode_ u = feat_mode_ ui /\
            catchup_state_ u = catchup_state_ ui /\
            length (leds_ u) = length (leds_ ui).
Proof.
  exists (poll_pots inp (poll_switches inp ui)). split; [reflexivity|].
  destruct (poll_pots_frame inp (poll_switches inp ui)) as (A & M).
  destruct (poll_switches_effect inp ui) as (sw & _ & _ & _ & _ & Hm).
  rewrite A, M, Hm. split; [reflexivity|].
  rewrite poll_switches_eq.
  split; [apply poll_switch_frame|].
  assert (P : forall v,
            feat_mode_ (poll_pots inp v) = feat_mode_ v /\
            catchup_state_ (poll_pots inp v) = catchup_state_ v /\
            leds_ (poll_pots inp v) = leds_ v).
  { intros v. unfold poll_pots. cbv zeta.
    repeat split; apply for__frame; intros i x; unfold poll_pot; cbv zeta; ui_frame. }
  destruct (P (poll_switch inp 3 ui)) as (-> & -> & ->).
  unfold poll_switch. cbv zeta. repeat split; ui_frame.
Qed.

Lemma paint_normal_leds u i :
  length (leds_ u) = 4%nat ->
  mode_ u = UI_MODE_NORMAL ->
  (i < 4)%nat ->
  let ac := s32 (animation_counter_ u + 1) in
  let flash := bit_set ac 64 && bit_set ac 32 && bit_set ac 16 in
  let sel := Z.of_nat i =? FeatureMode_to_Z (feat_mode_ u) in
  at_ (leds_ (paint u)) i = if at_ (catchup_state_ u) i then xorb sel flash else sel.
Proof.
  intros Hl Hm Hi ac flash sel. subst sel.
  unfold paint. rewrite Hm. cbv zeta. fold ac. fold flash. clearbody flash. clearbody ac.
  change kNumLeds with 4%nat. rewrite !for__S. unfold for_. cbn [seq fold_left].
  set (u0 := set_animation_counter _ u).
  assert (H0 : length (leds_ u0) = 4%nat) by exact Hl.
  assert (C0 : catchup_state_ u0 = catchup_state_ u) by reflexivity.
  assert (F0 : feat_mode_ u0 = feat_mode_ u) by reflexivity.
  clearbody u0. rewrite <- C0, <- F0. clear C0 F0 Hl Hm u.
  assert (St : forall k v,
            let v' := (if at_ (catchup_state_ v) k
                       then set_led k (if Z.of_nat k =? FeatureMode_to_Z (feat_mode_ v)
                                       then negb flash else flash) v
                       else set_led k (Z.of_nat k =? FeatureMode_to_Z (feat_mode_ v)) v) in
            (k < length (leds_ v))%nat ->
            catchup_state_ v' = catchup_state_ v /\
            feat_mode_ v' = feat_mode_ v /\
            length (leds_ v') = length (leds_ v) /\
            (forall j, j <> k -> at_ (leds_ v') j = at_ (leds_ v) j) /\
            at_ (leds_ v') k =
              (if at_ (catchup_state_ v) k
               then xorb (Z.of_nat k =? FeatureMode_to_Z (feat_mode_ v)) flash
               else Z.of_nat k =? FeatureMode_to_Z (feat_mode_ v))).
  { intros k v v' Hk. subst v'.
    destruct (at_ (catchup_state_ v) k);
      unfold set_led; cbn [catchup_state_ feat_mode_ leds_ set_leds];
      rewrite length_upd, at_upd_eq by exact Hk;
      (split; [reflexivity|]); (split; [reflexivity|]); (split; [reflexivity|]);
      (split; [intros j Hj; apply at_upd_ne; congruence|]);
      destruct (Z.of_nat k =? FeatureMode_to_Z (feat_mode_ v)), flash; reflexivity. }
  destruct (St 0%nat u0) as (C1 & F1 & L1 & N1 & E1); [lia|].
  set (u1 := if at_ (catchup_state_ u0) 0 then _ else _) in *.
  destruct (St 1%nat u1) as (C2 & F2 & L2 & N2 & E2); [lia|].
  set (u2 := if at_ (catchup_state_ u1) 1 then _ else _) in *.
  destruct (St 2%nat u2) as (C3 & F3 & L3 & N3 & E3); [lia|].
  set (u3 := if at_ (catchup_state_ u2) 2 then _ else _) in *.
  destruct (St 3%nat u3) as (C4 & F4 & L4 & N4 & E4); [lia|].
  set (u4 := if at_ (catchup_state_ u3) 3 then _ else _) in *.
  clearbody u4. clearbody u3. clearbody u2. clearbody u1.
  destruct i as [|[|[|[|?]]]]; try lia.
  - rewrite N4, N3, N2, E1 by lia. reflexivity.
  - rewrite N4, N3, E2 by lia. rewrite C1, F1. reflexivity.
  - rewrite N4, E3 by lia. rewrite C2, C1, F2, F1. reflexivity.
  - rewrite E4. rewrite C3, C2, C1, F3, F2, F1. reflexivity.
Qed.

(** X14. In Normal the LED of a channel that is not in catch-up is lit after
    [Poll] exactly when the channel is the one of the feature mode; for a
    channel in catch-up that value is inverted while bits 4, 5 and 6 of the
    incremented animation counter are all set. Nothing of it depends on what
    the call reads. *)
Theorem normal_mode_leds inp ui i :
  Ui_wf ui ->
  mode_ ui = UI_MODE_NORMAL ->
  (i < 4)%nat ->
  let ac := s32 (animation_counter_ ui + 1) in
  let flash := bit_set ac 64 && bit_set ac 32 && bit_set ac 16 in
  let sel := Z.of_nat i =? FeatureMode_to_Z (feat_mode_ ui) in
  at_ (leds_ (Poll inp ui)) i =
    (if at_ (catchup_state_ ui) i then xorb sel flash else sel) /\
  (at_ (catchup_state_ ui) i = false ->
   (at_ (leds_ (Poll inp ui)) i = true <->
    Z.of_nat i = FeatureMode_to_Z (feat_mode_ ui))).
Proof.
  intros Hwf Hm Hi ac flash sel.
  destruct (poll_frame_leds inp ui) as (u & -> & Mu & Au & Fu & Cu & Lu).
  assert (Hl : length (leds_ u) = 4%nat) by (rewrite Lu; apply Hwf).
  rewrite Hm in Mu.
  pose proof (paint_normal_leds u i Hl Mu Hi) as E. cbv zeta in E.
  rewrite Au, Fu, Cu in E. fold ac in E. fold flash in E. fold sel in E.
  split; [exact E|].
  intros Hc. rewrite E, Hc. subst sel. apply Z.eqb_eq.
Qed.

(** ** The processor *)

Lemma s16_id x : -32768 <= x <= 32767 -> s16 x = x.
Proof. intros Hx. unfold s16. rewrite Z.mod_small; lia. Qed.

Lemma CONSTRAIN_id x lo hi : lo <= x <= hi -> CONSTRAIN x lo hi = x.
Proof.
  intros Hx. unfold CONSTRAIN.
  destruct (Z.ltb_spec x lo); [lia|]. destruct (Z.gtb_spec x hi); [lia|reflexivity].
Qed.

Lemma s16_range x : -32768 <= s16 x <= 32767.
Proof. unfold s16. pose proof (Z.mod_pos_bound (x + 32768) 65536). lia. Qed.

Section ProcessMore.
Context `{Deps}.

(** *** The reset inputs *)

Lemma detect_reset_inv inp i p p' :
  detect_reset inp i p = Some p' ->
  filtered_cv_ p' = filtered_cv_ p /\ lfo_ p' = lfo_ p.
Proof.
  unfold detect_reset. cbv zeta.
  destruct (s16 (at_ (reset inp) i) <? kResetThresholdLow); pr_fields;
    match goal with
    | |- context [if ?c then _ else _] => destruct c
    end;
    try match goal with
    | |- context [if ?c then _ else _] => destruct c
    end;
    cbn [mbind option_bind]; intros E; try discriminate E;
    injection E as <-; split; reflexivity.
Qed.

(** X15. When a trigger fires on a channel from a state in which every armed
    channel last saw its reset input at or below the high threshold, the
    quotient exists and the sub-sample written lies within 0..31: 32 *
    (20000 - previous) / (reset - previous) with previous at most 20000 and
    reset above it. *)
Theorem reset_subsample_range inp i p :
  (i < 4)%nat -> Processor_wf p -> reset_inv p ->
  triggers inp p i = true ->
  exists p',
    detect_reset inp i p = Some p' /\
    at_ (reset_triggered_ p') i = true /\
    at_ (reset_subsample_ p') i =
      cdiv ((kResetThresholdHigh - at_ (previous_reset_ p) i) * 32)
           (reset_sample inp i - at_ (previous_reset_ p) i) /\
    0 <= at_ (reset_subsample_ p') i <= 31.
Proof.
  intros Hi Hwf Hinv Ht.
  pose proof (triggers_divisor inp p i Hinv Hi Ht) as Hd.
  unfold triggers, armed_now in Ht. apply andb_true_iff in Ht as [Hhigh Harm].
  unfold dist_to_next in Hd.
  assert (Hlow : (reset_sample inp i <? kResetThresholdLow) = false).
  { apply Z.gtb_lt in Hhigh. apply Z.ltb_ge.
    unfold kResetThresholdHigh, kResetThresholdLow in *. lia. }
  rewrite Hlow in Harm.
  pose proof (Hinv i Hi Harm) as Hp.
  assert (Hls : length (reset_subsample_ p) = 4%nat) by apply Hwf.
  assert (Hlt : length (reset_triggered_ p) = 4%nat) by apply Hwf.
  unfold detect_reset. cbv zeta. fold (reset_sample inp i).
  rewrite Hlow, Hhigh, Harm. cbn [andb]. pr_fields.
  destruct (Z.eqb_spec (reset_sample inp i - at_ (previous_reset_ p) i) 0); [lia|].
  cbn [mbind option_bind]. eexists. split; [reflexivity|]. pr_fields.
  rewrite !at_upd_eq by lia.
  split; [reflexivity|]. split; [reflexivity|].
  apply Z.gtb_lt in Hhigh. unfold cdiv.
  split; [apply Z.quot_pos; lia|].
  assert (Z.quot ((kResetThresholdHigh - at_ (previous_reset_ p) i) * 32)
            (reset_sample inp i - at_ (previous_reset_ p) i) < 32); [|lia].
  apply Z.quot_lt_upper_bound; lia.
Qed.

(** *** The filter of the CV inputs *)

(** X16. The filter of the CV inputs, f + ((cv - f) >> 6), never overshoots:
    with cv at or above f the new value lies between f and cv and equals f
    exactly when cv - f is below 64; with cv below f it is below f and not
    below cv. *)
Theorem cv_filter_settles ui inp i p p' :
  (i < 4)%nat -> Processor_wf p ->
  read_channel ui inp i p = Some p' ->
  let f := at_ (filtered_cv_ p) i in
  let c := at_ (cv inp) i in
  let f' := at_ (filtered_cv_ p') i in
  f' = f + asr (c - f) 6 /\
  (f <= c -> f <= f' <= c /\ (f' = f <-> c - f < 64)) /\
  (c < f -> c <= f' < f).
Proof.
  intros Hi Hwf E f c f'.
  assert (Hl : length (filtered_cv_ p) = 4%nat) by apply Hwf.
  assert (Ef : f' = f + asr (c - f) 6).
  { subst f'. unfold read_channel in E. cbv zeta in E.
    apply detect_reset_inv in E as (-> & _).
    destruct (negb (bool_decide (feat_mode_ ui = FEAT_MODE_QUAD)));
      pr_fields; rewrite at_upd_eq by lia; reflexivity. }
  split; [exact Ef|]. rewrite Ef. clear Ef E. unfold asr.
  rewrite Z.shiftr_div_pow2 by lia. change (2 ^ 6) with 64.
  generalize dependent c. generalize dependent f. clear. intros f c.
  pose proof (Z.div_mod (c - f) 64 ltac:(lia)).
  pose proof (Z.mod_pos_bound (c - f) 64 ltac:(lia)).
  repeat split; intros; lia.
Qed.

(** *** The change of feature mode *)

Lemma Processor_Init_effect p :
  Processor_wf p ->
  let p' := Processor_Init p in
  Processor_wf p' /\
  previous_feat_mode_ p' = FEAT_MODE_LAST /\
  waveform_offset_ p' = 0 /\
  lfo_ p' = lfo_ p /\
  forall i, (i < 4)%nat ->
    at_ (reset_trigger_armed_ p') i = false /\ at_ (last_reset_ p') i = 0.
Proof.
  intros Hwf. destruct p. unfold Processor_wf in *. pr_fields_all.
  split_ands. len4. cbv zeta.
  repeat split; try reflexivity;
  match goal with
  | H : (?k < 4)%nat |- _ => destruct k as [|[|[|[|]]]]; try lia; reflexivity
  end.
Qed.

(** X17. After the check of the feature mode at the head of [Process] the
    processor remembers the feature mode of the interface, and running the
    check again changes nothing. When the feature mode is the one remembered
    the check is the identity; when it differs every oscillator is
    initialised and the waveform offset is 0. *)
Theorem mode_changed_once ui p :
  Processor_wf p ->
  let p' := mode_changed ui p in
  previous_feat_mode_ p' = feat_mode_ ui /\
  mode_changed ui p' = p' /\
  (feat_mode_ ui = previous_feat_mode_ p -> p' = p) /\
  (feat_mode_ ui <> previous_feat_mode_ p ->
   waveform_offset_ p' = 0 /\
   forall i, (i < 4)%nat -> at_ (lfo_ p') i = call_Init :: at_ (lfo_ p) i).
Proof.
  intros Hwf p'.
  assert (Hp : previous_feat_mode_ p' = feat_mode_ ui).
  { apply (mode_changed_effect ui p Hwf). }
  split; [exact Hp|].
  split.
  { unfold mode_changed at 1. rewrite Hp.
    rewrite bool_decide_eq_true_2 by reflexivity. reflexivity. }
  subst p'. unfold mode_changed.
  split; intros Hc.
  - rewrite bool_decide_eq_true_2 by exact Hc. reflexivity.
  - rewrite bool_decide_eq_false_2 by exact Hc. cbn [negb]. cbv zeta.
    split; [reflexivity|].
    intros i Hi. destruct p. unfold Processor_wf in Hwf. pr_fields_all.
    split_ands. len4.
    destruct i as [|[|[|[|]]]]; try lia; reflexivity.
Qed.

(** *** Free mode *)

Lemma reset_inv_Init p : Processor_wf p -> reset_inv (Processor_Init p).
Proof.
  intros Hwf i Hi Ha.
  destruct (Processor_Init_effect p Hwf) as (_ & _ & _ & _ & Hz).
  destruct (Hz i Hi) as (Hf & _). rewrite Hf in Ha. discriminate Ha.
Qed.

Lemma free_run ticks : forall p,
  Processor_wf p -> reset_inv p -> free_ticks ticks ->
  exists p', run ticks p = Some p' /\ Processor_wf p' /\ reset_inv p'.
Proof.
  induction ticks as [|[ui inp] ticks IH]; intros p Hwf Hinv Hft.
  - exists p. split; [reflexivity|]. split; assumption.
  - inversion Hft as [|? ? Hhd Hrest]; subst. cbn [fst] in Hhd.
    cbn [run].
    destruct (decide (mode_ ui = UI_MODE_SPLASH)) as [Hs|Hs].
    + rewrite (Process_splash ui inp p Hs). cbn [mbind option_bind].
      apply IH; assumption.
    + destruct Hhd as [Hhd|Hfree]; [contradiction|].
      destruct (free_mode_divisor_nonzero ui inp p Hwf Hinv Hs Hfree)
        as (_ & p1 & E & Hwf1 & Hinv1).
      rewrite E. cbn [mbind option_bind]. apply IH; assumption.
Qed.

(** X18. From [Processor::Init], every run of ticks that are in free mode
    (or skipped for the splash) runs to its end: no tick divides by zero,
    and after each of them every armed channel last saw its reset input at
    or below the high threshold. *)
Theorem free_mode_never_divides_by_zero ticks p :
  Processor_wf p ->
  free_ticks ticks ->
  exists p',
    run ticks (Processor_Init p) = Some p' /\ Processor_wf p' /\ reset_inv p'.
Proof.
  intros Hwf Hft. apply free_run; [|apply reset_inv_Init; exact Hwf|exact Hft].
  apply (Processor_Init_effect p Hwf).
Qed.

(** *** The outputs outside quad mode *)

Lemma output_channel_plain ui shapes i p m :
  feat_mode_ ui <> FEAT_MODE_QUAD ->
  (i < length (lfo_ p))%nat ->
  output_channel ui shapes i (p, m) =
    (set_dac (upd (dac_ p) i
                {| dac_sine := ComputeSampleShape (stepped p i) SHAPE_SINE;
                   dac_asgn := ComputeSampleShape (stepped p i) (at_ shapes i) |})
             (lfo_call i call_Step p),
     mix_add {| sample1 := 0; sample2 := 0; gain := 0 |} (stepped p i) (at_ shapes i)).
Proof.
  intros Hq Hi. unfold output_channel.
  rewrite (bool_decide_eq_false_2 (feat_mode_ ui = FEAT_MODE_QUAD) Hq).
  cbn [negb]. rewrite (at_lfo_call_eq i call_Step p Hi). reflexivity.
Qed.

(** X19. Outside quad mode nothing is mixed: after the output loop every
    oscillator has been stepped once, and the two samples written for a
    channel are the sine and the selected shape of that oscillator alone. *)
Theorem output_outside_quad ui shapes p :
  Processor_wf p ->
  feat_mode_ ui <> FEAT_MODE_QUAD ->
  let p' := fst (output_stage ui shapes p) in
  forall i, (i < 4)%nat ->
    at_ (lfo_ p') i = stepped p i /\
    at_ (dac_ p') i =
      {| dac_sine := ComputeSampleShape (stepped p i) SHAPE_SINE;
         dac_asgn := ComputeSampleShape (stepped p i) (at_ shapes i) |}.
Proof.
  intros Hwf Hq p' i Hi.
  split; [apply (output_stage_effect ui shapes p Hwf); exact Hi|].
  subst p'. rewrite output_stage_unroll.
  assert (Hl : length (lfo_ p) = 4%nat) by apply Hwf.
  assert (Hd : length (dac_ p) = 4%nat) by apply Hwf.
  rewrite (output_channel_plain ui shapes 3 p _ Hq) by lia.
  rewrite (output_channel_plain ui shapes 2 _ _ Hq)
    by (pr_fields; rewrite length_upd; lia).
  rewrite (output_channel_plain ui shapes 1 _ _ Hq)
    by (pr_fields; rewrite !length_upd; lia).
  rewrite (output_channel_plain ui shapes 0 _ _ Hq)
    by (pr_fields; rewrite !length_upd; lia).
  cbn [fst]. unfold stepped. pr_fields.
  destruct i as [|[|[|[|?]]]]; try lia;
    rewrite ?at_upd_ne by lia;
    rewrite at_upd_eq by (rewrite ?length_upd; lia);
    repeat rewrite at_upd_ne by lia;
    reflexivity.
Qed.

(** *** The frequency of an oscillator *)

Ltac lfo_log Hl :=
  pr_fields;
  repeat (rewrite at_upd_eq by (pr_fields; rewrite ?length_upd; rewrite Hl; lia);
          pr_fields).

(** X20. In sync mode [SetFrequency] gives the oscillator a multiplier and a
    divider of which at least one is 1 and both lie within 1..9: for a
    positive attenuated CV the multiplier is cv * 8 / 32767 + 1 and the
    divider 1, otherwise the multiplier is 1 and the divider -cv * 8 / 32767
    + 1. *)
Theorem SetFrequency_sync_ratio ui inp n p :
  Processor_wf p -> (n < 4)%nat ->
  sync_mode inp = true ->
  let cv := attenuated_cv ui p n in
  let l := at_ (lfo_ (SetFrequency ui inp n p)) n in
  exists m d,
    multiplier_of l = Some m /\ divider_of l = Some d /\
    (m, d) = (if cv >? 0 then (cdiv (cv * 8) 32767 + 1, 1)
              else (1, cdiv (- cv * 8) 32767 + 1)) /\
    1 <= m <= 9 /\ 1 <= d <= 9 /\ (m = 1 \/ d = 1).
Proof.
  intros Hwf Hn Hsync cv l.
  assert (Hl : length (lfo_ p) = 4%nat) by apply Hwf.
  pose proof (s16_range (asr (at_ (filtered_cv_ p) n * atten ui n) 16)) as Hcv.
  fold (attenuated_cv ui p n) in Hcv. fold cv in Hcv.
  subst l. unfold SetFrequency. cbv zeta.
  fold (attenuated_cv ui p n). fold cv. rewrite Hsync.
  destruct (Z.gtb_spec cv 0) as [Hpos|Hneg].
  - exists (cdiv (cv * 8) 32767 + 1), 1.
    split; [|split; [|split; [reflexivity|]]].
    + split_ifs; lfo_log Hl; reflexivity.
    + split_ifs; lfo_log Hl; reflexivity.
    + unfold cdiv.
      assert (0 <= Z.quot (cv * 8) 32767) by (apply Z.quot_pos; lia).
      assert (Z.quot (cv * 8) 32767 <= 8) by (apply Z.quot_le_upper_bound; lia).
      lia.
  - exists 1, (cdiv (- cv * 8) 32767 + 1).
    split; [|split; [|split; [reflexivity|]]].
    + split_ifs; lfo_log Hl; reflexivity.
    + split_ifs; lfo_log Hl; reflexivity.
    + unfold cdiv.
      assert (0 <= Z.quot (- cv * 8) 32767) by (apply Z.quot_pos; lia).
      assert (Z.quot (- cv * 8) 32767 < 9) by (apply Z.quot_lt_upper_bound; lia).
      lia.
Qed.

(** X21. A synced oscillator keeps its pitch while the coarse pot stays less
    than 1638 (32767 / 20) away from where it was when the pitch was last
    set: [SetFrequency] then sets no pitch and the channel stays synced.
    Once the pot is 1638 or more away, the pitch is set from the pots and
    the attenuated CV, the coarse value is remembered and the channel is no
    longer synced. *)
Theorem synced_pitch_hysteresis ui inp n p :
  Processor_wf p -> (n < 4)%nat ->
  at_ (synced_ p) n = true ->
  let p' := SetFrequency ui inp n p in
  let d := coarse ui n - at_ (last_coarse_ p) n in
  kUnsyncPotThreshold = 1638 /\
  (Z.abs d < kUnsyncPotThreshold ->
   at_ (synced_ p') n = true /\
   at_ (last_coarse_ p') n = at_ (last_coarse_ p) n /\
   pitch_of (at_ (lfo_ p') n) = pitch_of (at_ (lfo_ p) n)) /\
  (Z.abs d >= kUnsyncPotThreshold ->
   at_ (synced_ p') n = false /\
   at_ (last_coarse_ p') n = coarse ui n /\
   pitch_of (at_ (lfo_ p') n) =
     Some (AdcValuesToPitch (coarse ui n) (fine ui n) (attenuated_cv ui p n))).
Proof.
  intros Hwf Hn Hs p' d.
  assert (Hl : length (lfo_ p) = 4%nat) by apply Hwf.
  assert (Hls : length (synced_ p) = 4%nat) by apply Hwf.
  assert (Hlc : length (last_coarse_ p) = 4%nat) by apply Hwf.
  assert (Hthr : kUnsyncPotThreshold = 1638) by reflexivity.
  split; [exact Hthr|]. rewrite Hthr.
  subst p' d. unfold SetFrequency. cbv zeta.
  fold (attenuated_cv ui p n). rewrite Hthr.
  set (c := coarse ui n). set (lc := at_ (last_coarse_ p) n).
  destruct (sync_mode inp);
    [destruct (attenuated_cv ui p n >? 0)|];
    pr_fields;
    (destruct (at_ (reset_triggered_ p) n); pr_fields;
     rewrite ?at_upd_eq by lia; rewrite ?Hs; fold lc; cbn [negb orb];
     destruct (Z.geb_spec c (lc + 1638)); destruct (Z.leb_spec c (lc - 1638));
     cbn [orb]; (split; intros Hd; [try lia|try lia]);
     lfo_log Hl; rewrite ?at_upd_eq by (rewrite ?length_upd; lia);
     rewrite ?Hs; fold lc; repeat split; reflexivity).
Qed.

(** *** The linked modes *)

Lemma at_lfo_call_ne i j c p :
  i <> j -> at_ (lfo_ (lfo_call i c p)) j = at_ (lfo_ p) j.
Proof. intros Hij. unfold lfo_call. pr_fields. apply at_upd_ne. exact Hij. Qed.

Lemma length_lfo_call i c p : length (lfo_ (lfo_call i c p)) = length (lfo_ p).
Proof. unfold lfo_call. pr_fields. apply length_upd. Qed.

Ltac lfo_steps Hl :=
  repeat first
    [ rewrite at_lfo_call_ne by lia
    | rewrite at_lfo_call_eq by (rewrite ?length_lfo_call; rewrite Hl; lia) ].

Lemma pot_divider_range v :
  0 <= v <= 65535 ->
  0 <= asr (7 * (65535 - v)) 16 <= 6 /\ (v = 65535 -> asr (7 * (65535 - v)) 16 = 0).
Proof.
  intros Hv. unfold asr. rewrite Z.shiftr_div_pow2 by lia. change (2 ^ 16) with 65536.
  split; [split|].
  - apply Z.div_pos; lia.
  - assert (7 * (65535 - v) / 65536 < 7) by (apply Z.div_lt_upper_bound; lia). lia.
  - intros ->. reflexivity.
Qed.

Lemma mode_quad_log ui inp p i :
  Processor_wf p -> (1 <= i < 4)%nat ->
  exists lvl,
    at_ (lfo_ (mode_quad ui inp p)) i =
      call_set_initial_phase (phase ui i)
      :: call_set_divider
           (CONSTRAIN (s16 (s16 (asr (7 * (65535 - level ui i)) 16)
                            + (Z.of_nat i + 1))) 1 16)
      :: call_link_to 0 :: call_set_level lvl :: at_ (lfo_ p) i.
Proof.
  intros Hwf Hi. unfold mode_quad. cbv zeta.
  destruct (SetFrequency_effect ui inp 0 p Hwf) as (Hwf1 & _ & _ & Hl1 & _).
  set (p1 := SetFrequency ui inp 0 p) in *.
  pose proof (lfo_call_wf 0 (call_set_initial_phase (phase ui 0)) p1 Hwf1) as Hwf1'.
  assert (Hl1' : at_ (lfo_ (lfo_call 0 (call_set_initial_phase (phase ui 0)) p1)) i
                 = at_ (lfo_ p) i).
  { pr_fields. rewrite at_upd_ne by lia. apply Hl1. lia. }
  set (p1' := lfo_call 0 (call_set_initial_phase (phase ui 0)) p1) in *.
  destruct (master_controls_effect p1' Hwf1') as (Hwf2 & _ & Hl2 & _).
  set (p2 := master_controls p1') in *.
  pose proof (lfo_call_wf 0 (call_set_level (AdcValuesToLevel (level ui 0) 0 0)) p2 Hwf2)
    as Hwf3.
  assert (Hl3 : at_ (lfo_ (lfo_call 0 (call_set_level (AdcValuesToLevel (level ui 0) 0 0))
                             p2)) i = at_ (lfo_ p) i).
  { pr_fields. rewrite at_upd_ne by lia. rewrite Hl2 by lia. exact Hl1'. }
  set (p3 := lfo_call 0 (call_set_level (AdcValuesToLevel (level ui 0) 0 0)) p2) in *.
  rewrite for_linked_unroll. cbv beta zeta.
  assert (Hl : length (lfo_ p3) = 4%nat) by apply Hwf3.
  rewrite <- Hl3. clearbody p3. clear - Hl Hi.
  destruct i as [|[|[|[|?]]]]; try lia; eexists; lfo_steps Hl; reflexivity.
Qed.

(** X22. In quad mode each of the channels 1, 2, 3 is linked to channel 0,
    gets its phase pot as initial phase and the divider ((7 * (65535 -
    level)) >> 16) + i + 1, which lies within i + 1..i + 7, so that the
    clamp to 1..16 never acts; with the level pot at its maximum the divider
    is i + 1. *)
Theorem quad_mode_dividers ui inp p i :
  Processor_wf p -> (1 <= i < 4)%nat ->
  0 <= level ui i <= 65535 ->
  let l := at_ (lfo_ (mode_quad ui inp p)) i in
  let d := asr (7 * (65535 - level ui i)) 16 + Z.of_nat i + 1 in
  linked_to l = Some 0%nat /\
  initial_phase_of l = Some (phase ui i) /\
  divider_of l = Some d /\
  Z.of_nat i + 1 <= d <= Z.of_nat i + 7 /\
  (level ui i = 65535 -> d = Z.of_nat i + 1).
Proof.
  intros Hwf Hi Hlv l d.
  destruct (mode_quad_log ui inp p i Hwf Hi) as (lvl & E).
  destruct (pot_divider_range (level ui i) Hlv) as (Hr & Hmax).
  subst l. rewrite E. cbn [linked_to initial_phase_of divider_of].
  split; [reflexivity|]. split; [reflexivity|].
  split.
  { f_equal. rewrite (s16_id (asr _ 16)) by lia.
    rewrite s16_id by lia. rewrite CONSTRAIN_id by lia. subst d. lia. }
  subst d. split; [lia|]. intros E'. rewrite (Hmax E'). lia.
Qed.

Lemma SetFrequency_filtered_cv ui inp n p :
  filtered_cv_ (SetFrequency ui inp n p) = filtered_cv_ p /\
  reset_triggered_ (SetFrequency ui inp n p) = reset_triggered_ p /\
  reset_subsample_ (SetFrequency ui inp n p) = reset_subsample_ p.
Proof. unfold SetFrequency. cbv zeta. repeat split; split_ifs; reflexivity. Qed.

Lemma master_controls_filtered_cv p :
  filtered_cv_ (master_controls p) = filtered_cv_ p /\
  reset_triggered_ (master_controls p) = reset_triggered_ p /\
  reset_subsample_ (master_controls p) = reset_subsample_ p.
Proof. unfold master_controls. cbv zeta. repeat split; split_ifs; reflexivity. Qed.

Lemma mode_phase_log ui inp p i :
  Processor_wf p -> (1 <= i < 4)%nat ->
  (coarse ui 1 >? UINT16_MAX - 256) && (coarse ui 2 >? UINT16_MAX - 256)
    && (coarse ui 3 >? UINT16_MAX - 256) = false ->
  at_ (lfo_ (mode_phase ui inp p)) i =
    call_set_divider (CONSTRAIN (s16 (asr (7 * (65535 - phase ui i)) 16)) 1 16)
    :: call_set_initial_phase
         (AdcValuesToPhase (coarse ui i) (fine ui i) (attenuated_cv ui p i))
    :: call_link_to 0 :: at_ (lfo_ p) i.
Proof.
  intros Hwf Hi Hc. unfold mode_phase. cbv zeta. rewrite Hc.
  destruct (SetFrequency_effect ui inp 0 p Hwf) as (Hwf1 & _ & _ & Hl1 & _).
  destruct (SetFrequency_filtered_cv ui inp 0 p) as (Hf1 & _).
  set (p1 := SetFrequency ui inp 0 p) in *.
  destruct (master_controls_effect p1 Hwf1) as (Hwf2 & _ & Hl2 & _).
  destruct (master_controls_filtered_cv p1) as (Hf2 & _).
  set (p2 := master_controls p1) in *.
  rewrite for_linked_unroll. cbv beta zeta.
  assert (Hl : length (lfo_ p2) = 4%nat) by apply Hwf2.
  assert (Hs : at_ (lfo_ p2) i = at_ (lfo_ p) i).
  { rewrite Hl2 by lia. apply Hl1. lia. }
  assert (Hf : filtered_cv_ p2 = filtered_cv_ p) by congruence.
  unfold attenuated_cv. rewrite <- Hs, <- Hf. clearbody p2. clear - Hl Hi.
  destruct i as [|[|[|[|?]]]]; try lia; lfo_steps Hl; reflexivity.
Qed.

(** X23. In phase mode, unless the coarse pots of channels 1, 2 and 3 are
    all above 65535 - 256, each of these channels is linked to channel 0,
    gets the initial phase [AdcValuesToPhase] computes from its coarse and
    fine pots and its attenuated CV, and the divider (7 * (65535 - phase))
    >> 16 raised to 1 when it is 0: a value within 1..6, and 1 with the
    phase pot at its maximum. *)
Theorem phase_mode_dividers ui inp p i :
  Processor_wf p -> (1 <= i < 4)%nat ->
  coarse ui 1 <= UINT16_MAX - 256 \/ coarse ui 2 <= UINT16_MAX - 256 \/
    coarse ui 3 <= UINT16_MAX - 256 ->
  0 <= phase ui i <= 65535 ->
  let l := at_ (lfo_ (mode_phase ui inp p)) i in
  let d := Z.max 1 (asr (7 * (65535 - phase ui i)) 16) in
  linked_to l = Some 0%nat /\
  initial_phase_of l =
    Some (AdcValuesToPhase (coarse ui i) (fine ui i) (attenuated_cv ui p i)) /\
  divider_of l = Some d /\
  1 <= d <= 6 /\
  (phase ui i = 65535 -> d = 1).
Proof.
  intros Hwf Hi Hc Hph l d.
  assert (Hb : (coarse ui 1 >? UINT16_MAX - 256) && (coarse ui 2 >? UINT16_MAX - 256)
                 && (coarse ui 3 >? UINT16_MAX - 256) = false).
  { destruct (Z.gtb_spec (coarse ui 1) (UINT16_MAX - 256));
      destruct (Z.gtb_spec (coarse ui 2) (UINT16_MAX - 256));
      destruct (Z.gtb_spec (coarse ui 3) (UINT16_MAX - 256)); try reflexivity; lia. }
  destruct (pot_divider_range (phase ui i) Hph) as (Hr & Hmax).
  subst l. rewrite (mode_phase_log ui inp p i Hwf Hi Hb).
  cbn [linked_to initial_phase_of divider_of].
  split; [reflexivity|]. split; [reflexivity|].
  split.
  { f_equal. rewrite s16_id by lia. subst d. unfold CONSTRAIN.
    destruct (Z.ltb_spec (asr (7 * (65535 - phase ui i)) 16) 1); [lia|].
    destruct (Z.gtb_spec (asr (7 * (65535 - phase ui i)) 16) 16); lia. }
  subst d. split; [lia|]. intros E'. rewrite (Hmax E'). reflexivity.
Qed.

Lemma mode_divide_unfold ui inp p :
  mode_divide ui inp p =
    for_linked (divide_channel ui inp)
      (master_controls
         (lfo_call 0 (call_set_initial_phase (phase ui 0)) (SetFrequency ui inp 0 p))).
Proof. reflexivity. Qed.

Lemma divide_channel_effect ui inp i q :
  (i < length (lfo_ q))%nat ->
  let q' := divide_channel ui inp i q in
  let r := AdcValuesToDividerMultiplier (coarse ui i) (fine ui i) (attenuated_cv ui q i) in
  length (lfo_ q') = length (lfo_ q) /\
  filtered_cv_ q' = filtered_cv_ q /\
  reset_triggered_ q' = reset_triggered_ q /\
  reset_subsample_ q' = reset_subsample_ q /\
  (forall j, j <> i -> at_ (lfo_ q') j = at_ (lfo_ q) j) /\
  at_ (lfo_ q') i =
    (if negb (sync_mode inp) && at_ (reset_triggered_ q) 0
     then [call_Reset (at_ (reset_subsample_ q) 0)] else [])
    ++ call_set_initial_phase (phase ui i)
    :: call_set_divider (if r >? 1 then r else 1)
    :: call_set_multiplier (if r <? -1 then - r else 1)
    :: call_link_to 0 :: at_ (lfo_ q) i.
Proof.
  intros Hi q' r. subst q'. unfold divide_channel. cbv zeta.
  change (filtered_cv_ (lfo_call i (call_link_to 0) q)) with (filtered_cv_ q).
  fold (attenuated_cv ui q i). fold r.
  destruct (Z.gtb_spec r 1); destruct (Z.ltb_spec r (-1)); try lia;
    (match goal with
     | |- context [if ?c then _ else _] =>
         change c with (negb (sync_mode inp) && at_ (reset_triggered_ q) 0);
         destruct (negb (sync_mode inp) && at_ (reset_triggered_ q) 0)
     end;
     (split; [rewrite ?length_lfo_call; reflexivity|]);
     (split; [reflexivity|]); (split; [reflexivity|]); (split; [reflexivity|]);
     (split; [intros j Hj; rewrite ?at_lfo_call_ne by congruence; reflexivity|]);
     repeat rewrite at_lfo_call_eq by (rewrite ?length_lfo_call; exact Hi);
     reflexivity).
Qed.

(** X24. In divide mode each of the channels 1, 2, 3 is linked to channel 0
    and gets its phase pot as initial phase. With r the result of
    [AdcValuesToDividerMultiplier], it divides by r when r > 1, multiplies
    by -r when r < -1 and runs at the rate of channel 0 otherwise: the
    multiplier and the divider lie within 1..64 and one of them is 1.
    Outside sync mode, a trigger on channel 0 resets the channel with the
    sub-sample of channel 0. *)
Theorem divide_mode_ratio ui inp p i :
  Processor_wf p -> (1 <= i < 4)%nat ->
  let l := at_ (lfo_ (mode_divide ui inp p)) i in
  let r := AdcValuesToDividerMultiplier (coarse ui i) (fine ui i) (attenuated_cv ui p i) in
  linked_to l = Some 0%nat /\
  initial_phase_of l = Some (phase ui i) /\
  (exists m d,
     multiplier_of l = Some m /\ divider_of l = Some d /\
     (m, d) = (if r >? 1 then (1, r) else if r <? -1 then (- r, 1) else (1, 1)) /\
     1 <= m <= 64 /\ 1 <= d <= 64 /\ (m = 1 \/ d = 1)) /\
  (sync_mode inp = false -> at_ (reset_triggered_ p) 0 = true ->
   exists older, l = call_Reset (at_ (reset_subsample_ p) 0) :: older).
Proof.
  intros Hwf Hi l r. subst l. rewrite mode_divide_unfold.
  destruct (SetFrequency_effect ui inp 0 p Hwf) as (Hwf1 & _ & _ & Hl1 & _).
  destruct (SetFrequency_filtered_cv ui inp 0 p) as (Hf1 & Ht1 & Hs1).
  set (p1 := SetFrequency ui inp 0 p) in *.
  pose proof (lfo_call_wf 0 (call_set_initial_phase (phase ui 0)) p1 Hwf1) as Hwf1'.
  assert (Hl1' : at_ (lfo_ (lfo_call 0 (call_set_initial_phase (phase ui 0)) p1)) i
                 = at_ (lfo_ p) i).
  { rewrite at_lfo_call_ne by lia. apply Hl1. lia. }
  set (p1' := lfo_call 0 (call_set_initial_phase (phase ui 0)) p1) in *.
  destruct (master_controls_effect p1' Hwf1') as (Hwf2 & _ & Hl2 & _).
  destruct (master_controls_filtered_cv p1') as (Hf2 & Ht2 & Hs2).
  set (p2 := master_controls p1') in *.
  assert (Hl : length (lfo_ p2) = 4%nat) by apply Hwf2.
  assert (Hs : at_ (lfo_ p2) i = at_ (lfo_ p) i).
  { rewrite Hl2 by lia. exact Hl1'. }
  assert (Hf : filtered_cv_ p2 = filtered_cv_ p).
  { rewrite Hf2. exact Hf1. }
  assert (Ht : reset_triggered_ p2 = reset_triggered_ p).
  { rewrite Ht2. exact Ht1. }
  assert (Hsub : reset_subsample_ p2 = reset_subsample_ p).
  { rewrite Hs2. exact Hs1. }
  clearbody p2. clear - Hl Hs Hf Ht Hsub Hi.
  rewrite for_linked_unroll.
  destruct (divide_channel_effect ui inp 1 p2) as (L1 & F1 & T1 & S1 & N1 & E1); [lia|].
  set (q1 := divide_channel ui inp 1 p2) in *.
  destruct (divide_channel_effect ui inp 2 q1) as (L2 & F2 & T2 & S2 & N2 & E2); [lia|].
  set (q2 := divide_channel ui inp 2 q1) in *.
  destruct (divide_channel_effect ui inp 3 q2) as (L3 & F3 & T3 & S3 & N3 & E3); [lia|].
  set (q3 := divide_channel ui inp 3 q2) in *.
  assert (E : at_ (lfo_ q3) i =
    (if negb (sync_mode inp) && at_ (reset_triggered_ p) 0
     then [call_Reset (at_ (reset_subsample_ p) 0)] else [])
    ++ call_set_initial_phase (phase ui i)
    :: call_set_divider (if r >? 1 then r else 1)
    :: call_set_multiplier (if r <? -1 then - r else 1)
    :: call_link_to 0 :: at_ (lfo_ p) i).
  { subst r. unfold attenuated_cv in *. rewrite <- Hs, <- Hf, <- Ht, <- Hsub.
    destruct i as [|[|[|[|?]]]]; try lia.
    - rewrite N3, N2 by lia. exact E1.
    - rewrite N3 by lia. rewrite E2, F1, T1, S1, N1 by lia. reflexivity.
    - rewrite E3, F2, F1, T2, T1, S2, S1, N2, N1 by lia. reflexivity. }
  rewrite E. clear - r.
  assert (Hr : -64 <= r <= -2 \/ 1 <= r <= 64).
  { subst r. unfold AdcValuesToDividerMultiplier. cbv zeta.
    match goal with
    | |- context [divide_multiply_clamp ?x] =>
        destruct (divide_multiply_clamp_range x) as (Hp & Hn);
        destruct (Z_lt_le_dec x (-1)) as [C|C];
        [apply Hn in C|apply Z.le_ge in C; apply Hp in C]; lia
    end. }
  split; [destruct (negb _ && _); reflexivity|].
  split; [destruct (negb _ && _); reflexivity|].
  split.
  - exists (if r <? -1 then - r else 1), (if r >? 1 then r else 1).
    split; [destruct (negb _ && _); reflexivity|].
    split; [destruct (negb _ && _); reflexivity|].
    destruct (Z.gtb_spec r 1); destruct (Z.ltb_spec r (-1)); try lia;
      (split; [reflexivity|lia]).
  - intros Hsy Htr. rewrite Hsy, Htr. cbn [negb andb app]. eexists. reflexivity.
Qed.

(** *** The shapes *)

(** X25. The shape of a channel depends on the waveform offset only through
    its remainder by 4, so four triggers on reset 4 bring every channel back
    to its shape. Outside quad mode a classic channel renders shape
    (switches + offset) mod 4 counted from the trapezoid, a random channel
    (index + offset) mod 4 counted from the random step. *)
Theorem channel_shape_mod4 ui inp p p' i :
  0 <= shape inp ->
  0 <= random_waveform_index ui i ->
  0 <= waveform_offset_ p -> 0 <= waveform_offset_ p' ->
  waveform_offset_ p' mod 4 = waveform_offset_ p mod 4 ->
  channel_shape ui inp p' i = channel_shape ui inp p i /\
  (bank ui i = BANK_CLASSIC -> feat_mode_ ui <> FEAT_MODE_QUAD ->
   channel_shape ui inp p i =
     (shape inp + waveform_offset_ p) mod 4 + u8 SHAPE_TRAPEZOID) /\
  (bank ui i = BANK_RANDOM -> feat_mode_ ui <> FEAT_MODE_QUAD ->
   channel_shape ui inp p i =
     (random_waveform_index ui i + waveform_offset_ p) mod 4 + u8 SHAPE_RANDOM_STEP).
Proof.
  intros Hs Hr Hw Hw' Hmod.
  assert (E : forall b, 0 <= b ->
            cmod (b + waveform_offset_ p') 4 = cmod (b + waveform_offset_ p) 4).
  { intros b Hb. unfold cmod. rewrite !Z.rem_mod_nonneg by lia.
    rewrite (Z.add_mod b (waveform_offset_ p')), (Z.add_mod b (waveform_offset_ p)) by lia.
    rewrite Hmod. reflexivity. }
  split; [|split].
  - unfold channel_shape.
    destruct (bank ui i); rewrite E by assumption; reflexivity.
  - intros Hb Hq. unfold channel_shape. rewrite Hb.
    rewrite (bool_decide_eq_false_2 _ Hq). cbn [andb].
    unfold cmod. rewrite Z.rem_mod_nonneg by lia. reflexivity.
  - intros Hb Hq. unfold channel_shape. rewrite Hb.
    rewrite (bool_decide_eq_false_2 _ Hq). cbn [andb].
    unfold cmod. rewrite Z.rem_mod_nonneg by lia. reflexivity.
Qed.

End ProcessMore.

(** ** On concrete inputs *)

Lemma lt4_cases (P : nat -> Prop) :
  P 0%nat -> P 1%nat -> P 2%nat -> P 3%nat -> forall i, (i < 4)%nat -> P i.
Proof.
  intros P0 P1 P2 P3 i Hi.
  destruct i as [|[|[|[|?]]]]; [exact P0|exact P1|exact P2|exact P3|].
  exfalso. apply (Nat.lt_irrefl 4). apply (Nat.le_lt_trans _ (4 + n)%nat); [|exact Hi].
  apply Nat.le_add_r.
Defined.

(** X1 on the interface in Normal and Quad: one release gives Phase, four
    give Quad again. *)
Lemma short_release_cycles_feature_mode_witness :
  feat_mode_ (short_release 100 ui_example) = FEAT_MODE_PHASE /\
  feat_mode_ (short_release 400
                (short_release 300 (short_release 200 (short_release 100 ui_example))))
  = FEAT_MODE_QUAD.
Proof.
  destruct (short_release_cycles_feature_mode ui_example 100 200 300 400 ui_example_wf)
    as (A & _ & _ & _ & _ & _ & _ & _ & _ & _ & _ & B);
    try reflexivity; try discriminate.
  split; [exact A|apply B; discriminate].
Defined.

(** X2 on pot 1 at 30000: random bank, index 1. *)
Lemma selectRandomWaveformFromPot_brackets_witness :
  at_ (bank_ (selectRandomWaveformFromPot 1 30000 ui_example)) 1 = BANK_RANDOM /\
  at_ (random_waveform_index_ (selectRandomWaveformFromPot 1 30000 ui_example)) 1 = 1.
Proof.
  destruct (selectRandomWaveformFromPot_brackets ui_example 1 30000 ui_example_wf)
    as (_ & _ & A & _).
  - split; [discriminate|reflexivity].
  - apply A. split; [discriminate|reflexivity].
Defined.

(** X4 on a pot event in Normal and Quad. *)
Lemma only_select_button_changes_modes_witness :
  mode_ (handle_event (pot_event 2 3500) ui_example) = UI_MODE_NORMAL /\
  feat_mode_ (handle_event (pot_event 2 3500) ui_example) = FEAT_MODE_QUAD.
Proof.
  destruct (only_select_button_changes_modes ui_example (pot_event 2 3500))
    as (A & B & _).
  - left. reflexivity.
  - split; [exact A|exact B].
Defined.

(** X5 on a release of 100 ms in Normal, which does change the feature mode. *)
Lemma feature_mode_changes_only_on_short_release_witness :
  mode_ ui_example = UI_MODE_NORMAL /\ data (release_event 100) <= kLongPressDuration.
Proof.
  destruct (feature_mode_changes_only_on_short_release ui_example (release_event 100))
    as (_ & _ & A & _ & B).
  - discriminate.
  - split; [exact A|exact B].
Defined.

(** X6 on the interface in Zoom with pot 2 moved. *)
Lemma gotoNormal_keeps_catchup_and_saves_witness :
  mode_ (gotoNormalModeWithCatchupAndSaving ui_zoom_moved) = UI_MODE_NORMAL /\
  storage (gotoNormalModeWithCatchupAndSaving ui_zoom_moved)
  = Some (settings_of ui_zoom_moved).
Proof.
  destruct (gotoNormal_keeps_catchup_and_saves ui_zoom_moved) as (A & _ & B & _).
  - repeat split; reflexivity.
  - split; [exact A|exact B].
Defined.

(** X7 on 256 calls of [Poll] and one more. *)
Lemma splash_lasts_256_polls_witness :
  mode_ (polls (replicate 256 poll_input_example) ui_splash) = UI_MODE_SPLASH /\
  mode_ (Poll poll_input_example (polls (replicate 256 poll_input_example) ui_splash))
  = UI_MODE_NORMAL.
Proof.
  destruct (splash_lasts_256_polls ui_splash (replicate 256 poll_input_example)
              poll_input_example) as (A & _ & B).
  - reflexivity.
  - reflexivity.
  - rewrite length_replicate. apply Nat.le_refl.
  - split; [exact A|apply B; apply length_replicate].
Defined.

(** X8 on a release of 2500 ms in Normal followed by 399 calls of [Poll]. *)
Lemma very_long_press_enters_random_waveform_select_witness :
  mode_ (Poll poll_input_example
           (polls (replicate 398 poll_input_example)
              (OnSwitchReleased (release_event 2500) ui_example)))
  = UI_MODE_RANDOM_WAVEFORM_SELECT.
Proof.
  destruct (very_long_press_enters_random_waveform_select ui_example 2500
              (replicate 398 poll_input_example) poll_input_example)
    as (_ & _ & _ & B).
  - discriminate.
  - split; [reflexivity|discriminate].
  - rewrite length_replicate. apply Nat.le_refl.
  - apply B. apply length_replicate.
Defined.

(** X11 on the pot event of pot 2 turned up to 30000. *)
Lemma Poll_reports_select_button_only_witness :
  exists i, (i < 4)%nat /\ control_id (pot_event 2 3843) = Z.of_nat i.
Proof.
  destruct (Poll_reports_select_button_only poll_input_example ui_example
              (pot_event 2 3843) ui_example_wf) as (i & Hi & Hc & _).
  - vm_compute. left. reflexivity.
  - exists i. split; [exact Hi|exact Hc].
Defined.

(** X9 on pot 2 filtered at 3000 and read at 3020, then at 30000. *)
Lemma pot_filter_settles_witness :
  pot_filter ui_example [1000; 2000; 3020; 4000] 2 = 3000 /\
  3000 <= pot_filter ui_example [1000; 2000; 30000; 4000] 2 <= 30000.
Proof.
  destruct (pot_filter_settles ui_example [1000; 2000; 3020; 4000] 2) as (A & _).
  destruct (pot_filter_settles ui_example [1000; 2000; 30000; 4000] 2) as (B & _).
  split.
  - apply A; [discriminate|discriminate].
  - apply B. discriminate.
Defined.

(** X10 on the pots read at 1000, 2000, 30000 and 4000 twice. *)
Lemma first_poll_after_Init_is_quiet_witness :
  at_ (pot_value_ (Poll poll_input_example
                     (Init load_failed [1000; 2000; 30000; 4000] ui_example))) 2
  = 30000.
Proof.
  destruct (first_poll_after_Init_is_quiet load_failed [1000; 2000; 30000; 4000]
              ui_example poll_input_example ui_example_wf) as (_ & A).
  - repeat split; reflexivity.
  - split; [reflexivity|]. split; [reflexivity|].
    apply lt4_cases; split; discriminate.
  - apply (A 2%nat). repeat constructor.
Defined.

(** X12 on a button pressed at 12000 ms and released at 12345 ms. *)
Lemma short_press_emits_on_release_witness :
  emitted (poll_select_released 12345) ui_select_down
  = release_event 346
    :: pot_events_upto 256 ui_select_down [1000; 2000; 3000; 4000] 4.
Proof.
  destruct (short_press_emits_on_release (poll_select_released 12345) ui_select_down)
    as (A & _).
  - repeat split; reflexivity.
  - reflexivity.
  - reflexivity.
  - reflexivity.
  - discriminate.
  - reflexivity.
  - reflexivity.
  - exact A.
Defined.

(** X13 on a button pressed at 12000 ms, held at 12600 ms and released at
    12700 ms. *)
Lemma long_press_release_is_silent_witness :
  exists pots,
    emitted (poll_select_held 12600) ui_select_down = release_event 600 :: pots.
Proof.
  destruct (long_press_release_is_silent ui_select_down (poll_select_held 12600)
              (poll_select_released 12700)) as (A & _).
  - repeat split; reflexivity.
  - discriminate.
  - reflexivity.
  - reflexivity.
  - reflexivity.
  - reflexivity.
  - reflexivity.
  - reflexivity.
  - reflexivity.
  - reflexivity.
  - reflexivity.
  - eexists. exact A.
Defined.

(** X14 in Quad with no channel in catch-up: LED 1 is lit, LED 2 is not. *)
Lemma normal_mode_leds_witness :
  at_ (leds_ (Poll poll_input_example ui_example)) 1 = true /\
  at_ (leds_ (Poll poll_input_example ui_example)) 2 = false.
Proof.
  destruct (normal_mode_leds poll_input_example ui_example 1 ui_example_wf) as (A & _);
    [reflexivity|repeat constructor|].
  destruct (normal_mode_leds poll_input_example ui_example 2 ui_example_wf) as (B & _);
    [reflexivity|repeat constructor|].
  split; [exact A|exact B].
Defined.

Lemma processor_synced_wf : Processor_wf processor_synced.
Proof. repeat split; reflexivity. Defined.

Lemma processor_armed_wf : Processor_wf processor_armed.
Proof. repeat split; reflexivity. Defined.

(** X15 on channel 1 armed at 5000 and read at 30000: sub-sample 19. *)
Lemma reset_subsample_range_witness :
  exists p',
    detect_reset (tick 0 30000 0 0) 1 processor_armed = Some p' /\
    at_ (reset_subsample_ p') 1 = 19.
Proof.
  destruct (reset_subsample_range (tick 0 30000 0 0) 1 processor_armed)
    as (p' & E & _ & S & _).
  - repeat constructor.
  - exact processor_armed_wf.
  - refine (lt4_cases
              (fun i => at_ (reset_trigger_armed_ processor_armed) i = true ->
                        at_ (previous_reset_ processor_armed) i <= kResetThresholdHigh)
              _ _ _ _); intros Ha; try discriminate Ha. discriminate.
  - reflexivity.
  - exists p'. split; [exact E|exact S].
Defined.

(** X16 on a CV of 8000 against a filtered value of 0: 125. *)
Lemma cv_filter_settles_witness :
  exists p',
    @read_channel (flat_deps 0) ui_example tick_sync 0 processor_example = Some p' /\
    at_ (filtered_cv_ p') 0 = 125.
Proof.
  destruct (@read_channel (flat_deps 0) ui_example tick_sync 0 processor_example)
    as [p'|] eqn:E.
  - exists p'. split; [reflexivity|].
    destruct (@cv_filter_settles (flat_deps 0) ui_example tick_sync 0 processor_example p')
      as (A & _).
    + repeat constructor.
    + exact processor_example_wf.
    + exact E.
    + exact A.
  - vm_compute in E. discriminate E.
Defined.

(** X17 on the first tick after [Processor::Init]. *)
Lemma mode_changed_once_witness :
  waveform_offset_ (mode_changed ui_quad processor_example) = 0 /\
  at_ (lfo_ (mode_changed ui_quad processor_example)) 2 = [call_Init].
Proof.
  destruct (mode_changed_once ui_quad processor_example processor_example_wf)
    as (_ & _ & _ & A).
  destruct A as (A & B); [discriminate|].
  split; [exact A|]. apply (B 2%nat). repeat constructor.
Defined.

(** X18 on three ticks in free mode with the reset input of channel 1 at 0,
    30000, 30000. *)
Lemma free_mode_never_divides_by_zero_witness :
  exists p',
    @run (flat_deps 0)
      [(ui_free, tick 0 0 0 0); (ui_free, tick 0 30000 0 0); (ui_free, tick 0 30000 0 0)]
      processor_example = Some p'.
Proof.
  destruct (@free_mode_never_divides_by_zero (flat_deps 0)
              [(ui_free, tick 0 0 0 0); (ui_free, tick 0 30000 0 0);
               (ui_free, tick 0 30000 0 0)] processor_example processor_example_wf)
    as (p' & E & _).
  - repeat constructor; right; reflexivity.
  - exists p'. exact E.
Defined.

(** X19 on channel 2 in free mode. *)
Lemma output_outside_quad_witness :
  at_ (dac_ (fst (@output_stage (flat_deps 0) ui_free [1; 1; 1; 1] processor_example))) 2
  = {| dac_sine := 200; dac_asgn := 100 |}.
Proof.
  destruct (@output_outside_quad (flat_deps 0) ui_free [1; 1; 1; 1] processor_example
              processor_example_wf) with (i := 2%nat) as (_ & A).
  - discriminate.
  - repeat constructor.
  - exact A.
Defined.

(** X20 on an attenuated CV of 7999: multiplier 2. *)
Lemma SetFrequency_sync_ratio_witness :
  multiplier_of
    (at_ (lfo_ (@SetFrequency (flat_deps 0) ui_example tick_sync 0 processor_synced)) 0)
  = Some 2.
Proof.
  destruct (@SetFrequency_sync_ratio (flat_deps 0) ui_example tick_sync 0
              processor_synced processor_synced_wf)
    as (m & d & Hm & _ & E & _).
  - repeat constructor.
  - reflexivity.
  - rewrite Hm. f_equal. injection E as -> _. reflexivity.
Defined.

(** X21 on a synced channel whose coarse pot has not moved. *)
Lemma synced_pitch_hysteresis_witness :
  at_ (synced_ (@SetFrequency (flat_deps 0) ui_example tick_sync 0 processor_synced)) 0
  = true.
Proof.
  destruct (@synced_pitch_hysteresis (flat_deps 0) ui_example tick_sync 0
              processor_synced processor_synced_wf)
    as (_ & A & _).
  - repeat constructor.
  - reflexivity.
  - apply A. reflexivity.
Defined.

(** X22 on channel 2 with the level pot at its maximum: divider 3. *)
Lemma quad_mode_dividers_witness :
  divider_of (at_ (lfo_ (@mode_quad (flat_deps 0) ui_quad (tick 0 0 0 0)
                           processor_example)) 2) = Some 3.
Proof.
  destruct (@quad_mode_dividers (flat_deps 0) ui_quad (tick 0 0 0 0) processor_example 2
              processor_example_wf) as (_ & _ & A & _).
  - split; repeat constructor.
  - split; discriminate.
  - exact A.
Defined.

(** X23 on channel 2 with the phase pot at its maximum: divider 1. *)
Lemma phase_mode_dividers_witness :
  divider_of (at_ (lfo_ (@mode_phase (flat_deps 0) ui_phase (tick 0 0 0 0)
                           processor_example)) 2) = Some 1.
Proof.
  destruct (@phase_mode_dividers (flat_deps 0) ui_phase (tick 0 0 0 0) processor_example 2
              processor_example_wf) as (_ & _ & A & _).
  - split; repeat constructor.
  - left. discriminate.
  - split; discriminate.
  - exact A.
Defined.

(** X24 on a table whose entries are all 3: channel 2 divides by 3. *)
Lemma divide_mode_ratio_witness :
  linked_to (at_ (lfo_ (@mode_divide (flat_deps 3) ui_divide (tick 0 0 0 0)
                          processor_example)) 2) = Some 0%nat /\
  divider_of (at_ (lfo_ (@mode_divide (flat_deps 3) ui_divide (tick 0 0 0 0)
                           processor_example)) 2) = Some 3.
Proof.
  destruct (@divide_mode_ratio (flat_deps 3) ui_divide (tick 0 0 0 0) processor_example 2
              processor_example_wf) as (A & _ & (m & d & _ & Hd & E & _) & _).
  - split; repeat constructor.
  - split; [exact A|]. rewrite Hd. f_equal. injection E as _ ->. reflexivity.
Defined.

(** X25 on the offsets 2 and 6. *)
Lemma channel_shape_mod4_witness :
  @channel_shape (flat_deps 0) ui_example (tick 0 0 0 0)
    (set_waveform_offset 6 processor_example) 1
  = @channel_shape (flat_deps 0) ui_example (tick 0 0 0 0)
      (set_waveform_offset 2 processor_example) 1.
Proof.
  destruct (@channel_shape_mod4 (flat_deps 0) ui_example (tick 0 0 0 0)
              (set_waveform_offset 2 processor_example)
              (set_waveform_offset 6 processor_example) 1) as (A & _).
  - discriminate.
  - discriminate.
  - discriminate.
  - discriminate.
  - reflexivity.
  - exact A.
Defined.

(** X3 on an interface whose queue is empty. *)
Lemma DoEvents_drains_queue_witness : DoEvents ui_example = ui_example.
Proof.
  destruct (DoEvents_drains_queue ui_example) as (_ & A & _).
  apply A. reflexivity.
Defined.
